(** * Attendance Time Engine: a shallow embedding of erp-face

    The definitions below follow
    [attendance_app/services/attendance_manager.py],
    [attendance_app/views/attendance_views.py],
    [attendance_app/views/admin_views.py] and [attendance_app/models.py].

    Conventions of the embedding.
    - Python integers are [Z]; Python floats are exact rationals [Q]
      (rounding of float arithmetic is not modelled).
    - A [datetime.date] is the triple of its fields, as CPython stores it;
      date arithmetic goes through the proleptic Gregorian ordinal exactly
      as [datetime.py] does, including the [OverflowError] raised when a
      result leaves the years 1..9999.
    - A [datetime.time] is the number of microseconds since midnight; the
      order on [time] objects is the order on these numbers.
    - The clock ([timezone.now()], [timezone.localdate()],
      [timezone.localtime()]) is read once per call and passed in as [now],
      a local date and a local time of day in a zone with a fixed offset.
    - The record store is a record of lists; a queryset [filter(..).first()]
      is the first matching row. *)

From Stdlib Require Import ZArith QArith Qround Qabs List String Ascii Bool Lia
  Permutation.
Import ListNotations.
Local Open Scope Z_scope.

(** ** Exceptions and results *)

Inductive exn : Type :=
| OverflowError
| ValueError
| MultipleObjectsReturned.

Inductive result (A : Type) : Type :=
| Ok (a : A)
| Raise (e : exn).
Arguments Ok {A} a.
Arguments Raise {A} e.

Definition bind {A B : Type} (r : result A) (k : A -> result B) : result B :=
  match r with
  | Ok a => k a
  | Raise e => Raise e
  end.

Notation "'do' x <- r ;; k" := (bind r (fun x => k))
  (at level 10, x name, r at level 100, k at level 200).

(** ** Dates (CPython's [datetime.date]) *)

Module PyDate.

Record date : Type := mkdate { year : Z; month : Z; day : Z }.

Definition MINYEAR : Z := 1.
Definition MAXYEAR : Z := 9999.
Definition MAXORDINAL : Z := 3652059.

Definition is_leap (y : Z) : bool :=
  (y mod 4 =? 0) && (negb (y mod 100 =? 0) || (y mod 400 =? 0)).

(** [_DAYS_IN_MONTH] and [_DAYS_BEFORE_MONTH], indexed from 1. *)
Definition DAYS_IN_MONTH (m : Z) : Z :=
  match m with
  | 1 => 31 | 2 => 28 | 3 => 31 | 4 => 30 | 5 => 31 | 6 => 30
  | 7 => 31 | 8 => 31 | 9 => 30 | 10 => 31 | 11 => 30 | 12 => 31
  | _ => 0
  end.

Definition DAYS_BEFORE_MONTH (m : Z) : Z :=
  match m with
  | 1 => 0 | 2 => 31 | 3 => 59 | 4 => 90 | 5 => 120 | 6 => 151
  | 7 => 181 | 8 => 212 | 9 => 243 | 10 => 273 | 11 => 304 | 12 => 334
  | _ => 0
  end.

Definition days_before_year (y : Z) : Z :=
  let y1 := y - 1 in
  y1 * 365 + y1 / 4 - y1 / 100 + y1 / 400.

Definition days_in_month (y m : Z) : Z :=
  if (m =? 2) && is_leap y then 29 else DAYS_IN_MONTH m.

Definition days_before_month (y m : Z) : Z :=
  DAYS_BEFORE_MONTH m + (if (2 <? m) && is_leap y then 1 else 0).

Definition ymd2ord (y m d : Z) : Z :=
  days_before_year y + days_before_month y m + d.

Definition DI400Y : Z := 146097.
Definition DI100Y : Z := 36524.
Definition DI4Y : Z := 1461.

(** The end of [_ord2ymd]: month and day of the zero-based day [n] of a
    year, from the estimate [(n + 50) >> 5] of the month. *)
Definition month_day (n : Z) (leapyear : bool) : Z * Z :=
  let mo := Z.shiftr (n + 50) 5 in
  let preceding :=
    DAYS_BEFORE_MONTH mo + (if (2 <? mo) && leapyear then 1 else 0) in
  if n <? preceding then
    let mo' := mo - 1 in
    let preceding' :=
      preceding
      - (DAYS_IN_MONTH mo' + (if (mo' =? 2) && leapyear then 1 else 0)) in
    (mo', n - preceding' + 1)
  else (mo, n - preceding + 1).

(** The part of [_ord2ymd] that follows the split into 400-year cycles:
    [n] is the zero-based day inside the cycle, the year returned is
    relative to the cycle's first year. *)
Definition ord2ymd_in_cycle (n : Z) : Z * Z * Z :=
  let n100 := n / DI100Y in
  let n := n mod DI100Y in
  let n4 := n / DI4Y in
  let n := n mod DI4Y in
  let n1 := n / 365 in
  let n := n mod 365 in
  let yr := n100 * 100 + n4 * 4 + n1 in
  if (n1 =? 4) || (n100 =? 4) then (yr - 1, 12, 31)
  else
    let leapyear := (n1 =? 3) && (negb (n4 =? 24) || (n100 =? 3)) in
    let '(mo, d) := month_day n leapyear in
    (yr, mo, d).

Definition ord2ymd (n : Z) : Z * Z * Z :=
  let n := n - 1 in
  let n400 := n / DI400Y in
  let n := n mod DI400Y in
  let '(yr, mo, d) := ord2ymd_in_cycle n in
  (n400 * 400 + 1 + yr, mo, d).

(** The check done by the [date] constructor ([_check_date_fields]). *)
Definition valid_ymd (y m d : Z) : bool :=
  (MINYEAR <=? y) && (y <=? MAXYEAR)
  && (1 <=? m) && (m <=? 12)
  && (1 <=? d) && (d <=? days_in_month y m).

Definition valid (x : date) : bool := valid_ymd (year x) (month x) (day x).

Definition make_date (y m d : Z) : result date :=
  if valid_ymd y m d then Ok (mkdate y m d) else Raise ValueError.

Definition toordinal (x : date) : Z := ymd2ord (year x) (month x) (day x).

Definition fromordinal (n : Z) : date :=
  let '(y, m, d) := ord2ymd n in mkdate y m d.

Definition weekday (x : date) : Z := (toordinal x + 6) mod 7.

(** [date + timedelta(days=k)]. *)
Definition add_days (x : date) (k : Z) : result date :=
  let o := toordinal x + k in
  if (0 <? o) && (o <=? MAXORDINAL) then Ok (fromordinal o)
  else Raise OverflowError.

(** [date - timedelta(days=k)] is [date + timedelta(days=-k)]. *)
Definition sub_days (x : date) (k : Z) : result date := add_days x (- k).

Definition replace_day (x : date) (d : Z) : result date :=
  make_date (year x) (month x) d.

Definition replace_month_day (x : date) (m d : Z) : result date :=
  make_date (year x) m d.

Definition replace_year (x : date) (y : Z) : result date :=
  make_date y (month x) (day x).

(** Comparison of dates is comparison of the field triples. *)
Definition date_ltb (a b : date) : bool :=
  (year a <? year b)
  || ((year a =? year b)
      && ((month a <? month b)
          || ((month a =? month b) && (day a <? day b)))).

Definition date_eqb (a b : date) : bool :=
  (year a =? year b) && (month a =? month b) && (day a =? day b).

Definition date_leb (a b : date) : bool := date_ltb a b || date_eqb a b.

(** [(x.replace(day=28) + timedelta(days=4)).replace(day=1)], the idiom
    the source uses for the first day of the following month. *)
Definition first_of_following_month (x : date) : result date :=
  do d28 <- replace_day x 28 ;;
  do d32 <- add_days d28 4 ;;
  replace_day d32 1.

(** [calendar.monthrange(y, m)[1]] and [calendar.isleap]. *)
Definition monthrange_ndays (y m : Z) : Z := days_in_month y m.

End PyDate.
Import PyDate.

(** ** Times of day, instants and durations *)

(** A [datetime.time], as microseconds since midnight. *)
Definition time : Type := Z.

Definition US_PER_SECOND : Z := 1000000.
Definition US_PER_DAY : Z := 86400 * US_PER_SECOND.

(** [time(h, m)]. *)
Definition mk_time (h m : Z) : time := (h * 3600 + m * 60) * US_PER_SECOND.

Definition time_min : time := 0.

Definition time_hour (t : time) : Z := t / (3600 * US_PER_SECOND).
Definition time_minute (t : time) : Z := (t / (60 * US_PER_SECOND)) mod 60.

Definition valid_time (t : time) : bool := (0 <=? t) && (t <? US_PER_DAY).

Record datetime : Type := mkdatetime { dt_date : date; dt_time : time }.

(** [datetime.combine(d, t)]. *)
Definition combine (d : date) (t : time) : datetime := mkdatetime d t.

(** Position of an instant on the time line, in microseconds. *)
Definition instant_us (x : datetime) : Z :=
  toordinal (dt_date x) * US_PER_DAY + dt_time x.

(** A [timedelta] is a whole number of microseconds;
    [total_seconds()] turns it into a float. *)
Definition total_seconds (us : Z) : Q := inject_Z us / inject_Z US_PER_SECOND.

(** [timezone.localdate()] and [timezone.localtime().time()]. *)
Definition localdate (now : datetime) : date := dt_date now.
Definition localtime_time (now : datetime) : time := dt_time now.

(** ** The data model ([models.py]) *)

Inductive BreakType : Type := LUNCH | OTHER.
Inductive AttendanceType : Type := IN | OUT.

Definition AttendanceType_eqb (a b : AttendanceType) : bool :=
  match a, b with
  | IN, IN | OUT, OUT => true
  | _, _ => false
  end.

Record Break : Type := mkBreak {
  break_type : BreakType;
  break_in : option time;
  break_out : option time
}.

Record Employee : Type := mkEmployee {
  emp_pk : Z;
  name : string;
  employee_id : string;
  last_seen : option datetime
}.

Record AttendanceRecord : Type := mkAttendanceRecord {
  rec_pk : Z;
  rec_employee : Z;                 (* foreign key: [emp_pk] *)
  rec_date : date;
  rec_time : time;
  attendance_type : AttendanceType;
  remarks : string;
  emotional_state : option string;
  breaks : option (list Break)
}.

Record LocationSetting : Type := mkLocationSetting {
  latitude : Q;
  longitude : Q;
  radius_meters : Z
}.

Record Store : Type := mkStore {
  employees : list Employee;
  records : list AttendanceRecord;
  location : option LocationSetting   (* [LocationSetting.objects.first()] *)
}.

(** [AttendanceRecord.objects.filter(employee=e, date=d,
    attendance_type=ty).first()]. *)
Definition matches (e : Z) (d : date) (ty : AttendanceType)
    (r : AttendanceRecord) : bool :=
  (rec_employee r =? e) && date_eqb (rec_date r) d
  && AttendanceType_eqb (attendance_type r) ty.

Definition first_record (s : Store) (e : Z) (d : date) (ty : AttendanceType)
    : option AttendanceRecord :=
  find (matches e d ty) (records s).

(** The primary key given to a newly created row. *)
Definition next_pk (s : Store) : Z :=
  1 + fold_right Z.max 0 (map rec_pk (records s)).

(** [Model.save()] of an employee object: the row with its primary key is
    overwritten. *)
Definition save_employee (s : Store) (e : Employee) : Store :=
  mkStore
    (map (fun x => if emp_pk x =? emp_pk e then e else x) (employees s))
    (records s) (location s).

(** [in_record.save(update_fields=['breaks'])]. *)
Definition save_breaks (s : Store) (r : AttendanceRecord)
    (bs : option (list Break)) : Store :=
  mkStore
    (employees s)
    (map (fun x =>
            if rec_pk x =? rec_pk r then
              mkAttendanceRecord (rec_pk x) (rec_employee x) (rec_date x)
                (rec_time x) (attendance_type x) (remarks x)
                (emotional_state x) bs
            else x)
         (records s))
    (location s).

Definition set_last_seen (e : Employee) (t : datetime) : Employee :=
  mkEmployee (emp_pk e) (name e) (employee_id e) (Some t).

(** Python truth value of an optional string and of an optional list. *)
Definition truthy_string (o : option string) : bool :=
  match o with
  | Some s => negb (String.eqb s EmptyString)
  | None => false
  end.

Definition truthy_list {A : Type} (o : option (list A)) : bool :=
  match o with
  | Some (_ :: _) => true
  | _ => false
  end.

(** ** [AttendanceManager] ([services/attendance_manager.py]) *)

Definition IN_TIME_START : time := mk_time 10 0.
Definition IN_TIME_END : time := mk_time 11 0.
Definition LUNCH_TIME_START : time := mk_time 13 30.
Definition LUNCH_TIME_END : time := mk_time 14 30.
Definition OUT_TIME_MIN : time := mk_time 19 0.
Definition OFFICE_CLOSE : time := mk_time 23 59.
Definition STANDARD_WORK_HOURS : Z := 9.
Definition OUT_TIME_DEFAULT : time := mk_time 19 15.

Definition get_period_dates (today : date) (period : string)
    : result (date * date) :=
  if String.eqb period "week" then
    do start_date <- sub_days today (weekday today) ;;
    do end_date <- add_days start_date 6 ;;
    Ok (start_date, end_date)
  else if String.eqb period "month" then
    do start_date <- replace_day today 1 ;;
    do next_month <- first_of_following_month today ;;
    do end_date <- sub_days next_month 1 ;;
    Ok (start_date, end_date)
  else if String.eqb period "year" then
    do start_date <- replace_month_day today 1 1 ;;
    do end_date <- replace_month_day today 12 31 ;;
    Ok (start_date, end_date)
  else
    Ok (today, today).

(** [create_attendance_record]: the new row is stamped with the local date
    and time, the emotional state is kept only on an IN row and only when it
    is a non-empty string, and the employee's [last_seen] is saved. *)
Definition create_attendance_record (s : Store) (now : datetime)
    (employee : Employee) (ty : AttendanceType) (rem : string)
    (emotion : option string) : Store * Employee :=
  let row :=
    mkAttendanceRecord (next_pk s) (emp_pk employee) (localdate now)
      (localtime_time now) ty rem
      (if AttendanceType_eqb ty IN && truthy_string emotion
       then emotion else None)
      None in
  let employee' := set_last_seen employee now in
  let s1 := mkStore (employees s) (records s ++ [row]) (location s) in
  (save_employee s1 employee', employee').

(** The loop over [in_record.breaks]: seconds of closed lunch breaks and of
    closed other breaks. *)
Fixpoint sum_breaks (bs : list Break) (lunch other : Q) : Q * Q :=
  match bs with
  | [] => (lunch, other)
  | b :: rest =>
      match break_in b, break_out b with
      | Some bi, Some bo =>
          let break_duration := bo - bi in
          match break_type b with
          | LUNCH =>
              sum_breaks rest (lunch + total_seconds break_duration)%Q other
          | OTHER =>
              sum_breaks rest lunch (other + total_seconds break_duration)%Q
          end
      | _, _ => sum_breaks rest lunch other
      end
  end.

Definition break_seconds (r : AttendanceRecord) : Q * Q :=
  if truthy_list (breaks r)
  then sum_breaks (match breaks r with Some l => l | None => [] end) 0%Q 0%Q
  else (0%Q, 0%Q).

(** The instant [end_dt] chosen by [calculate_working_hours], with the
    [has_out] flag. *)
Definition effective_end (out_record : option AttendanceRecord)
    (target_date : date) (now : datetime) : datetime * bool :=
  match out_record with
  | Some o => (combine target_date (rec_time o), true)
  | None =>
      if date_ltb target_date (localdate now)
      then (combine target_date OUT_TIME_DEFAULT, false)
      else (now, false)
  end.

Definition SECONDS_PER_HOUR : Q := 3600%Q.

(** [total_working_seconds] once [start_dt] and [end_dt] are known. *)
Definition working_seconds (start_dt end_dt : datetime) (lunch other : Q) : Q :=
  if instant_us start_dt <? instant_us end_dt
  then (total_seconds (instant_us end_dt - instant_us start_dt)
        - (lunch + other))%Q
  else 0%Q.

(** Returns [(total_hours, lunch_duration_hours,
    other_break_duration_hours, has_out)]. *)
Definition calculate_working_hours (s : Store) (now : datetime)
    (employee : Z) (target_date : date) : Q * Q * Q * bool :=
  let in_record := first_record s employee target_date IN in
  let out_record := first_record s employee target_date OUT in
  let '(total_working_seconds, lunch_duration_seconds,
        other_break_duration_seconds, has_out) :=
    match in_record with
    | Some i =>
        let '(lunch, other) := break_seconds i in
        let start_dt := combine target_date (rec_time i) in
        let '(end_dt, has_out) := effective_end out_record target_date now in
        (working_seconds start_dt end_dt lunch other, lunch, other, has_out)
    | None => (0%Q, 0%Q, 0%Q, false)
    end in
  ((total_working_seconds / SECONDS_PER_HOUR)%Q,
   (lunch_duration_seconds / SECONDS_PER_HOUR)%Q,
   (other_break_duration_seconds / SECONDS_PER_HOUR)%Q,
   has_out).

(** ** Formatting ([strftime]) *)

Definition digit (d : Z) : ascii := ascii_of_nat (Z.to_nat (48 + d)).

Definition pad2 (n : Z) : string :=
  String (digit (n / 10 mod 10)) (String (digit (n mod 10)) EmptyString).

Definition pad4 (n : Z) : string :=
  String (digit (n / 1000 mod 10)) (String (digit (n / 100 mod 10)) (pad2 n)).

(** [t.strftime('%I:%M %p')]. *)
Definition strftime_IMp (t : time) : string :=
  let h := time_hour t in
  let h12 := if h mod 12 =? 0 then 12 else h mod 12 in
  (pad2 h12 ++ ":" ++ pad2 (time_minute t) ++ " "
   ++ (if (h <? 12)%Z then "AM" else "PM"))%string.

(** [d.strftime('%Y-%m-%d')], [d.strftime('%Y-%m')], [d.strftime('%Y')]. *)
Definition strftime_Ymd (d : date) : string :=
  (pad4 (year d) ++ "-" ++ pad2 (month d) ++ "-" ++ pad2 (day d))%string.
Definition strftime_Ym (d : date) : string :=
  (pad4 (year d) ++ "-" ++ pad2 (month d))%string.
Definition strftime_Y (d : date) : string := pad4 (year d).

(** ** Sorting

    [sorted] and [order_by] are stable; [insert_sorted lt] places an element
    in front of the first one that is not smaller than it. *)

Fixpoint insert_sorted {A : Type} (lt : A -> A -> bool) (x : A) (l : list A)
    : list A :=
  match l with
  | [] => [x]
  | y :: t => if lt y x then y :: insert_sorted lt x t else x :: l
  end.

Definition sorted {A : Type} (lt : A -> A -> bool) (l : list A) : list A :=
  fold_right (insert_sorted lt) [] l.

(** ** [get_filtered_attendance_summary] *)

Record SummaryRow : Type := mkSummaryRow {
  sr_employee : Employee;
  sr_employee_name : string;
  sr_employee_id : string;
  sr_date : string;
  sr_in_time : string;
  sr_breaks : option (list Break);
  sr_out_record : option AttendanceRecord;
  sr_has_out : bool;
  sr_record : AttendanceRecord       (* the IN row the entry was built from *)
}.

Definition find_employee (s : Store) (pk : Z) : option Employee :=
  find (fun e => emp_pk e =? pk) (employees s).

(** [select_related('employee')]: each row with its employee. *)
Fixpoint join_employee (s : Store) (rs : list AttendanceRecord)
    : list (AttendanceRecord * Employee) :=
  match rs with
  | [] => []
  | r :: t =>
      match find_employee s (rec_employee r) with
      | Some e => (r, e) :: join_employee s t
      | None => join_employee s t
      end
  end.

(** [order_by('date', 'employee__name')]. *)
Definition summary_order_lt (a b : AttendanceRecord * Employee) : bool :=
  date_ltb (rec_date (fst a)) (rec_date (fst b))
  || (date_eqb (rec_date (fst a)) (rec_date (fst b))
      && String.ltb (name (snd a)) (name (snd b))).

(** Python truth value of the threshold: [None] and [0.0] are false. *)
Definition truthy_float (o : option Q) : bool :=
  match o with
  | Some q => negb (Qeq_bool q 0)
  | None => false
  end.

Definition float_of_threshold (o : option Q) : Q :=
  match o with Some q => q | None => 0%Q end.

(** [total_hours_lt and total_hours >= float(total_hours_lt)]. *)
Definition skip_record (total_hours_lt : option Q) (total_hours : Q) : bool :=
  truthy_float total_hours_lt
  && Qle_bool (float_of_threshold total_hours_lt) total_hours.

Definition summary_entry (s : Store) (now : datetime)
    (re : AttendanceRecord * Employee) : SummaryRow :=
  let '(record, employee) := re in
  let '(_, _, _, has_out) :=
    calculate_working_hours s now (emp_pk employee) (rec_date record) in
  mkSummaryRow employee (name employee) (employee_id employee)
    (strftime_Ymd (rec_date record)) (strftime_IMp (rec_time record))
    (breaks record)
    (first_record s (emp_pk employee) (rec_date record) OUT)
    has_out record.

Definition record_hours (s : Store) (now : datetime)
    (re : AttendanceRecord * Employee) : Q :=
  let '(total_hours, _, _, _) :=
    calculate_working_hours s now (emp_pk (snd re)) (rec_date (fst re)) in
  total_hours.

Fixpoint summary_loop (s : Store) (now : datetime) (total_hours_lt : option Q)
    (rs : list (AttendanceRecord * Employee)) : list SummaryRow :=
  match rs with
  | [] => []
  | re :: rest =>
      if skip_record total_hours_lt (record_hours s now re)
      then summary_loop s now total_hours_lt rest
      else summary_entry s now re :: summary_loop s now total_hours_lt rest
  end.

(** The rows selected by the query, in query order.  The two date strings
    are given by the result of [strptime] on them ([None] when it raises). *)
Definition selected_records (s : Store) (start_date end_date : date)
    (employee_ids_list : list string) : list (AttendanceRecord * Employee) :=
  let base :=
    filter (fun r => date_leb start_date (rec_date r)
                     && date_leb (rec_date r) end_date
                     && AttendanceType_eqb (attendance_type r) IN)
           (records s) in
  let joined := join_employee s base in
  let restricted :=
    match employee_ids_list with
    | [] => joined
    | _ :: _ =>
        filter (fun re => existsb (String.eqb (employee_id (snd re)))
                                  employee_ids_list)
               joined
    end in
  sorted summary_order_lt restricted.

Definition get_filtered_attendance_summary (s : Store) (now : datetime)
    (filter_start_date filter_end_date : option date)
    (employee_ids_list : list string) (total_hours_lt : option Q)
    : list SummaryRow :=
  match filter_start_date, filter_end_date with
  | Some start_date, Some end_date =>
      summary_loop s now total_hours_lt
        (selected_records s start_date end_date employee_ids_list)
  | _, _ => []
  end.

(** ** [get_attendance_percentage_trends] *)

Inductive Interval : Type := Daily | Monthly | Yearly.

(** [interval] is a string in the source; every value other than ['daily']
    and ['monthly'] takes the yearly branch. *)
Definition interval_of_string (i : string) : Interval :=
  if String.eqb i "daily" then Daily
  else if String.eqb i "monthly" then Monthly
  else Yearly.

(** A [defaultdict] with counters [present] and [absent]. *)
Definition trend_dict : Type := list (string * (Z * Z)).

Fixpoint dict_add (d : trend_dict) (key : string) (p a : Z) : trend_dict :=
  match d with
  | [] => [(key, (0 + p, 0 + a))]
  | (k, (p0, a0)) :: t =>
      if String.eqb k key then (k, (p0 + p, a0 + a)) :: t
      else (k, (p0, a0)) :: dict_add t key p a
  end.

Fixpoint dict_get (d : trend_dict) (key : string) : Z * Z :=
  match d with
  | [] => (0, 0)
  | (k, v) :: t => if String.eqb k key then v else dict_get t key
  end.

(** [[current + timedelta(days=d) for d in range(n) if current +
    timedelta(days=d) <= end_date]]. *)
Fixpoint window_days (current end_date : date) (offsets : list Z)
    : result (list date) :=
  match offsets with
  | [] => Ok []
  | d :: rest =>
      do x <- add_days current d ;;
      do tl <- window_days current end_date rest ;;
      Ok (if date_leb x end_date then x :: tl else tl)
  end.

Definition range (n : Z) : list Z := map Z.of_nat (seq 0 (Z.to_nat n)).

(** One pass of the loop body up to [next_date]: the key, the days to check
    and the next date. *)
Definition trend_step (interval : Interval) (current_date end_date : date)
    : result (string * list date * date) :=
  match interval with
  | Daily =>
      do next_date <- add_days current_date 1 ;;
      Ok (strftime_Ymd current_date, [current_date], next_date)
  | Monthly =>
      let num_days :=
        monthrange_ndays (year current_date) (month current_date) in
      do days_to_check <- window_days current_date end_date (range num_days) ;;
      do next_date <- first_of_following_month current_date ;;
      Ok (strftime_Ym current_date, days_to_check, next_date)
  | Yearly =>
      let num_days := 365 + (if is_leap (year current_date) then 1 else 0) in
      do days_to_check <- window_days current_date end_date (range num_days) ;;
      do next_date <- replace_year current_date (year current_date + 1) ;;
      Ok (strftime_Y current_date, days_to_check, next_date)
  end.

(** [set(AttendanceRecord.objects.filter(date__in=days,
    attendance_type='IN').values_list('employee', flat=True))]. *)
Definition present_employees (s : Store) (days : list date) : list Z :=
  nodup Z.eq_dec
    (map rec_employee
       (filter (fun r => existsb (date_eqb (rec_date r)) days
                         && AttendanceType_eqb (attendance_type r) IN)
               (records s))).

(** The [while current_date <= end_date] loop; [None] when [fuel] passes are
    not enough. *)
Fixpoint trend_loop (fuel : nat) (s : Store) (total_employees : Z)
    (interval : Interval) (end_date current_date : date) (d : trend_dict)
    : option (result trend_dict) :=
  if date_leb current_date end_date then
    match fuel with
    | O => None
    | S fuel' =>
        match trend_step interval current_date end_date with
        | Raise e => Some (Raise e)
        | Ok (key, days_to_check, next_date) =>
            let present_count :=
              Z.of_nat (List.length (present_employees s days_to_check)) in
            let absent_count := total_employees - present_count in
            trend_loop fuel' s total_employees interval end_date next_date
              (dict_add d key present_count absent_count)
        end
    end
  else Some (Ok d).

Inductive TrendResult : Type :=
| EmptyTrend                                   (* the [[]] returned early *)
| Trend (labels : list string) (present absent : list Z).

Definition trend_result (d : trend_dict) : TrendResult :=
  let labels := sorted String.ltb (map fst d) in
  Trend labels
    (map (fun l => fst (dict_get d l)) labels)
    (map (fun l => snd (dict_get d l)) labels).

(** Every pass moves [current_date] forward by at least one day, so the
    number of days in the range bounds the number of passes. *)
Definition trend_fuel (start_date end_date : date) : nat :=
  Z.to_nat (toordinal end_date - toordinal start_date + 1).

Definition get_attendance_percentage_trends (s : Store)
    (start_date end_date : date) (interval : string)
    : option (result TrendResult) :=
  let total_employees := Z.of_nat (List.length (employees s)) in
  if total_employees =? 0 then Some (Ok EmptyTrend)
  else
    match trend_loop (trend_fuel start_date end_date) s total_employees
            (interval_of_string interval) end_date start_date [] with
    | None => None
    | Some (Raise e) => Some (Raise e)
    | Some (Ok d) => Some (Ok (trend_result d))
    end.

(** ** The attendance state machine ([mark_attendance_with_gesture]) *)

(** A coordinate of the request after [data.get] and [float]: absent (or
    JSON null), present but rejected by [float], or a number. *)
Inductive Coord : Type :=
| CoordNone
| CoordInvalid
| CoordFloat (q : Q).

Record RequestData : Type := mkRequestData {
  recognized_name : option string;
  user_latitude : Coord;
  user_longitude : Coord;
  req_emotional_state : option string
}.

(** What [geodesic(a, b).meters] (geopy) does: a distance, a [ValueError]
    (a latitude outside [-90, 90]) or another exception. *)
Inductive GeoOutcome : Type :=
| GeoMeters (m : Q)
| GeoValueError
| GeoError.

Inductive Status : Type := StInfo | StFailure | StSuccess | StError.

Inductive Action : Type := ActIN | ActOUT | ActBREAK_OUT | ActBREAK_IN.

(** The text appended to the message of a recorded action. *)
Inductive Suffix : Type :=
| NoSuffix
| SuffixInvalidCoordinates
| SuffixCheckFailed
| SuffixNoOffice
| SuffixNoDeviceLocation.

(** Messages, kept as the template and its arguments. *)
Inductive Message : Type :=
| MsgInvalidJson
| MsgInternalError (e : exn)
| MsgUnknownPerson
| MsgNotFound (who : string)
| MsgTooFar (distance_int : Z) (radius : Z)
| MsgNoAction
| MsgInTime (who : string)
| MsgOutTime (who : string)
| MsgBreakOut (ty : BreakType)
| MsgBreakIn (ty : BreakType)
| MsgAlreadyOut (who : string).

Record Response : Type := mkResponse {
  http_status : Z;
  status : Status;
  message : Message;
  suffix : Suffix;
  resp_recognized_name : option string;
  resp_attendance_type : option Action;
  is_late : option bool
}.

(** [int(x)] on a float truncates toward zero. *)
Definition int_of_float (x : Q) : Z :=
  if Qle_bool 0 x then Qfloor x else Qceiling x.

Definition Qgt_bool (x y : Q) : bool := negb (Qle_bool x y).

(** Outcome of the geofencing block: reject with a response, or go on with
    a message suffix. *)
Inductive GeoCheck : Type :=
| GeoReject (distance_meters : Q) (radius : Z)
| GeoProceed (sfx : Suffix).

Section StateMachine.

Variable geodesic_meters : Q * Q -> Q * Q -> GeoOutcome.

Definition geofence_check (office_setting : option LocationSetting)
    (lat lon : Coord) : GeoCheck :=
  match office_setting, lat, lon with
  | Some office, CoordFloat ulat, CoordFloat ulon =>
      let office_coords := (latitude office, longitude office) in
      let user_coords := (ulat, ulon) in
      match geodesic_meters office_coords user_coords with
      | GeoMeters distance_meters =>
          if Qgt_bool distance_meters (inject_Z (radius_meters office))
          then GeoReject distance_meters (radius_meters office)
          else GeoProceed NoSuffix
      | GeoValueError => GeoProceed SuffixInvalidCoordinates
      | GeoError => GeoProceed SuffixCheckFailed
      end
  | Some _, CoordNone, _ | Some _, _, CoordNone =>
      GeoProceed SuffixNoDeviceLocation
  | Some _, _, _ => GeoProceed SuffixInvalidCoordinates
  | None, _, _ => GeoProceed SuffixNoOffice
  end.

(** [employee.save(update_fields=['last_seen'])]. *)
Definition save_last_seen (s : Store) (e : Employee) (t : datetime) : Store :=
  mkStore
    (map (fun x => if emp_pk x =? emp_pk e then set_last_seen x t else x)
         (employees s))
    (records s) (location s).

(** [in_record.breaks[-1] if in_record.breaks and
    in_record.breaks[-1].break_in else None]. *)
Definition last_break_of (bs : option (list Break)) : option Break :=
  match bs with
  | Some (b0 :: l) =>
      let b := last l b0 in
      match break_in b with
      | Some _ => Some b
      | None => None
      end
  | _ => None
  end.

Definition is_open (b : Break) : bool :=
  match break_out b with
  | None => true
  | Some _ => false
  end.

(** The list after [last_break.break_out = current_time]: [last_break] is
    the last element of the list itself, so the list sees the assignment. *)
Definition close_last (bs : list Break) (current_time : time) : list Break :=
  match bs with
  | [] => []
  | b0 :: l =>
      let b := last l b0 in
      removelast bs ++ [mkBreak (break_type b) (break_in b) (Some current_time)]
  end.

Definition breaks_or_empty (bs : option (list Break)) : list Break :=
  if truthy_list bs then match bs with Some l => l | None => [] end else [].

(** The branch taken once the employee is known and the geofence passed:
    the new store, the action (if any), the message and [is_late]. *)
Definition attendance_transition (s : Store) (now : datetime)
    (employee : Employee) (emotion : option string)
    : Store * option Action * Message * bool :=
  let current_date := localdate now in
  let current_time := localtime_time now in
  let in_record := first_record s (emp_pk employee) current_date IN in
  let out_record := first_record s (emp_pk employee) current_date OUT in
  match in_record, out_record with
  | None, _ =>
      let late := IN_TIME_END <? current_time in
      let rem := if late then "Late entry."%string else "On time."%string in
      let '(s', _) :=
        create_attendance_record s now employee IN rem emotion in
      (s', Some ActIN, MsgInTime (name employee), late)
  | Some i, None =>
      if OUT_TIME_MIN <=? current_time then
        let '(s', _) :=
          create_attendance_record s now employee OUT "Out Time." None in
        (s', Some ActOUT, MsgOutTime (name employee), false)
      else
        let is_lunch_time :=
          (LUNCH_TIME_START <=? current_time)
          && (current_time <=? LUNCH_TIME_END) in
        match last_break_of (breaks i) with
        | Some last_break =>
            if is_open last_break then
              (save_breaks s i
                 (Some (close_last (breaks_or_empty (breaks i)) current_time)),
               Some ActBREAK_OUT, MsgBreakOut (break_type last_break), false)
            else
              let new_break_type := if is_lunch_time then LUNCH else OTHER in
              let new_break :=
                mkBreak new_break_type (Some current_time) None in
              (save_breaks s i
                 (Some (breaks_or_empty (breaks i) ++ [new_break])),
               Some ActBREAK_IN, MsgBreakIn new_break_type, false)
        | None =>
            let new_break_type := if is_lunch_time then LUNCH else OTHER in
            let new_break :=
              mkBreak new_break_type (Some current_time) None in
            (save_breaks s i
               (Some (breaks_or_empty (breaks i) ++ [new_break])),
             Some ActBREAK_IN, MsgBreakIn new_break_type, false)
        end
  | Some _, Some _ =>
      (s, None, MsgAlreadyOut (name employee), false)
  end.

(** [Employee.objects.get(name=...)]. *)
Inductive GetEmployee : Type :=
| DoesNotExist
| Found (e : Employee)
| Multiple.

Definition get_employee_by_name (s : Store) (who : string) : GetEmployee :=
  match filter (fun e => String.eqb (name e) who) (employees s) with
  | [] => DoesNotExist
  | [e] => Found e
  | _ => Multiple
  end.

(** The part of the view that follows the employee lookup: the geofencing
    block, the transition, the [last_seen] update and the response. *)
Definition after_lookup (s : Store) (now : datetime) (data : RequestData)
    (employee : Employee) : Response * Store :=
  match geofence_check (location s) (user_latitude data)
          (user_longitude data) with
  | GeoReject distance_meters radius =>
      (mkResponse 200 StInfo (MsgTooFar (int_of_float distance_meters) radius)
         NoSuffix (Some (name employee)) None None, s)
  | GeoProceed sfx =>
      let '(s1, attendance_type, msg, late) :=
        attendance_transition s now employee (req_emotional_state data) in
      let s2 := save_last_seen s1 employee now in
      match attendance_type with
      | Some act =>
          (mkResponse 200 StSuccess msg sfx (Some (name employee)) (Some act)
             (Some late), s2)
      | None =>
          (mkResponse 200 StInfo msg NoSuffix (Some (name employee)) None
             (Some false), s2)
      end
  end.

(** The view: the response and the store it leaves.  [body] is the result
    of [json.loads] ([None] when it raises [JSONDecodeError]). *)
Definition mark_attendance_with_gesture (s : Store) (now : datetime)
    (body : option RequestData) : Response * Store :=
  match body with
  | None =>
      (mkResponse 400 StError MsgInvalidJson NoSuffix None None None, s)
  | Some data =>
      match recognized_name data with
      | None =>
          (mkResponse 200 StInfo MsgUnknownPerson NoSuffix (Some "Unknown"%string)
             None None, s)
      | Some who =>
          if String.eqb who "" || String.eqb who "Unknown" then
            (mkResponse 200 StInfo MsgUnknownPerson NoSuffix (Some "Unknown"%string)
               None None, s)
          else
            match get_employee_by_name s who with
            | DoesNotExist =>
                (mkResponse 200 StFailure (MsgNotFound who) NoSuffix
                   (Some who) None None, s)
            | Multiple =>
                (mkResponse 500 StError
                   (MsgInternalError MultipleObjectsReturned) NoSuffix
                   None None None, s)
            | Found employee => after_lookup s now data employee
            end
      end
  end.

End StateMachine.

(** ** The attendance report ([admin_views.py]) *)

(** The [out_time] column computed by
    [_process_attendance_record_for_report]. *)
Definition report_out_time_str (out_record : option AttendanceRecord)
    (has_out_record : bool) (record_date_obj today_date : date) : string :=
  match out_record with
  | Some o => strftime_IMp (rec_time o)
  | None =>
      if negb has_out_record && date_ltb record_date_obj today_date
      then strftime_IMp OUT_TIME_DEFAULT
      else if negb has_out_record then "In progress..."%string
      else "-"%string
  end.

(** A processed row, as handed to the sort and to the template. *)
Record ReportRow : Type := mkReportRow {
  row_employee_name : string;
  row_employee_id : string;
  row_date : string;
  row_in_time : string;
  row_out_time : string;
  row_lunch_in_time : string;
  row_lunch_out_time : string;
  row_total_break_duration : string;
  row_total_working_hours : string;
  row_overtime_hours : string
}.

(** [needle in hay]. *)
Fixpoint contains (needle hay : string) : bool :=
  String.prefix needle hay
  || match hay with
     | EmptyString => false
     | String _ t => contains needle t
     end.

(** [s.replace(old, new)] for a non-empty [old]; [skip] counts the
    characters of a matched occurrence still to be dropped. *)
Fixpoint replace_from (old new : string) (skip : nat) (s : string) : string :=
  match s with
  | EmptyString => EmptyString
  | String c t =>
      match skip with
      | S k => replace_from old new k t
      | O =>
          if String.prefix old s
          then (new ++ replace_from old new (String.length old - 1) t)%string
          else String c (replace_from old new 0 t)
      end
  end.

Definition str_replace (s old new : string) : string :=
  replace_from old new 0 s.

Definition code (c : ascii) : Z := Z.of_nat (nat_of_ascii c).
Definition is_digit (c : ascii) : bool := (48 <=? code c) && (code c <=? 57).
Definition digit_val (c : ascii) : Z := code c - 48.
Definition is_space (c : ascii) : bool :=
  (code c =? 32) || ((9 <=? code c) && (code c <=? 13)).
Definition lower (c : ascii) : ascii :=
  if (65 <=? code c) && (code c <=? 90)
  then ascii_of_nat (nat_of_ascii c + 32) else c.

(** *** [datetime.strptime(value, '%I:%M %p').time()]

    The format compiles to the regular expression
    [(1[0-2]|0[1-9]|[1-9]):([0-5]\d|\d)\s+(am|pm)], matched against the whole
    string without regard to case; the alternatives are tried in order. *)

Definition hour_candidates (l : list ascii) : list (Z * list ascii) :=
  (match l with
   | c1 :: c2 :: rest =>
       if (code c1 =? 49) && (48 <=? code c2) && (code c2 <=? 50)
       then [(10 + digit_val c2, rest)]
       else if (code c1 =? 48) && (49 <=? code c2) && (code c2 <=? 57)
       then [(digit_val c2, rest)]
       else []
   | _ => []
   end)
  ++ (match l with
      | c1 :: rest =>
          if (49 <=? code c1) && (code c1 <=? 57)
          then [(digit_val c1, rest)] else []
      | [] => []
      end).

Definition minute_candidates (l : list ascii) : list (Z * list ascii) :=
  (match l with
   | c1 :: c2 :: rest =>
       if (48 <=? code c1) && (code c1 <=? 53) && is_digit c2
       then [(10 * digit_val c1 + digit_val c2, rest)] else []
   | _ => []
   end)
  ++ (match l with
      | c1 :: rest => if is_digit c1 then [(digit_val c1, rest)] else []
      | [] => []
      end).

Fixpoint skip_spaces (l : list ascii) : list ascii :=
  match l with
  | c :: rest => if is_space c then skip_spaces rest else l
  | [] => []
  end.

(** [\s+(am|pm)] up to the end of the string: [Some true] for pm. *)
Definition parse_ampm (l : list ascii) : option bool :=
  match l with
  | c :: rest =>
      if is_space c then
        match skip_spaces rest with
        | [a; m] =>
            if code (lower m) =? 109 then
              if code (lower a) =? 97 then Some false
              else if code (lower a) =? 112 then Some true
              else None
            else None
        | _ => None
        end
      else None
  | [] => None
  end.

Fixpoint first_some {A B : Type} (f : A -> option B) (l : list A) : option B :=
  match l with
  | [] => None
  | x :: t => match f x with Some y => Some y | None => first_some f t end
  end.

Definition strptime_IMp (value : string) : result time :=
  let after_minute (h : Z) (mr : Z * list ascii) : option time :=
    match parse_ampm (snd mr) with
    | Some pm =>
        let hour :=
          if pm then (if h =? 12 then 12 else h + 12)
          else (if h =? 12 then 0 else h) in
        Some (mk_time hour (fst mr))
    | None => None
    end in
  let after_hour (hr : Z * list ascii) : option time :=
    match snd hr with
    | c :: rest =>
        if code c =? 58
        then first_some (after_minute (fst hr)) (minute_candidates rest)
        else None
    | [] => None
    end in
  match first_some after_hour (hour_candidates (list_ascii_of_string value)) with
  | Some t => Ok t
  | None => Raise ValueError
  end.

(** *** [float(s)] on decimal fixed-point text

    Surrounding white space, an optional sign, digits and an optional
    fraction, which is what [f"{x:.2f}"] writes.  The exponent, [inf], [nan]
    and underscore forms of Python's [float] are not read here and count as
    unparsable. *)

Fixpoint read_digits (l : list ascii) (acc : Z) (count : nat)
    : Z * nat * list ascii :=
  match l with
  | c :: rest =>
      if is_digit c then read_digits rest (10 * acc + digit_val c) (S count)
      else (acc, count, l)
  | [] => (acc, count, [])
  end.

Definition parse_float (value : string) : result Q :=
  let l := skip_spaces (list_ascii_of_string value) in
  let '(sign, l) :=
    match l with
    | c :: rest =>
        if code c =? 45 then (-1, rest)
        else if code c =? 43 then (1, rest)
        else (1, l)
    | [] => (1, l)
    end in
  let '(ip, ni, l) := read_digits l 0 0 in
  let '(fp, nf, l) :=
    match l with
    | c :: rest => if code c =? 46 then read_digits rest 0 0 else (0, O, l)
    | [] => (0, O, l)
    end in
  match Nat.eqb (ni + nf) 0, skip_spaces l with
  | false, [] =>
      Ok (inject_Z sign
          * (inject_Z ip + inject_Z fp / inject_Z (10 ^ Z.of_nat nf)))%Q
  | _, _ => Raise ValueError
  end.

(** *** [dynamic_sort_key] and the sort *)

Inductive SortKey : Type :=
| KeyTime (t : time)
| KeyFloat (x : Q)
| KeyStr (s : string).

Definition sort_by_map (sort_by : string) (item : ReportRow) : string :=
  if String.eqb sort_by "employee_name" then row_employee_name item
  else if String.eqb sort_by "employee_id" then row_employee_id item
  else if String.eqb sort_by "date" then row_date item
  else if String.eqb sort_by "in_time" then row_in_time item
  else if String.eqb sort_by "out_time" then row_out_time item
  else if String.eqb sort_by "total_working_hours"
  then row_total_working_hours item
  else if String.eqb sort_by "overtime_hours" then row_overtime_hours item
  else EmptyString.

Definition nonempty_not_dash (value : string) : bool :=
  negb (String.eqb value "") && negb (String.eqb value "-").

Definition dynamic_sort_key (sort_by : string) (item : ReportRow)
    : result SortKey :=
  let value := sort_by_map sort_by item in
  if contains "time" sort_by then
    if nonempty_not_dash value
    then do t <- strptime_IMp value ;; Ok (KeyTime t)
    else Ok (KeyTime time_min)
  else if contains "hours" sort_by then
    match
      (if nonempty_not_dash value
       then parse_float (str_replace value " hours" "")
       else Ok 0%Q)
    with
    | Ok x => Ok (KeyFloat x)
    | Raise ValueError => Ok (KeyFloat 0%Q)
    | Raise e => Raise e
    end
  else Ok (KeyStr value).

(** [a < b] on sort keys.  All keys of one sort have the same shape, which
    [sort_by] alone decides. *)
Definition key_lt (a b : SortKey) : bool :=
  match a, b with
  | KeyTime x, KeyTime y => x <? y
  | KeyFloat x, KeyFloat y => negb (Qle_bool y x)
  | KeyStr x, KeyStr y => String.ltb x y
  | _, _ => false
  end.

Fixpoint keyed_rows (sort_by : string) (rows : list ReportRow)
    : result (list (SortKey * ReportRow)) :=
  match rows with
  | [] => Ok []
  | r :: t =>
      do k <- dynamic_sort_key sort_by r ;;
      do kt <- keyed_rows sort_by t ;;
      Ok ((k, r) :: kt)
  end.

(** [sorted(processed_records, key=dynamic_sort_key,
    reverse=(sort_order == 'desc'))]. *)
Definition sort_records (sort_by sort_order : string) (rows : list ReportRow)
    : result (list ReportRow) :=
  do keyed <- keyed_rows sort_by rows ;;
  let lt :=
    if String.eqb sort_order "desc"
    then (fun a b : SortKey * ReportRow => key_lt (fst b) (fst a))
    else (fun a b : SortKey * ReportRow => key_lt (fst a) (fst b)) in
  Ok (map snd (sorted lt keyed)).

(** ** Projections and sample data *)

Definition total_hours_of (r : Q * Q * Q * bool) : Q := fst (fst (fst r)).
Definition lunch_hours_of (r : Q * Q * Q * bool) : Q := snd (fst (fst r)).
Definition other_hours_of (r : Q * Q * Q * bool) : Q := snd (fst r).
Definition has_out_of (r : Q * Q * Q * bool) : bool := snd r.

(** A day on which the stored break is longer than the stay: IN at 10:00,
    OUT at 11:00 and one closed break from 09:00 to 12:00 on the IN row. *)
Definition day_2025_06_17 : date := mkdate 2025 6 17.

Definition long_break_store : Store :=
  mkStore
    [mkEmployee 1 "Asha" "E001" None]
    [mkAttendanceRecord 1 1 day_2025_06_17 (mk_time 10 0) IN "On time." None
       (Some [mkBreak OTHER (Some (mk_time 9 0)) (Some (mk_time 12 0))]);
     mkAttendanceRecord 2 1 day_2025_06_17 (mk_time 11 0) OUT "Out Time."
       None None]
    None.

(** One employee with a closed eight-hour day (10:00 to 18:00). *)
Definition eight_hour_store : Store :=
  mkStore
    [mkEmployee 1 "Asha" "E001" None]
    [mkAttendanceRecord 1 1 day_2025_06_17 (mk_time 10 0) IN "On time." None
       None;
     mkAttendanceRecord 2 1 day_2025_06_17 (mk_time 18 0) OUT "Out Time."
       None None]
    None.

(** The report row of an open session of today: no OUT row yet. *)
Definition open_session_row : ReportRow :=
  mkReportRow "Asha" "E001" "2025-06-17" "09:50 AM"
    (report_out_time_str None false day_2025_06_17 day_2025_06_17)
    "-" "-" "-" "3.00 hours" "0.00 hours".

(** ** Reachable stores and the break invariant *)

(** The stores the state machine produces: it starts without attendance
    rows, and every evaluation of the view is one step. *)
Inductive reachable (geodesic_meters : Q * Q -> Q * Q -> GeoOutcome)
    : Store -> Prop :=
| reach_start (s : Store) : records s = [] -> reachable geodesic_meters s
| reach_step (s : Store) (now : datetime) (body : option RequestData) :
    reachable geodesic_meters s ->
    reachable geodesic_meters
      (snd (mark_attendance_with_gesture geodesic_meters s now body)).

(** At most one element is open, and an open element is the last one. *)
Definition single_open_last (bs : list Break) : Prop :=
  (forall n b, nth_error bs n = Some b -> break_out b = None ->
               S n = List.length bs)
  /\ (forall n m b b', nth_error bs n = Some b -> nth_error bs m = Some b' ->
                       break_out b = None -> break_out b' = None -> n = m).

(** The form in which the invariant is carried through a step: every break
    has a start, and every break but the last has an end. *)
Definition breaks_ok (bs : list Break) : Prop :=
  (forall b, In b bs -> break_in b <> None)
  /\ (forall b, In b (removelast bs) -> break_out b <> None).

Definition store_ok (s : Store) : Prop :=
  forall r bs, In r (records s) -> breaks r = Some bs -> breaks_ok bs.

(** ** More sample data *)

(** A stand-in for geopy on a small flat patch: 100 km per degree along
    each axis, added up. *)
Definition flat_geodesic (a b : Q * Q) : GeoOutcome :=
  GeoMeters (Qred ((Qabs (fst a - fst b) + Qabs (snd a - snd b)) * 100000))%Q.

Definition asha : Employee := mkEmployee 1 "Asha" "E001" None.

Definition request_from (who : string) (lat lon : Coord) : RequestData :=
  mkRequestData (Some who) lat lon None.

(** Asha has checked in at 09:50 and out at 19:05. *)
Definition closed_day_store : Store :=
  mkStore [asha]
    [mkAttendanceRecord 1 1 day_2025_06_17 (mk_time 9 50) IN "On time." None
       None;
     mkAttendanceRecord 2 1 day_2025_06_17 (mk_time 19 5) OUT "Out Time."
       None None]
    None.

(** An office at (0, 0) with a radius of 500 m, and no attendance yet. *)
Definition office_store : Store :=
  mkStore [asha] [] (Some (mkLocationSetting 0 0 500)).

(** The store after Asha's check-in at 09:50 and a second recognition at
    13:45, which opens a lunch break. *)
Definition lunch_open_store : Store :=
  let s1 :=
    snd (mark_attendance_with_gesture flat_geodesic office_store
           (mkdatetime day_2025_06_17 (mk_time 9 50))
           (Some (request_from "Asha" CoordNone CoordNone))) in
  snd (mark_attendance_with_gesture flat_geodesic s1
         (mkdatetime day_2025_06_17 (mk_time 13 45))
         (Some (request_from "Asha" CoordNone CoordNone))).

(** Asha's IN row carries a break whose [break_in] is missing. *)
Definition null_break_in_store : Store :=
  mkStore [asha]
    [mkAttendanceRecord 1 1 day_2025_06_17 (mk_time 9 50) IN "On time." None
       (Some [mkBreak OTHER None None])]
    None.

(** ** Auxiliary definitions for the calendar and the trend *)

(** The month after [(y, m)]. *)
Definition next_month_of (y m : Z) : Z * Z :=
  if m =? 12 then (y + 1, 1) else (y, m + 1).

(** [f] holds on [lo], [lo + 1], ..., [lo + n - 1]. *)
Fixpoint forall_from (n : nat) (lo : Z) (f : Z -> bool) : bool :=
  match n with
  | O => true
  | S k => f lo && forall_from k (lo + 1) f
  end.

(** The check made on every day [n] of a year: [month_day] yields a month
    and a day of that month, [n] days after January 1. *)
Definition month_day_check (leapyear : bool) (n : Z) : bool :=
  let '(mo, d) := month_day n leapyear in
  (1 <=? mo) && (mo <=? 12) && (1 <=? d)
  && (d <=? DAYS_IN_MONTH mo + (if (mo =? 2) && leapyear then 1 else 0))
  && (DAYS_BEFORE_MONTH mo + (if (2 <? mo) && leapyear then 1 else 0) + d
      =? n + 1).

(** The position of a date's bucket among the buckets of an interval. *)
Definition interval_rank (interval : Interval) (c : date) : Z :=
  match interval with
  | Daily => toordinal c
  | Monthly => year c * 12 + month c
  | Yearly => year c
  end.

(** The key under which a pass files its counts. *)
Definition key_of (interval : Interval) (c : date) : string :=
  match interval with
  | Daily => strftime_Ymd c
  | Monthly => strftime_Ym c
  | Yearly => strftime_Y c
  end.











(** Two employees; Asha is in on both days, Ravi on the second only. *)
Definition two_day_store : Store :=
  mkStore
    [mkEmployee 1 "Asha" "E001" None; mkEmployee 2 "Ravi" "E002" None]
    [mkAttendanceRecord 1 1 (mkdate 2025 6 16) (mk_time 9 50) IN "On time."
       None None;
     mkAttendanceRecord 2 1 (mkdate 2025 6 17) (mk_time 9 55) IN "On time."
       None None;
     mkAttendanceRecord 3 2 (mkdate 2025 6 17) (mk_time 11 5) IN
       "Late entry." None None]
    None.

(** ** Further definitions for the state machine *)

(** What the model's [unique_together] constraint speaks about. *)
Definition day_key (r : AttendanceRecord) : Z * date * AttendanceType :=
  (rec_employee r, rec_date r, attendance_type r).

(** How an employee row may differ after an evaluation at [now]: only in
    [last_seen], and then it holds [now]. *)
Definition same_identity (now : datetime) (x x' : Employee) : Prop :=
  emp_pk x' = emp_pk x /\ name x' = name x /\ employee_id x' = employee_id x
  /\ (last_seen x' = last_seen x \/ last_seen x' = Some now).

(** Asha has checked in at 09:50; nothing else has happened that day. *)
Definition morning_store : Store :=
  mkStore [asha]
    [mkAttendanceRecord 1 1 day_2025_06_17 (mk_time 9 50) IN "On time." None
       None]
    None.

(** ** Runs of the state machine under a clock that never goes back *)






(** ** [get_late_on_time_trends] and [get_emotion_trends] *)

(** A [defaultdict] whose missing values are [default]: [dd_update] is
    [d[key] = f(d[key])], [dd_get] reads a key of the finished dictionary. *)
Fixpoint dd_update {V : Type} (default : V) (f : V -> V)
    (d : list (string * V)) (key : string) : list (string * V) :=
  match d with
  | [] => [(key, f default)]
  | (k, v) :: t =>
      if String.eqb k key then (k, f v) :: t
      else (k, v) :: dd_update default f t key
  end.

Fixpoint dd_get {V : Type} (default : V) (d : list (string * V))
    (key : string) : V :=
  match d with
  | [] => default
  | (k, v) :: t => if String.eqb k key then v else dd_get default t key
  end.

(** The loop [for x in xs: d[kf(x)] = upd(x, d[kf(x)])]. *)
Definition dd_fold {X V : Type} (default : V) (kf : X -> string)
    (upd : X -> V -> V) (xs : list X) (d : list (string * V))
    : list (string * V) :=
  fold_left (fun d x => dd_update default (upd x) d (kf x)) xs d.

(** [date__gte=start_date, date__lte=end_date]. *)
Definition in_range (start_date end_date : date) (r : AttendanceRecord)
    : bool :=
  date_leb start_date (rec_date r) && date_leb (rec_date r) end_date.

(** The model's default ordering, [['-date', '-time']]. *)
Definition default_order_lt (a b : AttendanceRecord) : bool :=
  date_ltb (rec_date b) (rec_date a)
  || (date_eqb (rec_date a) (rec_date b) && (rec_time b <? rec_time a)).

(** Counters [(late, on_time)] of one bucket. *)
Definition arrival_update (r : AttendanceRecord) (v : Z * Z) : Z * Z :=
  if IN_TIME_END <? rec_time r then (fst v + 1, snd v) else (fst v, snd v + 1).

Record ArrivalTrend : Type := mkArrivalTrend {
  arrival_labels : list string;
  arrival_on_time : list Z;
  arrival_late : list Z
}.

Definition get_late_on_time_trends (s : Store) (start_date end_date : date)
    (interval : string) : ArrivalTrend :=
  let query :=
    sorted default_order_lt
      (filter (fun r => in_range start_date end_date r
                        && AttendanceType_eqb (attendance_type r) IN)
              (records s)) in
  let trends_data :=
    dd_fold (0, 0)
      (fun r => key_of (interval_of_string interval) (rec_date r))
      arrival_update query [] in
  let labels := sorted String.ltb (map fst trends_data) in
  mkArrivalTrend labels
    (map (fun l => snd (dd_get (0, 0) trends_data l)) labels)
    (map (fun l => fst (dd_get (0, 0) trends_data l)) labels).

(** [s.lower()] on the ASCII letters.  No other character is mapped onto a
    letter of ['happy'], ['sad'], ['neutral'] or ['total'] by Python's
    [lower], so the comparison with these words is the same. *)
Fixpoint str_lower (s : string) : string :=
  match s with
  | EmptyString => EmptyString
  | String c t => String (lower c) (str_lower t)
  end.

Record EmotionCount : Type := mkEmotionCount {
  happy : Z; sad : Z; neutral : Z; total : Z
}.

Definition no_emotion : EmotionCount := mkEmotionCount 0 0 0 0.

(** [if emotion in trends_data[key]: trends_data[key][emotion] += 1] and
    then [trends_data[key]['total'] += 1]; the keys of the inner dictionary
    are ['happy'], ['sad'], ['neutral'] and ['total']. *)
Definition emotion_update (state : string) (v : EmotionCount)
    : EmotionCount :=
  let emotion := str_lower state in
  let v1 :=
    if String.eqb emotion "happy"
    then mkEmotionCount (happy v + 1) (sad v) (neutral v) (total v)
    else if String.eqb emotion "sad"
    then mkEmotionCount (happy v) (sad v + 1) (neutral v) (total v)
    else if String.eqb emotion "neutral"
    then mkEmotionCount (happy v) (sad v) (neutral v + 1) (total v)
    else if String.eqb emotion "total"
    then mkEmotionCount (happy v) (sad v) (neutral v) (total v + 1)
    else v in
  mkEmotionCount (happy v1) (sad v1) (neutral v1) (total v1 + 1).

Definition state_of (r : AttendanceRecord) : string :=
  match emotional_state r with
  | Some e => e
  | None => EmptyString
  end.

Definition has_state (r : AttendanceRecord) : bool :=
  match emotional_state r with
  | Some _ => true
  | None => false
  end.

Record EmotionTrend : Type := mkEmotionTrend {
  emotion_labels : list string;
  emotion_happy : list Z;
  emotion_sad : list Z;
  emotion_neutral : list Z
}.

Definition get_emotion_trends (s : Store) (start_date end_date : date)
    (interval : string) : EmotionTrend :=
  let query :=
    sorted default_order_lt
      (filter (fun r => in_range start_date end_date r && has_state r)
              (records s)) in
  let trends_data :=
    dd_fold no_emotion
      (fun r => key_of (interval_of_string interval) (rec_date r))
      (fun r => emotion_update (state_of r)) query [] in
  let labels := sorted String.ltb (map fst trends_data) in
  mkEmotionTrend labels
    (map (fun l => happy (dd_get no_emotion trends_data l)) labels)
    (map (fun l => sad (dd_get no_emotion trends_data l)) labels)
    (map (fun l => neutral (dd_get no_emotion trends_data l)) labels).

(** The number of elements of [l] that satisfy [p]. *)
Definition count {A : Type} (p : A -> bool) (l : list A) : Z :=
  Z.of_nat (List.length (filter p l)).

Definition sum_list (l : list Z) : Z := fold_right Z.add 0 l.

(** Three rows of one month with an emotional state: two happy ones, in
    different spellings, and one whose state the trend has no counter for. *)
Definition mood_store : Store :=
  mkStore
    [mkEmployee 1 "Asha" "E001" None; mkEmployee 2 "Ravi" "E002" None]
    [mkAttendanceRecord 1 1 (mkdate 2025 6 16) (mk_time 9 50) IN "On time."
       (Some "Happy"%string) None;
     mkAttendanceRecord 2 1 (mkdate 2025 6 17) (mk_time 9 55) IN "On time."
       (Some "happy"%string) None;
     mkAttendanceRecord 3 2 (mkdate 2025 6 17) (mk_time 11 5) IN
       "Late entry." (Some "Angry"%string) None]
    None.

(** No element of [l] is directly followed by a smaller one. *)
Fixpoint ordered {A : Type} (lt : A -> A -> bool) (l : list A) : Prop :=
  match l with
  | a :: t =>
      match t with
      | b :: _ => lt b a = false
      | [] => True
      end /\ ordered lt t
  | [] => True
  end.

(** The report row of a closed session of the day before. *)
Definition closed_session_row : ReportRow :=
  mkReportRow "Ravi" "E002" "2025-06-16" "10:05 AM" "07:10 PM"
    "-" "-" "-" "9.08 hours" "1.08 hours".

(** The check made on every hour [h] and minute [m] of the day: the text
    that [strftime('%I:%M %p')] writes for them is read back by [strptime]
    as the same hour and minute. *)
Definition reads_back (h m : Z) : bool :=
  match strptime_IMp (strftime_IMp (mk_time h m)) with
  | Ok t => t =? mk_time h m
  | Raise _ => false
  end.

(** ** The lunch columns of the report ([admin_views.py]) *)

Definition is_lunch (b : Break) : bool :=
  match break_type b with LUNCH => true | OTHER => false end.

(** [record.get('breaks', [])], with [None] replaced by [[]]. *)
Definition record_breaks (bs : option (list Break)) : list Break :=
  match bs with Some l => l | None => [] end.

(** [[b for b in record_breaks if b.break_type == 'LUNCH']]. *)
Definition lunch_breaks (bs : list Break) : list Break := filter is_lunch bs.

(** What the generator [(b.f for b in bs if b.f)] yields; a [time] object
    is true whatever its value. *)
Fixpoint present_times (f : Break -> option time) (bs : list Break)
    : list time :=
  match bs with
  | [] => []
  | b :: rest =>
      match f b with
      | Some t => t :: present_times f rest
      | None => present_times f rest
      end
  end.

(** [min] and [max] of an iterable: [ValueError] when it is empty. *)
Definition py_min (l : list time) : result time :=
  match l with
  | [] => Raise ValueError
  | x :: t => Ok (fold_left Z.min t x)
  end.

Definition py_max (l : list time) : result time :=
  match l with
  | [] => Raise ValueError
  | x :: t => Ok (fold_left Z.max t x)
  end.

(** [min(b.break_in for b in lunch_breaks if b.break_in)
    if lunch_breaks else None]. *)
Definition lunch_in_time (bs : option (list Break)) : result (option time) :=
  let lunch := lunch_breaks (record_breaks bs) in
  match lunch with
  | [] => Ok None
  | _ :: _ => do t <- py_min (present_times break_in lunch) ;; Ok (Some t)
  end.

(** [max(b.break_out for b in lunch_breaks if b.break_out)
    if any(b.break_out for b in lunch_breaks) else None]. *)
Definition lunch_out_time (bs : option (list Break)) : result (option time) :=
  let lunch := lunch_breaks (record_breaks bs) in
  if existsb (fun b => match break_out b with Some _ => true | None => false end)
       lunch
  then do t <- py_max (present_times break_out lunch) ;; Ok (Some t)
  else Ok None.

(** The text of a lunch column:
    [t.strftime('%I:%M %p') if t else '-']. *)
Definition lunch_column (t : option time) : string :=
  match t with
  | Some x => strftime_IMp x
  | None => "-"%string
  end.

(** * Properties *)

(** ** The calendar *)

Ltac divlia := Z.to_euclidean_division_equations; lia.

Ltac case_month m :=
  let H := fresh "Hm" in
  assert (H : m = 1 \/ m = 2 \/ m = 3 \/ m = 4 \/ m = 5 \/ m = 6 \/ m = 7
              \/ m = 8 \/ m = 9 \/ m = 10 \/ m = 11 \/ m = 12) by lia;
  repeat (destruct H as [H|H]; [subst m|]); [..|subst m].

Lemma is_leap_period (y q : Z) : is_leap (y + 400 * q) = is_leap y.
Proof.
  unfold is_leap.
  replace ((y + 400 * q) mod 4) with (y mod 4) by divlia.
  replace ((y + 400 * q) mod 100) with (y mod 100) by divlia.
  replace ((y + 400 * q) mod 400) with (y mod 400) by divlia.
  reflexivity.
Qed.

Lemma days_before_year_period (y q : Z) :
  days_before_year (y + 400 * q) = days_before_year y + 146097 * q.
Proof. unfold days_before_year. divlia. Qed.

Lemma days_before_year_succ (y : Z) :
  days_before_year (y + 1)
  = days_before_year y + 365 + (if is_leap y then 1 else 0).
Proof.
  unfold days_before_year, is_leap.
  destruct (Z.eqb_spec (y mod 4) 0), (Z.eqb_spec (y mod 100) 0),
    (Z.eqb_spec (y mod 400) 0); cbn [andb orb negb]; divlia.
Qed.

Lemma days_before_year_mono (y1 y2 : Z) :
  y1 <= y2 -> days_before_year y1 <= days_before_year y2.
Proof. unfold days_before_year. intros H. divlia. Qed.

Lemma days_in_month_bounds (y m : Z) :
  1 <= m <= 12 -> 28 <= days_in_month y m <= 31.
Proof.
  intros H. unfold days_in_month. case_month m; destruct (is_leap y); cbn; lia.
Qed.

Lemma days_before_month_succ (y m : Z) :
  1 <= m <= 11 ->
  days_before_month y (m + 1) = days_before_month y m + days_in_month y m.
Proof.
  intros H. unfold days_before_month, days_in_month.
  case_month m; destruct (is_leap y); cbn; try reflexivity; lia.
Qed.

Lemma days_before_month_year_end (y : Z) :
  days_before_month y 12 + days_in_month y 12
  = 365 + (if is_leap y then 1 else 0).
Proof. unfold days_before_month, days_in_month. destruct (is_leap y); reflexivity. Qed.

Lemma days_before_month_mono (y m1 m2 : Z) :
  1 <= m1 -> m1 <= m2 -> m2 <= 12 ->
  days_before_month y m1 <= days_before_month y m2.
Proof.
  intros H1 H12 H2. unfold days_before_month.
  assert (Ha : 1 <= m1 <= 12) by lia. assert (Hb : 1 <= m2 <= 12) by lia.
  case_month m1; case_month m2; try lia; destruct (is_leap y); cbn; lia.
Qed.

Lemma days_before_month_bounds (y m : Z) :
  1 <= m <= 12 ->
  0 <= days_before_month y m
  /\ days_before_month y m + days_in_month y m
     <= 365 + (if is_leap y then 1 else 0).
Proof.
  intros H. unfold days_before_month, days_in_month.
  case_month m; destruct (is_leap y); cbn; lia.
Qed.

Lemma valid_ymd_iff (y m d : Z) :
  valid_ymd y m d = true
  <-> 1 <= y <= 9999 /\ 1 <= m <= 12 /\ 1 <= d <= days_in_month y m.
Proof. unfold valid_ymd, MINYEAR, MAXYEAR. lia. Qed.

Lemma ymd2ord_range (y m d : Z) :
  valid_ymd y m d = true -> 1 <= ymd2ord y m d <= MAXORDINAL.
Proof.
  intros H. apply valid_ymd_iff in H. destruct H as [Hy [Hm Hd]].
  pose proof (days_before_month_bounds y m Hm) as [Hb1 Hb2].
  pose proof (days_before_year_succ y) as Hs.
  pose proof (days_before_year_mono 1 y ltac:(lia)) as H1.
  pose proof (days_before_year_mono (y + 1) 10000 ltac:(lia)) as H2.
  change (days_before_year 1) with 0 in H1.
  change (days_before_year 10000) with 3652059 in H2.
  unfold ymd2ord, MAXORDINAL. lia.
Qed.

(** Lexicographic order on valid dates is the order of ordinals. *)
Lemma ymd2ord_lt (y1 m1 d1 y2 m2 d2 : Z) :
  valid_ymd y1 m1 d1 = true -> valid_ymd y2 m2 d2 = true ->
  y1 < y2 \/ (y1 = y2 /\ (m1 < m2 \/ (m1 = m2 /\ d1 < d2))) ->
  ymd2ord y1 m1 d1 < ymd2ord y2 m2 d2.
Proof.
  intros H1 H2 Hlt. apply valid_ymd_iff in H1, H2.
  destruct H1 as [Hy1 [Hm1 Hd1]], H2 as [Hy2 [Hm2 Hd2]].
  pose proof (days_before_month_bounds y1 m1 Hm1) as [Ha1 Ha2].
  pose proof (days_before_month_bounds y2 m2 Hm2) as [Hb1 Hb2].
  unfold ymd2ord. destruct Hlt as [Hy|[-> [Hm| [-> Hd]]]].
  - pose proof (days_before_year_succ y1).
    pose proof (days_before_year_mono (y1 + 1) y2 ltac:(lia)). lia.
  - pose proof (days_before_month_mono y2 (m1 + 1) m2 ltac:(lia) ltac:(lia)
                  ltac:(lia)).
    pose proof (days_before_month_succ y2 m1 ltac:(lia)). lia.
  - lia.
Qed.

Lemma forall_from_spec (n : nat) (lo : Z) (f : Z -> bool) :
  forall_from n lo f = true ->
  forall z, lo <= z < lo + Z.of_nat n -> f z = true.
Proof.
  revert lo. induction n as [|n IH]; intros lo H z Hz; [lia|].
  cbn [forall_from] in H. apply andb_prop in H. destruct H as [H0 H1].
  destruct (Z.eq_dec z lo) as [->|Hne]; [exact H0|].
  apply (IH (lo + 1) H1). lia.
Qed.

Lemma month_day_check_all (leapyear : bool) :
  forall_from 365 0 (month_day_check leapyear) = true.
Proof. destruct leapyear; vm_compute; reflexivity. Qed.

Lemma month_day_spec (n : Z) (leapyear : bool) (y : Z) :
  0 <= n < 365 -> is_leap y = leapyear ->
  let '(mo, d) := month_day n leapyear in
  1 <= mo <= 12 /\ 1 <= d <= days_in_month y mo
  /\ days_before_month y mo + d = n + 1.
Proof.
  intros Hn Hl.
  pose proof (forall_from_spec _ _ _ (month_day_check_all leapyear) n
                ltac:(lia)) as Hc.
  unfold month_day_check in Hc. destruct (month_day n leapyear) as [mo d].
  unfold days_in_month, days_before_month. rewrite Hl.
  assert (Hdim : DAYS_IN_MONTH mo + (if (mo =? 2) && leapyear then 1 else 0)
                 = if (mo =? 2) && leapyear then 29 else DAYS_IN_MONTH mo).
  { destruct (Z.eqb_spec mo 2) as [->|]; destruct leapyear; cbn; lia. }
  rewrite <- Hdim. lia.
Qed.

Lemma ord2ymd_in_cycle_spec (r : Z) :
  0 <= r < DI400Y ->
  let '(yr, mo, d) := ord2ymd_in_cycle r in
  0 <= yr <= 399 /\ 1 <= mo <= 12 /\ 1 <= d <= days_in_month (1 + yr) mo
  /\ ymd2ord (1 + yr) mo d = r + 1.
Proof.
  intros Hr. unfold ord2ymd_in_cycle, DI400Y, DI100Y, DI4Y in *.
  set (n100 := r / 36524). set (r1 := r mod 36524).
  set (n4 := r1 / 1461). set (r2 := r1 mod 1461).
  set (n1 := r2 / 365). set (n := r2 mod 365).
  assert (H100 : r = 36524 * n100 + r1 /\ 0 <= r1 < 36524)
    by (subst n100 r1; divlia).
  assert (H4 : r1 = 1461 * n4 + r2 /\ 0 <= r2 < 1461)
    by (subst n4 r2; divlia).
  assert (H1 : r2 = 365 * n1 + n /\ 0 <= n < 365) by (subst n1 n; divlia).
  clearbody n100 r1 n4 r2 n1 n.
  assert (Hb : 0 <= n100 <= 4 /\ 0 <= n4 <= 24 /\ 0 <= n1 <= 4) by lia.
  destruct ((n1 =? 4) || (n100 =? 4)) eqn:Especial.
  - assert (Hy : (n100 = 4 /\ n4 = 0 /\ n1 = 0 /\ n = 0)
                 \/ (n100 <= 3 /\ n4 <= 23 /\ n1 = 4 /\ n = 0)) by lia.
    assert (Hleap : is_leap (n100 * 100 + n4 * 4 + n1) = true).
    { unfold is_leap.
      destruct (Z.eqb_spec ((n100 * 100 + n4 * 4 + n1) mod 4) 0),
        (Z.eqb_spec ((n100 * 100 + n4 * 4 + n1) mod 100) 0),
        (Z.eqb_spec ((n100 * 100 + n4 * 4 + n1) mod 400) 0);
        cbn [andb orb negb]; try reflexivity; exfalso; divlia. }
    replace (1 + (n100 * 100 + n4 * 4 + n1 - 1))
      with (n100 * 100 + n4 * 4 + n1) by lia.
    unfold ymd2ord, days_in_month, days_before_month, days_before_year.
    rewrite Hleap. change (12 =? 2) with false. change (2 <? 12) with true.
    cbn [andb DAYS_IN_MONTH DAYS_BEFORE_MONTH].
    repeat split; try lia.
    destruct Hy as [[-> [-> [-> ->]]]|[? [? [-> ->]]]]; divlia.
  - assert (Hn : n1 <= 3 /\ n100 <= 3) by lia.
    assert (Hleap : is_leap (1 + (n100 * 100 + n4 * 4 + n1))
                    = (n1 =? 3) && (negb (n4 =? 24) || (n100 =? 3))).
    { unfold is_leap.
      destruct (Z.eqb_spec ((1 + (n100 * 100 + n4 * 4 + n1)) mod 4) 0),
        (Z.eqb_spec ((1 + (n100 * 100 + n4 * 4 + n1)) mod 100) 0),
        (Z.eqb_spec ((1 + (n100 * 100 + n4 * 4 + n1)) mod 400) 0),
        (Z.eqb_spec n1 3), (Z.eqb_spec n4 24), (Z.eqb_spec n100 3);
        cbn [andb orb negb]; try reflexivity; exfalso; divlia. }
    pose proof (month_day_spec n _ _ (proj2 H1) Hleap) as Hmd.
    destruct (month_day n _) as [mo d]. destruct Hmd as [Hmo [Hd Hsum]].
    repeat split; try lia.
    unfold ymd2ord, days_before_year. 
    replace (1 + (n100 * 100 + n4 * 4 + n1) - 1)
      with (n100 * 100 + n4 * 4 + n1) by lia.
    divlia.
Qed.

Lemma ymd2ord_period (y m d q : Z) :
  ymd2ord (y + 400 * q) m d = ymd2ord y m d + 146097 * q.
Proof.
  unfold ymd2ord, days_before_month.
  rewrite is_leap_period, days_before_year_period. lia.
Qed.

Lemma days_in_month_period (y m q : Z) :
  days_in_month (y + 400 * q) m = days_in_month y m.
Proof. unfold days_in_month. rewrite is_leap_period. reflexivity. Qed.

Lemma ord2ymd_spec (n : Z) :
  1 <= n <= MAXORDINAL ->
  let '(y, m, d) := ord2ymd n in
  valid_ymd y m d = true /\ ymd2ord y m d = n.
Proof.
  intros Hn. unfold ord2ymd.
  assert (Hr : 0 <= (n - 1) mod DI400Y < DI400Y)
    by (apply Z.mod_pos_bound; reflexivity).
  assert (Hq : 0 <= (n - 1) / DI400Y)
    by (apply Z.div_pos; [lia|reflexivity]).
  assert (Hdiv : n - 1 = DI400Y * ((n - 1) / DI400Y) + (n - 1) mod DI400Y)
    by (apply Z.div_mod; discriminate).
  pose proof (ord2ymd_in_cycle_spec _ Hr) as Hc.
  set (q := (n - 1) / DI400Y) in *. set (r := (n - 1) mod DI400Y) in *.
  destruct (ord2ymd_in_cycle r) as [[yr mo] d].
  destruct Hc as [Hyr [Hmo [Hd Hcycle]]].
  assert (Hord : ymd2ord (q * 400 + 1 + yr) mo d = n).
  { replace (q * 400 + 1 + yr) with (1 + yr + 400 * q) by lia.
    rewrite ymd2ord_period. unfold DI400Y in Hdiv. lia. }
  split; [|exact Hord].
  apply valid_ymd_iff.
  replace (days_in_month (q * 400 + 1 + yr) mo)
    with (days_in_month (1 + yr) mo)
    by (replace (q * 400 + 1 + yr) with (1 + yr + 400 * q) by lia;
        symmetry; apply days_in_month_period).
  repeat split; try lia.
  destruct (Z_le_gt_dec (q * 400 + 1 + yr) 9999) as [Hle|Hgt]; [exact Hle|].
  exfalso.
  pose proof (days_before_year_mono 10000 (q * 400 + 1 + yr) ltac:(lia)) as Hm.
  change (days_before_year 10000) with 3652059 in Hm.
  pose proof (days_before_month_bounds (q * 400 + 1 + yr) mo ltac:(lia))
    as [Hb _].
  unfold ymd2ord in Hord. unfold MAXORDINAL in Hn. lia.
Qed.

Lemma ymd2ord_inj (y1 m1 d1 y2 m2 d2 : Z) :
  valid_ymd y1 m1 d1 = true -> valid_ymd y2 m2 d2 = true ->
  ymd2ord y1 m1 d1 = ymd2ord y2 m2 d2 ->
  y1 = y2 /\ m1 = m2 /\ d1 = d2.
Proof.
  intros H1 H2 E.
  destruct (Z_lt_ge_dec y1 y2) as [Hy|Hy].
  { pose proof (ymd2ord_lt _ _ _ _ _ _ H1 H2 (or_introl Hy)). lia. }
  destruct (Z_lt_ge_dec y2 y1) as [Hy'|Hy'].
  { pose proof (ymd2ord_lt _ _ _ _ _ _ H2 H1 (or_introl Hy')). lia. }
  assert (y1 = y2) by lia. subst y2.
  destruct (Z_lt_ge_dec m1 m2) as [Hm|Hm].
  { pose proof (ymd2ord_lt _ _ _ _ _ _ H1 H2
                  (or_intror (conj eq_refl (or_introl Hm)))). lia. }
  destruct (Z_lt_ge_dec m2 m1) as [Hm'|Hm'].
  { pose proof (ymd2ord_lt _ _ _ _ _ _ H2 H1
                  (or_intror (conj eq_refl (or_introl Hm')))). lia. }
  assert (m1 = m2) by lia. subst m2.
  unfold ymd2ord in E. lia.
Qed.

Lemma ord2ymd_ymd2ord (y m d : Z) :
  valid_ymd y m d = true -> ord2ymd (ymd2ord y m d) = (y, m, d).
Proof.
  intros H. pose proof (ord2ymd_spec _ (ymd2ord_range _ _ _ H)) as Hs.
  destruct (ord2ymd (ymd2ord y m d)) as [[y' m'] d'].
  destruct Hs as [Hv He].
  destruct (ymd2ord_inj _ _ _ _ _ _ Hv H He) as [-> [-> ->]]. reflexivity.
Qed.

Lemma toordinal_fromordinal (n : Z) :
  1 <= n <= MAXORDINAL ->
  valid (fromordinal n) = true /\ toordinal (fromordinal n) = n.
Proof.
  intros H. pose proof (ord2ymd_spec n H) as Hs.
  unfold fromordinal, toordinal, valid.
  destruct (ord2ymd n) as [[y m] d]. exact Hs.
Qed.


Lemma toordinal_range (x : date) :
  valid x = true -> 1 <= toordinal x <= MAXORDINAL.
Proof. apply ymd2ord_range. Qed.

Lemma add_days_ok (x : date) (k : Z) :
  1 <= toordinal x + k <= MAXORDINAL ->
  add_days x k = Ok (fromordinal (toordinal x + k)).
Proof.
  intros H. unfold add_days.
  replace ((0 <? toordinal x + k) && (toordinal x + k <=? MAXORDINAL))
    with true by lia.
  reflexivity.
Qed.

Lemma add_days_overflow (x : date) (k : Z) :
  toordinal x + k < 1 \/ MAXORDINAL < toordinal x + k ->
  add_days x k = Raise OverflowError.
Proof.
  intros H. unfold add_days.
  replace ((0 <? toordinal x + k) && (toordinal x + k <=? MAXORDINAL))
    with false by lia.
  reflexivity.
Qed.

Lemma date_eqb_eq (a b : date) : date_eqb a b = true <-> a = b.
Proof.
  unfold date_eqb. destruct a as [y1 m1 d1], b as [y2 m2 d2]. cbn.
  split.
  - intros H. assert (y1 = y2 /\ m1 = m2 /\ d1 = d2) as [-> [-> ->]] by lia.
    reflexivity.
  - intros E. injection E as -> -> ->. lia.
Qed.

Lemma date_ltb_ord (a b : date) :
  valid a = true -> valid b = true ->
  date_ltb a b = (toordinal a <? toordinal b).
Proof.
  intros Ha Hb. unfold valid, toordinal in *.
  destruct a as [y1 m1 d1], b as [y2 m2 d2]. cbn [year month day] in *.
  unfold date_ltb. cbn [year month day].
  destruct (Z.ltb_spec (ymd2ord y1 m1 d1) (ymd2ord y2 m2 d2)) as [Hlt|Hge].
  - assert (~ (y2 < y1 \/ (y2 = y1 /\ (m2 < m1 \/ (m2 = m1 /\ d2 < d1))))).
    { intros C. pose proof (ymd2ord_lt _ _ _ _ _ _ Hb Ha C). lia. }
    assert (~ (y1 = y2 /\ m1 = m2 /\ d1 = d2)).
    { intros [-> [-> ->]]. lia. }
    lia.
  - assert (~ (y1 < y2 \/ (y1 = y2 /\ (m1 < m2 \/ (m1 = m2 /\ d1 < d2))))).
    { intros C. pose proof (ymd2ord_lt _ _ _ _ _ _ Ha Hb C). lia. }
    lia.
Qed.

Lemma date_leb_ord (a b : date) :
  valid a = true -> valid b = true ->
  date_leb a b = (toordinal a <=? toordinal b).
Proof.
  intros Ha Hb. unfold date_leb. rewrite (date_ltb_ord a b Ha Hb).
  destruct (date_eqb a b) eqn:E.
  - apply date_eqb_eq in E. subst b. lia.
  - destruct (Z.eq_dec (toordinal a) (toordinal b)) as [Eo|Ne]; [|lia].
    exfalso. unfold valid, toordinal in *.
    destruct (ymd2ord_inj _ _ _ _ _ _ Ha Hb Eo) as [E1 [E2 E3]].
    assert (a = b) by (destruct a, b; cbn in *; congruence).
    apply date_eqb_eq in H. congruence.
Qed.

Lemma add_days_ymd (x : date) (k y2 m2 d2 : Z) :
  valid_ymd y2 m2 d2 = true ->
  ymd2ord y2 m2 d2 = toordinal x + k ->
  add_days x k = Ok (mkdate y2 m2 d2).
Proof.
  intros Hv He. rewrite add_days_ok.
  - unfold fromordinal. rewrite <- He, (ord2ymd_ymd2ord _ _ _ Hv). reflexivity.
  - rewrite <- He. apply ymd2ord_range. exact Hv.
Qed.

Lemma make_date_ok (y m d : Z) :
  valid_ymd y m d = true -> make_date y m d = Ok (mkdate y m d).
Proof. intros H. unfold make_date. rewrite H. reflexivity. Qed.

Lemma first_of_next_month (y m : Z) :
  1 <= m <= 12 ->
  ymd2ord (fst (next_month_of y m)) (snd (next_month_of y m)) 1
  = ymd2ord y m 1 + days_in_month y m.
Proof.
  intros H. unfold next_month_of. destruct (Z.eqb_spec m 12) as [->|Hne];
    cbn [fst snd]; unfold ymd2ord.
  - rewrite days_before_year_succ.
    pose proof (days_before_month_year_end y).
    change (days_before_month (y + 1) 1) with 0. lia.
  - rewrite days_before_month_succ by lia. lia.
Qed.

Lemma next_month_valid (y m : Z) :
  1 <= y <= 9999 -> 1 <= m <= 12 -> ~ (y = 9999 /\ m = 12) ->
  forall d, 1 <= d <= 28 ->
  valid_ymd (fst (next_month_of y m)) (snd (next_month_of y m)) d = true.
Proof.
  intros Hy Hm Hlast d Hd. apply valid_ymd_iff. unfold next_month_of.
  destruct (Z.eqb_spec m 12) as [->|Hne]; cbn [fst snd].
  - pose proof (days_in_month_bounds (y + 1) 1 ltac:(lia)). lia.
  - pose proof (days_in_month_bounds y (m + 1) ltac:(lia)). lia.
Qed.

Lemma first_of_following_month_ok (x : date) :
  valid x = true -> ~ (year x = 9999 /\ month x = 12) ->
  first_of_following_month x
  = Ok (mkdate (fst (next_month_of (year x) (month x)))
               (snd (next_month_of (year x) (month x))) 1).
Proof.
  intros Hv Hlast. apply valid_ymd_iff in Hv. destruct Hv as [Hy [Hm Hd]].
  pose proof (days_in_month_bounds (year x) (month x) Hm) as Hdim.
  unfold first_of_following_month, replace_day.
  rewrite make_date_ok by (apply valid_ymd_iff; lia). cbn [bind].
  rewrite (add_days_ymd _ 4 (fst (next_month_of (year x) (month x)))
             (snd (next_month_of (year x) (month x)))
             (32 - days_in_month (year x) (month x))).
  - cbn [bind year month day]. apply make_date_ok.
    apply next_month_valid; lia.
  - apply next_month_valid; lia.
  - pose proof (first_of_next_month (year x) (month x) Hm) as E.
    unfold toordinal. cbn [year month day]. unfold ymd2ord in *. lia.
Qed.

Lemma first_of_following_month_overflow (x : date) :
  valid x = true -> year x = 9999 -> month x = 12 ->
  first_of_following_month x = Raise OverflowError.
Proof.
  intros Hv Ey Em. apply valid_ymd_iff in Hv. destruct Hv as [Hy [Hm Hd]].
  unfold first_of_following_month, replace_day. rewrite Ey, Em.
  reflexivity.
Qed.

(** ** Period resolver *)

Lemma get_period_dates_other (today : date) (period : string) :
  period <> "week"%string -> period <> "month"%string ->
  period <> "year"%string ->
  get_period_dates today period = Ok (today, today).
Proof.
  intros H1 H2 H3. unfold get_period_dates.
  apply String.eqb_neq in H1, H2, H3. rewrite H1, H2, H3. reflexivity.
Qed.

Lemma get_period_dates_year (today : date) :
  valid today = true ->
  get_period_dates today "year"
  = Ok (mkdate (year today) 1 1, mkdate (year today) 12 31).
Proof.
  intros Hv. apply valid_ymd_iff in Hv. destruct Hv as [Hy _].
  cbn [get_period_dates String.eqb Ascii.eqb Bool.eqb]. cbn -[make_date].
  unfold replace_month_day.
  rewrite !make_date_ok by (apply valid_ymd_iff; cbn; lia). reflexivity.
Qed.

Lemma get_period_dates_month (today : date) :
  valid today = true ->
  get_period_dates today "month"
  = if (year today =? 9999) && (month today =? 12)
    then Raise OverflowError
    else Ok (mkdate (year today) (month today) 1,
             mkdate (year today) (month today)
               (days_in_month (year today) (month today))).
Proof.
  intros Hv. pose proof Hv as Hv'. apply valid_ymd_iff in Hv'.
  destruct Hv' as [Hy [Hm Hd]].
  pose proof (days_in_month_bounds (year today) (month today) Hm) as Hdim.
  change (get_period_dates today "month")
    with (do start_date <- replace_day today 1 ;;
          do next_month <- first_of_following_month today ;;
          do end_date <- sub_days next_month 1 ;;
          Ok (start_date, end_date)).
  unfold replace_day at 1.
  rewrite make_date_ok by (apply valid_ymd_iff; lia). cbn [bind].
  destruct ((year today =? 9999) && (month today =? 12)) eqn:E.
  - rewrite first_of_following_month_overflow by (assumption || lia).
    reflexivity.
  - rewrite first_of_following_month_ok by (assumption || lia). cbn [bind].
    unfold sub_days.
    rewrite (add_days_ymd _ (-1) (year today) (month today)
               (days_in_month (year today) (month today))).
    + reflexivity.
    + apply valid_ymd_iff. lia.
    + pose proof (first_of_next_month (year today) (month today) Hm) as F.
      unfold toordinal. cbn [year month day]. unfold ymd2ord in *. lia.
Qed.

Lemma get_period_dates_week (today : date) :
  valid today = true ->
  let monday := toordinal today - weekday today in
  get_period_dates today "week"
  = if monday + 6 <=? MAXORDINAL
    then Ok (fromordinal monday, fromordinal (monday + 6))
    else Raise OverflowError.
Proof.
  intros Hv. cbv zeta. pose proof (toordinal_range today Hv) as Hr.
  assert (Hwd : 0 <= weekday today < 7)
    by (unfold weekday; apply Z.mod_pos_bound; lia).
  assert (Hmon : 1 <= toordinal today - weekday today)
    by (unfold weekday in *; divlia).
  change (get_period_dates today "week")
    with (do start_date <- sub_days today (weekday today) ;;
          do end_date <- add_days start_date 6 ;;
          Ok (start_date, end_date)).
  unfold sub_days.
  rewrite add_days_ok by lia. cbn [bind].
  replace (toordinal today + - weekday today)
    with (toordinal today - weekday today) by lia.
  destruct (toordinal_fromordinal (toordinal today - weekday today)
              ltac:(lia)) as [Hvs Hos].
  destruct (Z.leb_spec (toordinal today - weekday today + 6) MAXORDINAL).
  - rewrite add_days_ok by lia. rewrite Hos. reflexivity.
  - rewrite add_days_overflow by lia. reflexivity.
Qed.

Lemma last_full_week (today : date) :
  valid today = true ->
  date_leb today (mkdate 9999 12 26)
  = (toordinal today - weekday today + 6 <=? MAXORDINAL).
Proof.
  intros Hv.
  rewrite (date_leb_ord today (mkdate 9999 12 26) Hv eq_refl).
  change (toordinal (mkdate 9999 12 26)) with 3652054.
  unfold weekday, MAXORDINAL.
  destruct (Z.leb_spec (toordinal today) 3652054);
    destruct (Z.leb_spec (toordinal today - (toordinal today + 6) mod 7 + 6)
                3652059); try reflexivity; exfalso; divlia.
Qed.

(** C6 (amended): for every date [today] of the calendar,
    [get_period_dates] returns [(today, today)] for ['day'] and for every
    period other than ['week'], ['month'] and ['year']; January 1 and
    December 31 of [today]'s year for ['year']; the first and the last day
    of [today]'s month (29 February in leap years) for ['month'], except in
    December 9999, where it raises [OverflowError]; and for ['week'] the
    Monday on or before [today] and the Sunday six days later, except when
    [today] is after 9999-12-26, where that Sunday is past the last date and
    it raises [OverflowError].  For 2025-06-17 the week is 2025-06-16 to
    2025-06-22 and the month is 2025-06-01 to 2025-06-30. *)
Theorem C6_period_dates (today : date) :
  valid today = true ->
  (forall period : string,
      period <> "week"%string -> period <> "month"%string ->
      period <> "year"%string ->
      get_period_dates today period = Ok (today, today))
  /\ get_period_dates today "day" = Ok (today, today)
  /\ get_period_dates today "year"
     = Ok (mkdate (year today) 1 1, mkdate (year today) 12 31)
  /\ get_period_dates today "month"
     = (if (year today =? 9999) && (month today =? 12)
        then Raise OverflowError
        else Ok (mkdate (year today) (month today) 1,
                 mkdate (year today) (month today)
                   (days_in_month (year today) (month today))))
  /\ (if date_leb today (mkdate 9999 12 26)
      then exists start_date end_date,
             get_period_dates today "week" = Ok (start_date, end_date)
             /\ valid start_date = true /\ valid end_date = true
             /\ weekday start_date = 0
             /\ toordinal end_date = toordinal start_date + 6
             /\ date_leb start_date today = true
             /\ date_leb today end_date = true
      else get_period_dates today "week" = Raise OverflowError)
  /\ get_period_dates (mkdate 2025 6 17) "week"
     = Ok (mkdate 2025 6 16, mkdate 2025 6 22)
  /\ get_period_dates (mkdate 2025 6 17) "month"
     = Ok (mkdate 2025 6 1, mkdate 2025 6 30).
Proof.
  intros Hv.
  split; [intros period; apply get_period_dates_other|].
  split; [apply get_period_dates_other; discriminate|].
  split; [apply get_period_dates_year; exact Hv|].
  split; [apply get_period_dates_month; exact Hv|].
  split; [|split; reflexivity].
  rewrite (last_full_week today Hv), (get_period_dates_week today Hv).
  pose proof (toordinal_range today Hv) as Hr.
  assert (Hwd : 0 <= weekday today < 7)
    by (unfold weekday; apply Z.mod_pos_bound; lia).
  assert (Hmon : 1 <= toordinal today - weekday today)
    by (unfold weekday in *; divlia).
  destruct (Z.leb_spec (toordinal today - weekday today + 6) MAXORDINAL)
    as [Hle|Hgt]; [|reflexivity].
  destruct (toordinal_fromordinal (toordinal today - weekday today)
              ltac:(lia)) as [Hvs Hos].
  destruct (toordinal_fromordinal (toordinal today - weekday today + 6)
              ltac:(lia)) as [Hve Hoe].
  eexists. eexists. split; [reflexivity|].
  split; [exact Hvs|]. split; [exact Hve|].
  split; [unfold weekday at 1; rewrite Hos; unfold weekday; divlia|].
  split; [lia|].
  rewrite (date_leb_ord _ _ Hvs Hv), (date_leb_ord _ _ Hv Hve). lia.
Qed.

Lemma C6_overflow_in_last_month :
  valid (mkdate 9999 12 17) = true
  /\ get_period_dates (mkdate 9999 12 17) "month" = Raise OverflowError
  /\ valid (mkdate 9999 12 28) = true
  /\ get_period_dates (mkdate 9999 12 28) "week" = Raise OverflowError.
Proof. repeat split; vm_compute; reflexivity. Qed.

Lemma C6_period_dates_witness :
  get_period_dates (mkdate 2024 2 10) "month"
  = Ok (mkdate 2024 2 1, mkdate 2024 2 29)
  /\ get_period_dates (mkdate 2024 2 10) "year"
     = Ok (mkdate 2024 1 1, mkdate 2024 12 31).
Proof.
  pose proof (C6_period_dates (mkdate 2024 2 10) eq_refl)
    as [_ [_ [Hy [Hm _]]]].
  split; [exact Hm|exact Hy].
Defined.

(** ** Working hours *)

(** C1, at the failing input: with IN 10:00, OUT 11:00 and a closed break
    09:00-12:00 the function returns -2 worked hours (one hour of stay minus
    three hours of break), where the claim promises a result clamped at
    zero. *)
Theorem C1_negative_worked_hours :
  let r :=
    calculate_working_hours long_break_store
      (mkdatetime (mkdate 2025 6 18) (mk_time 9 0)) 1 day_2025_06_17 in
  (total_hours_of r == -2)%Q /\ (total_hours_of r < 0)%Q
  /\ has_out_of r = true.
Proof. vm_compute. repeat split; reflexivity. Qed.

Lemma first_record_some_matches s e d ty r :
  first_record s e d ty = Some r ->
  In r (records s) /\ matches e d ty r = true.
Proof. unfold first_record. intros H. apply find_some in H. exact H. Qed.

(** C3: the end instant chosen by [calculate_working_hours].  Without an IN
    row every figure is zero and the day is not closed.  With an IN row the
    worked time is measured up to the OUT row's time when there is one (day
    closed), up to 19:15 of the target date when there is none and the date
    is before today, and up to [now] otherwise; in the last two cases the
    day is not closed. *)
Theorem C3_effective_end_instant (s : Store) (now : datetime) (e : Z)
    (d : date) :
  let r := calculate_working_hours s now e d in
  match first_record s e d IN with
  | None =>
      (total_hours_of r == 0)%Q /\ (lunch_hours_of r == 0)%Q
      /\ (other_hours_of r == 0)%Q /\ has_out_of r = false
  | Some i =>
      let start_dt := combine d (rec_time i) in
      let lunch := fst (break_seconds i) in
      let other := snd (break_seconds i) in
      match first_record s e d OUT with
      | Some o =>
          total_hours_of r
          = (working_seconds start_dt (combine d (rec_time o)) lunch other
             / 3600)%Q
          /\ has_out_of r = true
      | None =>
          if date_ltb d (localdate now) then
            total_hours_of r
            = (working_seconds start_dt (combine d (mk_time 19 15)) lunch other
               / 3600)%Q
            /\ has_out_of r = false
          else
            total_hours_of r
            = (working_seconds start_dt now lunch other / 3600)%Q
            /\ has_out_of r = false
      end
  end.
Proof.
  unfold calculate_working_hours.
  destruct (first_record s e d IN) as [i|].
  - cbv zeta. destruct (break_seconds i) as [lunch other]. cbn [fst snd].
    unfold effective_end.
    destruct (first_record s e d OUT) as [o|].
    + split; reflexivity.
    + destruct (date_ltb d (localdate now)); split; reflexivity.
  - cbn. repeat split; reflexivity.
Qed.

(** ** The hours threshold of the filtered summary *)

(** C8, at the failing input: with the threshold set to 0 the selected
    record has 8 computed hours, which is not under the threshold, and the
    summary still keeps it; the same record is dropped for the threshold 8
    and kept for the threshold 9. *)
Theorem C8_zero_threshold_keeps_record :
  let now := mkdatetime (mkdate 2025 6 18) (mk_time 9 0) in
  let summary threshold :=
    get_filtered_attendance_summary eight_hour_store now
      (Some day_2025_06_17) (Some day_2025_06_17) [] threshold in
  (forall re,
      In re (selected_records eight_hour_store day_2025_06_17 day_2025_06_17 [])
      -> (record_hours eight_hour_store now re == 8)%Q)
  /\ List.length
       (selected_records eight_hour_store day_2025_06_17 day_2025_06_17 []) = 1%nat
  /\ List.length (summary (Some 0%Q)) = 1%nat
  /\ summary (Some 8%Q) = []
  /\ List.length (summary (Some 9%Q)) = 1%nat.
Proof.
  cbv zeta. split.
  - intros re H. vm_compute in H. destruct H as [H|[]]. subst re.
    vm_compute. reflexivity.
  - repeat split; vm_compute; reflexivity.
Qed.

(** ** The report sort *)

(** C9, at the failing inputs: the [out_time] column of an open session of
    today reads ['In progress...'], and sorting by [out_time] then raises
    [ValueError] instead of ranking that row lowest; sorting by
    [overtime_hours] raises as well, because that key contains ['time'] and
    its value is handed to the time parser. *)
Theorem C9_sort_raises :
  row_out_time open_session_row = "In progress..."%string
  /\ sort_records "out_time" "asc" [open_session_row] = Raise ValueError
  /\ sort_records "out_time" "desc" [open_session_row] = Raise ValueError
  /\ sort_records "overtime_hours" "asc" [open_session_row]
     = Raise ValueError.
Proof. repeat split; vm_compute; reflexivity. Qed.

(** ** The attendance state machine *)

Lemma Qgt_bool_true (x y : Q) : (y < x)%Q -> Qgt_bool x y = true.
Proof.
  intros H. unfold Qgt_bool. destruct (Qle_bool x y) eqn:E; [|reflexivity].
  apply Qle_bool_iff in E. exfalso. exact (Qlt_not_le _ _ H E).
Qed.

Lemma Qgt_bool_false (x y : Q) : (x <= y)%Q -> Qgt_bool x y = false.
Proof.
  intros H. unfold Qgt_bool. apply Qle_bool_iff in H. rewrite H. reflexivity.
Qed.

Section RecognisedEmployee.

Variable geodesic_meters : Q * Q -> Q * Q -> GeoOutcome.
Variables (s : Store) (now : datetime) (data : RequestData).
Variables (who : string) (employee : Employee).

Hypothesis name_given : recognized_name data = Some who.
Hypothesis name_not_empty : who <> ""%string.
Hypothesis name_not_unknown : who <> "Unknown"%string.
Hypothesis name_resolves : get_employee_by_name s who = Found employee.

Lemma mark_resolved :
  mark_attendance_with_gesture geodesic_meters s now (Some data)
  = after_lookup geodesic_meters s now data employee.
Proof using name_given name_not_empty name_not_unknown name_resolves.
  unfold mark_attendance_with_gesture, after_lookup.
  rewrite name_given.
  apply String.eqb_neq in name_not_empty, name_not_unknown.
  rewrite name_not_empty, name_not_unknown. cbn [orb].
  rewrite name_resolves. reflexivity.
Qed.

(** C2 (amended): when today's IN and OUT rows of the recognised employee
    both exist, the evaluation creates and changes no attendance row or
    break, leaves the office setting alone and answers with an informational
    200 response that names no action.  When the geofence rejects the
    evaluation, that response is the "too far" rejection and nothing at all
    is written; otherwise it is "already checked out", and the one write is
    [last_seen := now] on the recognised employee's row. *)
Theorem C2_already_checked_out (i o : AttendanceRecord) :
  first_record s (emp_pk employee) (localdate now) IN = Some i ->
  first_record s (emp_pk employee) (localdate now) OUT = Some o ->
  let (resp, s') :=
    mark_attendance_with_gesture geodesic_meters s now (Some data) in
  records s' = records s
  /\ location s' = location s
  /\ http_status resp = 200
  /\ status resp = StInfo
  /\ resp_attendance_type resp = None
  /\ match geofence_check geodesic_meters (location s) (user_latitude data)
             (user_longitude data) with
     | GeoReject distance_meters radius =>
         s' = s
         /\ resp = mkResponse 200 StInfo
                     (MsgTooFar (int_of_float distance_meters) radius)
                     NoSuffix (Some (name employee)) None None
     | GeoProceed _ =>
         s' = save_last_seen s employee now
         /\ resp = mkResponse 200 StInfo (MsgAlreadyOut (name employee))
                     NoSuffix (Some (name employee)) None (Some false)
     end.
Proof using name_given name_not_empty name_not_unknown name_resolves.
  intros Hin Hout. rewrite mark_resolved. unfold after_lookup.
  destruct (geofence_check geodesic_meters (location s) (user_latitude data)
              (user_longitude data)) as [distance_meters radius|sfx].
  - repeat split.
  - unfold attendance_transition. rewrite Hin, Hout. repeat split.
Qed.

(** C5: with an office location configured and both coordinates supplied,
    a distance strictly above the radius is answered with the informational
    "too far" response, which carries the distance truncated to whole metres
    and the radius, and the store is left as it was; a distance equal to the
    radius (or below it) is accepted, and the evaluation goes on to the
    attendance action with no location remark. *)
Theorem C5_geofence_boundary (office : LocationSetting) (ulat ulon dist : Q) :
  location s = Some office ->
  user_latitude data = CoordFloat ulat ->
  user_longitude data = CoordFloat ulon ->
  geodesic_meters (latitude office, longitude office) (ulat, ulon)
  = GeoMeters dist ->
  ((inject_Z (radius_meters office) < dist)%Q ->
   mark_attendance_with_gesture geodesic_meters s now (Some data)
   = (mkResponse 200 StInfo
        (MsgTooFar (int_of_float dist) (radius_meters office)) NoSuffix
        (Some (name employee)) None None, s))
  /\ ((dist <= inject_Z (radius_meters office))%Q ->
      geofence_check geodesic_meters (location s) (user_latitude data)
        (user_longitude data) = GeoProceed NoSuffix
      /\ mark_attendance_with_gesture geodesic_meters s now (Some data)
         = (let '(s1, attendance_type, msg, late) :=
              attendance_transition s now employee (req_emotional_state data)
            in
            match attendance_type with
            | Some act =>
                (mkResponse 200 StSuccess msg NoSuffix (Some (name employee))
                   (Some act) (Some late), save_last_seen s1 employee now)
            | None =>
                (mkResponse 200 StInfo msg NoSuffix (Some (name employee))
                   None (Some false), save_last_seen s1 employee now)
            end)).
Proof using name_given name_not_empty name_not_unknown name_resolves.
  intros Hloc Hlat Hlon Hgeo.
  assert (Hcheck :
    geofence_check geodesic_meters (location s) (user_latitude data)
      (user_longitude data)
    = if Qgt_bool dist (inject_Z (radius_meters office))
      then GeoReject dist (radius_meters office) else GeoProceed NoSuffix).
  { unfold geofence_check. rewrite Hloc, Hlat, Hlon, Hgeo. reflexivity. }
  split; intros Hd.
  - rewrite mark_resolved. unfold after_lookup.
    rewrite Hcheck, (Qgt_bool_true _ _ Hd). reflexivity.
  - rewrite mark_resolved. unfold after_lookup.
    rewrite Hcheck, (Qgt_bool_false _ _ Hd). split; reflexivity.
Qed.

(** C10: when today's IN row has no OUT row, the time is before 19:00 and
    the last element of the break list has no [break_in], the evaluation
    leaves that element as it is and appends a fresh break that starts now
    (action BREAK_IN), whatever the element's [break_out] is. *)
Theorem C10_last_break_without_break_in (sfx : Suffix) (i : AttendanceRecord)
    (b0 : Break) (l : list Break) :
  geofence_check geodesic_meters (location s) (user_latitude data)
    (user_longitude data) = GeoProceed sfx ->
  first_record s (emp_pk employee) (localdate now) IN = Some i ->
  first_record s (emp_pk employee) (localdate now) OUT = None ->
  localtime_time now < OUT_TIME_MIN ->
  breaks i = Some (b0 :: l) ->
  break_in (last l b0) = None ->
  let current_time := localtime_time now in
  let new_break_type :=
    if (LUNCH_TIME_START <=? current_time) && (current_time <=? LUNCH_TIME_END)
    then LUNCH else OTHER in
  let new_break := mkBreak new_break_type (Some current_time) None in
  mark_attendance_with_gesture geodesic_meters s now (Some data)
  = (mkResponse 200 StSuccess (MsgBreakIn new_break_type) sfx
       (Some (name employee)) (Some ActBREAK_IN) (Some false),
     save_last_seen
       (save_breaks s i (Some ((b0 :: l) ++ [new_break]))) employee now).
Proof using name_given name_not_empty name_not_unknown name_resolves.
  intros Hgeo Hin Hout Ht Hbs Hbi. cbv zeta.
  rewrite mark_resolved. unfold after_lookup. rewrite Hgeo.
  unfold attendance_transition. rewrite Hin, Hout.
  assert (E : (OUT_TIME_MIN <=? localtime_time now) = false)
    by (apply Z.leb_gt; exact Ht).
  rewrite E. unfold last_break_of. rewrite Hbs, Hbi.
  unfold breaks_or_empty, truthy_list. reflexivity.
Qed.

End RecognisedEmployee.

(** C2, as stated, fails: Asha has checked in and out, her [last_seen] is
    empty, and one more recognition at 19:30 writes [last_seen]. *)
Lemma C2_last_seen_is_written :
  let now := mkdatetime day_2025_06_17 (mk_time 19 30) in
  let out :=
    mark_attendance_with_gesture flat_geodesic closed_day_store now
      (Some (request_from "Asha" CoordNone CoordNone)) in
  first_record closed_day_store 1 (localdate now) IN <> None
  /\ first_record closed_day_store 1 (localdate now) OUT <> None
  /\ map last_seen (employees closed_day_store) = [None]
  /\ map last_seen (employees (snd out)) = [Some now]
  /\ snd out <> closed_day_store.
Proof.
  cbv zeta. repeat split; vm_compute; (reflexivity || discriminate).
Qed.

Lemma C2_already_checked_out_witness :
  let now := mkdatetime day_2025_06_17 (mk_time 19 30) in
  let (resp, s') :=
    mark_attendance_with_gesture flat_geodesic closed_day_store now
      (Some (request_from "Asha" CoordNone CoordNone)) in
  records s' = records closed_day_store
  /\ location s' = location closed_day_store
  /\ http_status resp = 200
  /\ status resp = StInfo
  /\ resp_attendance_type resp = None
  /\ s' = save_last_seen closed_day_store asha now
  /\ resp = mkResponse 200 StInfo (MsgAlreadyOut (name asha)) NoSuffix
              (Some (name asha)) None (Some false).
Proof.
  cbv zeta.
  refine (C2_already_checked_out flat_geodesic closed_day_store
            (mkdatetime day_2025_06_17 (mk_time 19 30))
            (request_from "Asha" CoordNone CoordNone) "Asha"%string asha
            _ _ _ _
            (mkAttendanceRecord 1 1 day_2025_06_17 (mk_time 9 50) IN
               "On time." None None)
            (mkAttendanceRecord 2 1 day_2025_06_17 (mk_time 19 5) OUT
               "Out Time." None None)
            _ _);
    try reflexivity; discriminate.
Defined.

Lemma C5_geofence_boundary_witness :
  let now := mkdatetime day_2025_06_17 (mk_time 9 50) in
  mark_attendance_with_gesture flat_geodesic office_store now
    (Some (request_from "Asha" (CoordFloat 0.00501) (CoordFloat 0)))
  = (mkResponse 200 StInfo (MsgTooFar 501 500) NoSuffix (Some "Asha"%string)
       None None, office_store)
  /\ resp_attendance_type
       (fst (mark_attendance_with_gesture flat_geodesic office_store now
               (Some (request_from "Asha" (CoordFloat 0.005) (CoordFloat 0)))))
     = Some ActIN.
Proof.
  cbv zeta. split.
  - refine (proj1 (C5_geofence_boundary flat_geodesic office_store
                     (mkdatetime day_2025_06_17 (mk_time 9 50))
                     (request_from "Asha" (CoordFloat 0.00501) (CoordFloat 0))
                     "Asha"%string asha _ _ _ _
                     (mkLocationSetting 0 0 500) 0.00501 0 501
                     _ _ _ _) _);
      first [reflexivity | discriminate | vm_compute; reflexivity].
  - refine (eq_trans
              (f_equal (fun x => resp_attendance_type (fst x))
                 (proj2 (proj2 (C5_geofence_boundary flat_geodesic office_store
                     (mkdatetime day_2025_06_17 (mk_time 9 50))
                     (request_from "Asha" (CoordFloat 0.005) (CoordFloat 0))
                     "Asha"%string asha _ _ _ _
                     (mkLocationSetting 0 0 500) 0.005 0 500
                     _ _ _ _) _))) _);
      first [reflexivity | discriminate | vm_compute; reflexivity
            | vm_compute; discriminate].
Defined.

Lemma C10_last_break_without_break_in_witness :
  let now := mkdatetime day_2025_06_17 (mk_time 12 0) in
  let out :=
    mark_attendance_with_gesture flat_geodesic null_break_in_store now
      (Some (request_from "Asha" CoordNone CoordNone)) in
  resp_attendance_type (fst out) = Some ActBREAK_IN
  /\ map breaks (records (snd out))
     = [Some [mkBreak OTHER None None;
              mkBreak OTHER (Some (mk_time 12 0)) None]].
Proof.
  cbv zeta.
  pose proof
    (C10_last_break_without_break_in flat_geodesic null_break_in_store
       (mkdatetime day_2025_06_17 (mk_time 12 0))
       (request_from "Asha" CoordNone CoordNone) "Asha"%string asha
       eq_refl ltac:(discriminate) ltac:(discriminate) eq_refl
       SuffixNoOffice
       (mkAttendanceRecord 1 1 day_2025_06_17 (mk_time 9 50) IN "On time."
          None (Some [mkBreak OTHER None None]))
       (mkBreak OTHER None None) [] eq_refl eq_refl eq_refl eq_refl eq_refl
       eq_refl) as H.
  cbv zeta in H. rewrite H. split; reflexivity.
Defined.

(** *** The break invariant over reachable stores *)

Lemma last_cons {A : Type} (a d : A) (l : list A) : last (a :: l) d = last l a.
Proof.
  revert a d. induction l as [|x l IH]; intros a d; [reflexivity|].
  change (last (a :: x :: l) d) with (last (x :: l) d).
  rewrite (IH x d), (IH x a). reflexivity.
Qed.

Lemma split_last {A : Type} (a : A) (l : list A) :
  a :: l = removelast (a :: l) ++ [last l a].
Proof.
  rewrite <- (last_cons a a l). apply app_removelast_last. discriminate.
Qed.

Lemma in_removelast {A : Type} (x : A) (l : list A) :
  In x (removelast l) -> In x l.
Proof.
  destruct l as [|a l]; [intros []|]. intros H.
  rewrite (split_last a l). apply in_or_app. left. exact H.
Qed.

Lemma last_in {A : Type} (a : A) (l : list A) : In (last l a) (a :: l).
Proof.
  rewrite (split_last a l) at 1. apply in_or_app. right. left. reflexivity.
Qed.

Lemma nth_error_removelast {A : Type} (l : list A) (n : nat) :
  (S n < List.length l)%nat -> nth_error (removelast l) n = nth_error l n.
Proof.
  revert n. induction l as [|a l IH]; intros n H; [inversion H|].
  destruct l as [|b l]; [cbn in H; lia|].
  destruct n as [|n]; [reflexivity|].
  change (nth_error (removelast (b :: l)) n = nth_error (b :: l) n).
  apply IH. cbn in H |- *. lia.
Qed.

Lemma breaks_ok_single_open_last (bs : list Break) :
  breaks_ok bs -> single_open_last bs.
Proof.
  intros [_ Hclosed].
  assert (Hlast : forall n b, nth_error bs n = Some b -> break_out b = None ->
                              S n = List.length bs).
  { intros n b Hn Hopen.
    assert (Hlt : (n < List.length bs)%nat)
      by (apply nth_error_Some; rewrite Hn; discriminate).
    destruct (Nat.eq_dec (S n) (List.length bs)) as [E|NE]; [exact E|].
    exfalso. apply (Hclosed b); [|exact Hopen].
    apply (nth_error_In _ n). rewrite nth_error_removelast by lia. exact Hn. }
  split; [exact Hlast|].
  intros n m b b' Hn Hm Ho Ho'.
  pose proof (Hlast _ _ Hn Ho). pose proof (Hlast _ _ Hm Ho'). lia.
Qed.

Lemma all_closed (b0 : Break) (l : list Break) :
  breaks_ok (b0 :: l) -> break_out (last l b0) <> None ->
  forall b, In b (b0 :: l) -> break_out b <> None.
Proof.
  intros [_ Hclosed] Hlast b Hb. rewrite (split_last b0 l) in Hb.
  apply in_app_or in Hb. destruct Hb as [Hb|[Hb|[]]].
  - apply Hclosed. exact Hb.
  - subst b. exact Hlast.
Qed.

Lemma breaks_ok_append (bs : list Break) (new_break : Break) :
  (forall b, In b bs -> break_in b <> None) ->
  (forall b, In b bs -> break_out b <> None) ->
  break_in new_break <> None ->
  breaks_ok (bs ++ [new_break]).
Proof.
  intros Hin Hout Hnew. split.
  - intros b Hb. apply in_app_or in Hb. destruct Hb as [Hb|[Hb|[]]].
    + apply Hin. exact Hb.
    + subst b. exact Hnew.
  - intros b Hb. rewrite removelast_last in Hb. apply Hout. exact Hb.
Qed.

Lemma breaks_ok_close_last (b0 : Break) (l : list Break) (t : time) :
  breaks_ok (b0 :: l) -> breaks_ok (close_last (b0 :: l) t).
Proof.
  intros [Hin Hclosed]. unfold close_last. split.
  - intros b Hb. apply in_app_or in Hb. destruct Hb as [Hb|[Hb|[]]].
    + apply Hin. apply in_removelast. exact Hb.
    + subst b. cbn [break_in]. apply Hin. apply last_in.
  - intros b Hb. rewrite removelast_last in Hb. apply Hclosed. exact Hb.
Qed.

Lemma store_ok_save_breaks (s : Store) (i : AttendanceRecord)
    (bs : list Break) :
  store_ok s -> breaks_ok bs -> store_ok (save_breaks s i (Some bs)).
Proof.
  intros Hs Hbs r bs' Hr Hb. cbn [save_breaks records] in Hr.
  apply in_map_iff in Hr. destruct Hr as [r0 [E Hr0]].
  destruct (rec_pk r0 =? rec_pk i).
  - subst r. cbn [breaks] in Hb. injection Hb as <-. exact Hbs.
  - subst r. exact (Hs _ _ Hr0 Hb).
Qed.

Lemma store_ok_create (s : Store) (now : datetime) (e : Employee)
    (ty : AttendanceType) (rem : string) (emotion : option string) :
  store_ok s ->
  store_ok (fst (create_attendance_record s now e ty rem emotion)).
Proof.
  intros Hs r bs Hr Hb. cbn in Hr. apply in_app_or in Hr.
  destruct Hr as [Hr|[Hr|[]]].
  - exact (Hs _ _ Hr Hb).
  - subst r. discriminate Hb.
Qed.

Lemma breaks_or_empty_some (bs : option (list Break)) (b0 : Break)
    (l : list Break) :
  bs = Some (b0 :: l) -> breaks_or_empty bs = b0 :: l.
Proof. intros ->. reflexivity. Qed.

(** The list to which a new break is appended is well formed and has no
    open element whenever the test for an open last break fails. *)
Lemma no_open_break_when_appending (bs : option (list Break)) :
  (forall l, bs = Some l -> breaks_ok l) ->
  match last_break_of bs with
  | Some last_break => is_open last_break = false
  | None => True
  end ->
  (forall b, In b (breaks_or_empty bs) -> break_in b <> None)
  /\ (forall b, In b (breaks_or_empty bs) -> break_out b <> None).
Proof.
  intros Hok Htest. destruct bs as [[|b0 l]|].
  1, 3: split; intros b Hb; destruct Hb.
  pose proof (Hok _ eq_refl) as Hbs.
  change (breaks_or_empty (Some (b0 :: l))) with (b0 :: l).
  split; [exact (proj1 Hbs)|].
  apply all_closed; [exact Hbs|].
  unfold last_break_of in Htest.
  destruct (break_in (last l b0)) eqn:Ebi.
  - unfold is_open in Htest. destruct (break_out (last l b0)); congruence.
  - exfalso. exact (proj1 Hbs _ (last_in b0 l) Ebi).
Qed.

Lemma store_ok_transition (s : Store) (now : datetime) (e : Employee)
    (emotion : option string) :
  store_ok s ->
  store_ok (fst (fst (fst (attendance_transition s now e emotion)))).
Proof.
  intros Hs. unfold attendance_transition.
  destruct (first_record s (emp_pk e) (localdate now) IN) as [i|] eqn:Ein.
  2:{ exact (store_ok_create s now e IN _ emotion Hs). }
  destruct (first_record s (emp_pk e) (localdate now) OUT) as [o|];
    [exact Hs|].
  destruct (OUT_TIME_MIN <=? localtime_time now).
  { exact (store_ok_create s now e OUT _ None Hs). }
  apply first_record_some_matches in Ein. destruct Ein as [Hi _].
  assert (Hbs : forall l, breaks i = Some l -> breaks_ok l)
    by (intros l El; exact (Hs _ _ Hi El)).
  destruct (last_break_of (breaks i)) as [b|] eqn:Elast.
  - destruct (is_open b) eqn:Eopen; cbn [fst].
    + apply store_ok_save_breaks; [exact Hs|].
      destruct (breaks i) as [[|b0 l]|]; try discriminate Elast.
      change (breaks_or_empty (Some (b0 :: l))) with (b0 :: l).
      apply breaks_ok_close_last. apply Hbs. reflexivity.
    + apply store_ok_save_breaks; [exact Hs|].
      destruct (no_open_break_when_appending (breaks i) Hbs) as [H1 H2].
      { rewrite Elast. exact Eopen. }
      apply breaks_ok_append; [exact H1|exact H2|discriminate].
  - cbn [fst]. apply store_ok_save_breaks; [exact Hs|].
    destruct (no_open_break_when_appending (breaks i) Hbs) as [H1 H2].
    { rewrite Elast. exact I. }
    apply breaks_ok_append; [exact H1|exact H2|discriminate].
Qed.

Lemma store_ok_step (geodesic_meters : Q * Q -> Q * Q -> GeoOutcome)
    (s : Store) (now : datetime) (body : option RequestData) :
  store_ok s ->
  store_ok (snd (mark_attendance_with_gesture geodesic_meters s now body)).
Proof.
  intros Hs. unfold mark_attendance_with_gesture.
  destruct body as [data|]; [|exact Hs].
  destruct (recognized_name data) as [who|]; [|exact Hs].
  destruct (_ || _); [exact Hs|].
  destruct (get_employee_by_name s who) as [|employee|]; try exact Hs.
  unfold after_lookup.
  destruct (geofence_check _ _ _ _); [exact Hs|].
  pose proof (store_ok_transition s now employee (req_emotional_state data) Hs)
    as Ht.
  destruct (attendance_transition s now employee (req_emotional_state data))
    as [[[s1 act] msg] late].
  cbn [fst] in Ht. destruct act; exact Ht.
Qed.

Lemma reachable_store_ok (geodesic_meters : Q * Q -> Q * Q -> GeoOutcome)
    (s : Store) :
  reachable geodesic_meters s -> store_ok s.
Proof.
  induction 1 as [s Hempty|s now body _ IH].
  - intros r bs Hr. rewrite Hempty in Hr. destruct Hr.
  - apply store_ok_step. exact IH.
Qed.

(** C4: in every store reachable through the state machine, each break
    list has at most one open break and an open break is its last element.
    In such a store, for a recognised employee who passes the geofence, has
    today's IN row and no OUT row, an evaluation before 19:00 closes the
    last break when it is open (action BREAK_OUT, [break_out] set to the
    time of the evaluation, the rest of the list untouched), and whenever
    the action is BREAK_IN the list had no open break and the new break is
    appended to it. *)
Theorem C4_single_open_break
    (geodesic_meters : Q * Q -> Q * Q -> GeoOutcome) (s : Store) :
  reachable geodesic_meters s ->
  (forall r bs, In r (records s) -> breaks r = Some bs -> single_open_last bs)
  /\ (forall (now : datetime) (data : RequestData) (who : string)
             (employee : Employee) (sfx : Suffix) (i : AttendanceRecord),
        recognized_name data = Some who ->
        who <> ""%string -> who <> "Unknown"%string ->
        get_employee_by_name s who = Found employee ->
        geofence_check geodesic_meters (location s) (user_latitude data)
          (user_longitude data) = GeoProceed sfx ->
        first_record s (emp_pk employee) (localdate now) IN = Some i ->
        first_record s (emp_pk employee) (localdate now) OUT = None ->
        localtime_time now < OUT_TIME_MIN ->
        let current_time := localtime_time now in
        let out :=
          mark_attendance_with_gesture geodesic_meters s now (Some data) in
        (forall b0 l,
            breaks i = Some (b0 :: l) -> break_out (last l b0) = None ->
            resp_attendance_type (fst out) = Some ActBREAK_OUT
            /\ snd out
               = save_last_seen
                   (save_breaks s i
                      (Some (removelast (b0 :: l)
                             ++ [mkBreak (break_type (last l b0))
                                   (break_in (last l b0))
                                   (Some current_time)])))
                   employee now)
        /\ (resp_attendance_type (fst out) = Some ActBREAK_IN ->
            (forall b, In b (breaks_or_empty (breaks i)) ->
                       break_out b <> None)
            /\ exists ty,
                 snd out
                 = save_last_seen
                     (save_breaks s i
                        (Some (breaks_or_empty (breaks i)
                               ++ [mkBreak ty (Some current_time) None])))
                     employee now)).
Proof.
  intros Hreach. pose proof (reachable_store_ok _ _ Hreach) as Hs. split.
  { intros r bs Hr Hb. apply breaks_ok_single_open_last.
    exact (Hs _ _ Hr Hb). }
  intros now data who employee sfx i Hname Hne Hnu Hget Hgeo Hin Hout Ht.
  cbv zeta.
  rewrite (mark_resolved geodesic_meters s now data who employee
             Hname Hne Hnu Hget).
  unfold after_lookup. rewrite Hgeo.
  unfold attendance_transition. rewrite Hin, Hout.
  assert (E : (OUT_TIME_MIN <=? localtime_time now) = false)
    by (apply Z.leb_gt; exact Ht).
  rewrite E.
  destruct (first_record_some_matches _ _ _ _ _ Hin) as [Hi _].
  assert (Hbs : forall l, breaks i = Some l -> breaks_ok l)
    by (intros l El; exact (Hs _ _ Hi El)).
  split.
  - intros b0 l Hb Hopen.
    pose proof (Hbs _ Hb) as Hok.
    unfold last_break_of. rewrite Hb.
    destruct (break_in (last l b0)) eqn:Ebi.
    2:{ exfalso. exact (proj1 Hok _ (last_in b0 l) Ebi). }
    unfold is_open. rewrite Hopen. cbn [fst snd resp_attendance_type].
    split; [reflexivity|].
    rewrite (breaks_or_empty_some _ _ _ eq_refl). unfold close_last.
    rewrite Ebi. reflexivity.
  - destruct (last_break_of (breaks i)) as [b|] eqn:Elast.
    + destruct (is_open b) eqn:Eopen; cbn [fst snd resp_attendance_type];
        intros Hact; [discriminate Hact|].
      split.
      * apply (no_open_break_when_appending (breaks i) Hbs).
        rewrite Elast. exact Eopen.
      * eexists. reflexivity.
    + cbn [fst snd resp_attendance_type]. intros _. split.
      * apply (no_open_break_when_appending (breaks i) Hbs).
        rewrite Elast. exact I.
      * eexists. reflexivity.
Qed.

Lemma lunch_open_store_reachable : reachable flat_geodesic lunch_open_store.
Proof.
  unfold lunch_open_store. apply reach_step. apply reach_step.
  apply reach_start. reflexivity.
Defined.

Lemma C4_single_open_break_witness :
  let now := mkdatetime day_2025_06_17 (mk_time 14 10) in
  let out :=
    mark_attendance_with_gesture flat_geodesic lunch_open_store now
      (Some (request_from "Asha" CoordNone CoordNone)) in
  map breaks (records lunch_open_store)
  = [Some [mkBreak LUNCH (Some (mk_time 13 45)) None]]
  /\ resp_attendance_type (fst out) = Some ActBREAK_OUT
  /\ map breaks (records (snd out))
     = [Some [mkBreak LUNCH (Some (mk_time 13 45)) (Some (mk_time 14 10))]].
Proof.
  cbv zeta. split; [vm_compute; reflexivity|].
  pose proof
    (proj2 (C4_single_open_break flat_geodesic lunch_open_store
              lunch_open_store_reachable)
       (mkdatetime day_2025_06_17 (mk_time 14 10))
       (request_from "Asha" CoordNone CoordNone) "Asha"%string
       (mkEmployee 1 "Asha" "E001"
          (Some (mkdatetime day_2025_06_17 (mk_time 13 45))))
       SuffixNoDeviceLocation
       (mkAttendanceRecord 1 1 day_2025_06_17 (mk_time 9 50) IN "On time."
          None (Some [mkBreak LUNCH (Some (mk_time 13 45)) None]))
       eq_refl ltac:(discriminate) ltac:(discriminate) eq_refl eq_refl
       eq_refl eq_refl eq_refl) as H.
  cbv zeta in H.
  destruct (proj1 H (mkBreak LUNCH (Some (mk_time 13 45)) None) []
              eq_refl eq_refl) as [Hact Hstore].
  split; [exact Hact|]. rewrite Hstore. vm_compute. reflexivity.
Defined.

(** ** The presence trend *)

(** *** Bucket keys determine the bucket *)

Lemma digit_inj (a b : Z) :
  0 <= a <= 9 -> 0 <= b <= 9 -> digit a = digit b -> a = b.
Proof.
  intros Ha Hb E. unfold digit in E.
  apply (f_equal nat_of_ascii) in E.
  rewrite !nat_ascii_embedding in E by lia. lia.
Qed.

Lemma pad2_inj (a b : Z) :
  0 <= a <= 99 -> 0 <= b <= 99 -> pad2 a = pad2 b -> a = b.
Proof.
  intros Ha Hb E. unfold pad2 in E. injection E as E1 E2.
  apply digit_inj in E1, E2; divlia.
Qed.






(** *** The loop of the presence trend *)

Lemma bind_ok {A B : Type} (r : result A) (k : A -> result B) (b : B) :
  bind r k = Ok b -> exists a, r = Ok a /\ k a = Ok b.
Proof. destruct r as [a|e]; cbn; [eauto|discriminate]. Qed.

Lemma add_days_inv (x y : date) (k : Z) :
  add_days x k = Ok y ->
  1 <= toordinal x + k <= MAXORDINAL /\ y = fromordinal (toordinal x + k).
Proof.
  unfold add_days.
  destruct ((0 <? toordinal x + k) && (toordinal x + k <=? MAXORDINAL)) eqn:E;
    [|discriminate].
  intros H. injection H as <-. split; [lia|reflexivity].
Qed.

Lemma make_date_inv (y m d : Z) (x : date) :
  make_date y m d = Ok x -> valid_ymd y m d = true /\ x = mkdate y m d.
Proof.
  unfold make_date. destruct (valid_ymd y m d); [|discriminate].
  intros H. injection H as <-. split; reflexivity.
Qed.



Lemma trend_step_next (interval : Interval) (c e : date) (k : string)
    (days : list date) (next : date) :
  valid c = true ->
  trend_step interval c e = Ok (k, days, next) ->
  valid next = true
  /\ interval_rank interval c < interval_rank interval next
  /\ toordinal c < toordinal next.
Proof.
  intros Hv H. pose proof Hv as Hf. apply valid_ymd_iff in Hf.
  destruct Hf as [Hy [Hm Hd]].
  unfold trend_step in H. destruct interval.
  - apply bind_ok in H. destruct H as [n [Hn H]]. injection H as _ _ <-.
    apply add_days_inv in Hn. destruct Hn as [Hr ->].
    destruct (toordinal_fromordinal _ Hr) as [Hvn Hon].
    cbn [interval_rank]. rewrite Hon. repeat split; [exact Hvn|lia|lia].
  - apply bind_ok in H. destruct H as [ds [_ H]].
    apply bind_ok in H. destruct H as [n [Hn H]]. injection H as _ _ <-.
    destruct (Z.eq_dec (year c) 9999) as [Ey|Ny];
      [destruct (Z.eq_dec (month c) 12) as [Em|Nm]|].
    { rewrite first_of_following_month_overflow in Hn by assumption.
      discriminate. }
    all: rewrite first_of_following_month_ok in Hn by (assumption || lia);
      injection Hn as <-;
      pose proof (first_of_next_month (year c) (month c) Hm) as F;
      pose proof (next_month_valid (year c) (month c) Hy Hm ltac:(lia) 1
                    ltac:(lia)) as Hvn;
      (split; [exact Hvn|]);
      unfold toordinal; cbn [interval_rank year month day];
      unfold ymd2ord in *; unfold next_month_of in *;
      destruct (month c =? 12) eqn:E12; cbn [fst snd] in *; lia.
  - apply bind_ok in H. destruct H as [ds [_ H]].
    apply bind_ok in H. destruct H as [n [Hn H]]. injection H as _ _ <-.
    unfold replace_year in Hn. apply make_date_inv in Hn.
    destruct Hn as [Hvn ->]. split; [exact Hvn|].
    cbn [interval_rank year]. split; [lia|].
    apply (ymd2ord_lt _ _ _ _ _ _ Hv Hvn). left. lia.
Qed.



Lemma in_insert_sorted {A : Type} (lt : A -> A -> bool) (x y : A)
    (l : list A) :
  In y (insert_sorted lt x l) <-> y = x \/ In y l.
Proof.
  induction l as [|z l IH]; cbn [insert_sorted].
  - cbn. intuition congruence.
  - destruct (lt z x); cbn [In]; [rewrite IH|]; intuition congruence.
Qed.

Lemma in_sorted {A : Type} (lt : A -> A -> bool) (y : A) (l : list A) :
  In y (sorted lt l) <-> In y l.
Proof.
  unfold sorted. induction l as [|x l IH]; cbn [fold_right]; [reflexivity|].
  rewrite in_insert_sorted, IH. cbn. intuition congruence.
Qed.

Lemma AttendanceType_eqb_eq (a b : AttendanceType) :
  AttendanceType_eqb a b = true <-> a = b.
Proof. destruct a, b; cbn; split; congruence. Qed.


(** The loop never runs out of passes. *)
Lemma trend_loop_terminates (s : Store) (total : Z) (interval : Interval)
    (end_date : date) (fuel : nat) :
  valid end_date = true ->
  forall (current : date) (d : trend_dict),
    valid current = true ->
    toordinal end_date - toordinal current + 1 <= Z.of_nat fuel ->
    trend_loop fuel s total interval end_date current d <> None.
Proof.
  intros Hve. induction fuel as [|fuel IH]; intros current d Hv Hfuel;
    cbn [trend_loop]; rewrite (date_leb_ord _ _ Hv Hve);
    destruct (Z.leb_spec (toordinal current) (toordinal end_date));
    try discriminate; try lia.
  destruct (trend_step interval current end_date) as [[[key days] next]|e]
    eqn:Estep; [|discriminate].
  destruct (trend_step_next _ _ _ _ _ _ Hv Estep) as [Hvn [_ Hord]].
  apply IH; [exact Hvn|lia].
Qed.

Lemma trends_terminate (s : Store) (start_date end_date : date)
    (interval : string) :
  valid start_date = true -> valid end_date = true ->
  get_attendance_percentage_trends s start_date end_date interval <> None.
Proof.
  intros Hs He. unfold get_attendance_percentage_trends.
  destruct (_ =? 0); [discriminate|].
  pose proof (trend_loop_terminates s (Z.of_nat (List.length (employees s)))
                (interval_of_string interval) end_date
                (trend_fuel start_date end_date) He
                start_date [] Hs) as H.
  destruct (trend_loop _ _ _ _ _ _ _) as [[d|e]|]; try discriminate.
  exfalso. apply H; [|reflexivity]. unfold trend_fuel. lia.
Qed.

(** ** The presence trend *)









Section PresenceTrend.

Variables (s : Store) (total_employees : Z) (interval : Interval)
  (start_date end_date : date).

Hypothesis end_valid : valid end_date = true.


End PresenceTrend.







(** * Further properties *)

(** ** Further properties of the state machine *)

Lemma transition_no_action (s : Store) (now : datetime) (e : Employee)
    (emotion : option string) (s1 : Store) (msg : Message) (late : bool) :
  attendance_transition s now e emotion = (s1, None, msg, late) ->
  s1 = s /\ msg = MsgAlreadyOut (name e) /\ late = false.
Proof.
  unfold attendance_transition.
  destruct (first_record s (emp_pk e) (localdate now) IN) as [i|].
  2:{ destruct (create_attendance_record _ _ _ _ _ _). discriminate. }
  destruct (first_record s (emp_pk e) (localdate now) OUT) as [o|].
  { intros H. injection H as <- <- <-. repeat split. }
  destruct (OUT_TIME_MIN <=? localtime_time now).
  { destruct (create_attendance_record _ _ _ _ _ _). discriminate. }
  destruct (last_break_of (breaks i)) as [b|];
    [destruct (is_open b)|]; discriminate.
Qed.

(** Only a recorded action changes attendance rows: every answer other than
    "success" leaves the attendance rows and the office setting as they
    were, and every such answer other than "already checked out" leaves the
    whole store as it was. *)
Theorem rejections_leave_store_unchanged
    (geodesic_meters : Q * Q -> Q * Q -> GeoOutcome) (s : Store)
    (now : datetime) (body : option RequestData) :
  let (resp, s') := mark_attendance_with_gesture geodesic_meters s now body in
  status resp = StSuccess
  \/ (records s' = records s /\ location s' = location s
      /\ ((exists who, message resp = MsgAlreadyOut who) \/ s' = s)).
Proof.
  unfold mark_attendance_with_gesture.
  destruct body as [data|]; [|right; auto].
  destruct (recognized_name data) as [who|]; [|right; auto].
  destruct (_ || _); [right; auto|].
  destruct (get_employee_by_name s who) as [|employee|]; try (right; auto).
  unfold after_lookup.
  destruct (geofence_check _ _ _ _); [right; auto|].
  destruct (attendance_transition s now employee (req_emotional_state data))
    as [[[s1 act] msg] late] eqn:Et.
  destruct act as [act|]; [left; reflexivity|].
  destruct (transition_no_action _ _ _ _ _ _ _ Et) as [-> [-> _]].
  right. cbn. repeat split. left. eexists. reflexivity.
Qed.

Lemma get_employee_found (s : Store) (who : string) (e : Employee) :
  get_employee_by_name s who = Found e -> In e (employees s) /\ name e = who.
Proof.
  unfold get_employee_by_name.
  destruct (filter _ (employees s)) as [|x [|y l]] eqn:Ef; try discriminate.
  intros H. injection H as ->.
  assert (Hin : In e (filter (fun e0 => String.eqb (name e0) who)
                        (employees s))) by (rewrite Ef; left; reflexivity).
  apply filter_In in Hin. destruct Hin as [Hin Hn].
  apply String.eqb_eq in Hn. auto.
Qed.

Lemma unique_pk_row (l : list Employee) (e x : Employee) :
  NoDup (map emp_pk l) -> In e l -> In x l -> emp_pk x = emp_pk e -> x = e.
Proof.
  induction l as [|a l IH]; intros Hnd He Hx Hpk; [destruct He|].
  cbn in Hnd. inversion Hnd as [|? ? Hnotin Hnd']; subst.
  destruct He as [->|He], Hx as [->|Hx]; try reflexivity.
  - exfalso. apply Hnotin. rewrite <- Hpk. apply in_map. exact Hx.
  - exfalso. apply Hnotin. rewrite Hpk. apply in_map. exact He.
  - apply IH; assumption.
Qed.

Lemma same_identity_refl (now : datetime) (l : list Employee) :
  Forall2 (same_identity now) l l.
Proof.
  induction l as [|a l IH]; constructor; [|exact IH].
  unfold same_identity. auto.
Qed.

Lemma same_identity_save_last_seen (now : datetime) (e : Employee)
    (l0 l : list Employee) :
  Forall2 (same_identity now) l0 l ->
  Forall2 (same_identity now) l0
    (map (fun x => if emp_pk x =? emp_pk e then set_last_seen x now else x) l).
Proof.
  induction 1 as [|a b l0 l Hab _ IH]; cbn [map]; constructor; [|exact IH].
  destruct (emp_pk b =? emp_pk e); [|exact Hab].
  unfold same_identity in *. cbn. intuition.
Qed.

Lemma same_identity_save_employee (now : datetime) (e : Employee)
    (l : list Employee) :
  NoDup (map emp_pk l) -> In e l ->
  Forall2 (same_identity now) l
    (map (fun x => if emp_pk x =? emp_pk (set_last_seen e now)
                   then set_last_seen e now else x) l).
Proof.
  intros Hnd He.
  assert (H : forall l', incl l' l ->
              Forall2 (same_identity now) l'
                (map (fun x => if emp_pk x =? emp_pk (set_last_seen e now)
                               then set_last_seen e now else x) l')).
  { induction l' as [|a l' IH]; intros Hincl; cbn [map]; constructor.
    - cbn [emp_pk set_last_seen].
      destruct (Z.eqb_spec (emp_pk a) (emp_pk e)) as [Epk|Npk].
      + assert (a = e) as ->
          by (apply (unique_pk_row l); auto; apply Hincl; left; reflexivity).
        unfold same_identity. cbn. auto.
      + unfold same_identity. auto.
    - apply IH. intros x Hx. apply Hincl. right. exact Hx. }
  apply H. apply incl_refl.
Qed.

(** An evaluation changes nothing about the employees but [last_seen]: the
    rows keep their order, primary keys, names and employee ids, and a row's
    [last_seen] is either left alone or set to the evaluation instant. *)
Theorem evaluation_only_stamps_last_seen
    (geodesic_meters : Q * Q -> Q * Q -> GeoOutcome) (s : Store)
    (now : datetime) (body : option RequestData) :
  NoDup (map emp_pk (employees s)) ->
  Forall2 (same_identity now) (employees s)
    (employees (snd (mark_attendance_with_gesture geodesic_meters s now body))).
Proof.
  intros Hnd. unfold mark_attendance_with_gesture.
  destruct body as [data|]; [|apply same_identity_refl].
  destruct (recognized_name data) as [who|]; [|apply same_identity_refl].
  destruct (_ || _); [apply same_identity_refl|].
  destruct (get_employee_by_name s who) as [|employee|] eqn:Eg;
    try apply same_identity_refl.
  apply get_employee_found in Eg. destruct Eg as [Hin _].
  unfold after_lookup.
  destruct (geofence_check _ _ _ _); [apply same_identity_refl|].
  assert (Ht : Forall2 (same_identity now) (employees s)
                 (employees (fst (fst (fst
                    (attendance_transition s now employee
                       (req_emotional_state data))))))).
  { unfold attendance_transition.
    destruct (first_record s (emp_pk employee) (localdate now) IN) as [i|].
    2:{ cbn. apply same_identity_save_employee; assumption. }
    destruct (first_record s (emp_pk employee) (localdate now) OUT) as [o|];
      [apply same_identity_refl|].
    destruct (OUT_TIME_MIN <=? localtime_time now).
    { cbn. apply same_identity_save_employee; assumption. }
    destruct (last_break_of (breaks i)) as [b|];
      [destruct (is_open b)|]; cbn; apply same_identity_refl. }
  destruct (attendance_transition s now employee (req_emotional_state data))
    as [[[s1 act] msg] late].
  cbn [fst] in Ht.
  destruct act; cbn [snd save_last_seen employees];
    apply same_identity_save_last_seen; exact Ht.
Qed.

(** *** Keys stay unique *)

Lemma find_none_forall {A : Type} (f : A -> bool) (l : list A) :
  find f l = None -> forall x, In x l -> f x = false.
Proof. intros H x Hx. exact (find_none f l H x Hx). Qed.



Lemma find_app_miss {A : Type} (f : A -> bool) (l : list A) (x : A) :
  find f l = None -> f x = false -> find f (l ++ [x]) = None.
Proof.
  induction l as [|a l IH]; cbn; intros Hn Hx; [rewrite Hx; reflexivity|].
  destruct (f a); [discriminate|]. apply IH; assumption.
Qed.

Lemma nodup_snoc {A : Type} (l : list A) (x : A) :
  NoDup l -> ~ In x l -> NoDup (l ++ [x]).
Proof.
  induction l as [|a l IH]; intros Hnd Hx; cbn.
  - constructor; [intros []|constructor].
  - inversion Hnd as [|? ? Ha Hnd']; subst. constructor.
    + intros Hin. apply in_app_or in Hin. destruct Hin as [Hin|[Hin|[]]].
      * exact (Ha Hin).
      * apply Hx. left. symmetry. exact Hin.
    + apply IH; [exact Hnd'|]. intros Hin. apply Hx. right. exact Hin.
Qed.

Lemma next_pk_fresh (s : Store) (r : AttendanceRecord) :
  In r (records s) -> rec_pk r < next_pk s.
Proof.
  unfold next_pk. induction (records s) as [|a l IH]; intros H; [destruct H|].
  cbn [map fold_right]. destruct H as [->|H]; [lia|].
  specialize (IH H). lia.
Qed.

Lemma matches_day_key (e : Z) (d : date) (ty : AttendanceType)
    (r : AttendanceRecord) :
  matches e d ty r = true <-> day_key r = (e, d, ty).
Proof.
  unfold matches, day_key. split.
  - intros H. apply andb_prop in H. destruct H as [H Ht].
    apply andb_prop in H. destruct H as [He Hd].
    apply Z.eqb_eq in He. apply date_eqb_eq in Hd.
    apply AttendanceType_eqb_eq in Ht. congruence.
  - intros H. injection H as He Hd Ht. rewrite He, Hd, Ht.
    rewrite Z.eqb_refl, (proj2 (date_eqb_eq d d) eq_refl),
      (proj2 (AttendanceType_eqb_eq ty ty) eq_refl).
    reflexivity.
Qed.

Lemma save_breaks_keys (s : Store) (i : AttendanceRecord)
    (bs : option (list Break)) :
  map rec_pk (records (save_breaks s i bs)) = map rec_pk (records s)
  /\ map day_key (records (save_breaks s i bs)) = map day_key (records s).
Proof.
  cbn [save_breaks records]. rewrite !map_map. split; apply map_ext;
    intros r; destruct (rec_pk r =? rec_pk i); reflexivity.
Qed.

Lemma keys_unique_create (s : Store) (now : datetime) (e : Employee)
    (ty : AttendanceType) (rem : string) (emotion : option string) :
  first_record s (emp_pk e) (localdate now) ty = None ->
  NoDup (map rec_pk (records s)) /\ NoDup (map day_key (records s)) ->
  NoDup (map rec_pk
           (records (fst (create_attendance_record s now e ty rem emotion))))
  /\ NoDup (map day_key
              (records (fst (create_attendance_record s now e ty rem
                               emotion)))).
Proof.
  intros Hnone [Hpk Hkey]. unfold create_attendance_record.
  cbn [fst records save_employee]. rewrite !map_app. cbn [map]. split.
  - apply nodup_snoc; [exact Hpk|].
    intros Hin. apply in_map_iff in Hin. destruct Hin as [r [Er Hr]].
    pose proof (next_pk_fresh s r Hr). cbn [rec_pk] in Er. lia.
  - apply nodup_snoc; [exact Hkey|].
    intros Hin. apply in_map_iff in Hin. destruct Hin as [r [Er Hr]].
    pose proof (find_none_forall _ _ Hnone r Hr) as Hm.
    assert (matches (emp_pk e) (localdate now) ty r = true)
      by (apply matches_day_key; exact Er).
    congruence.
Qed.

Lemma keys_unique_transition (s : Store) (now : datetime) (e : Employee)
    (emotion : option string) :
  NoDup (map rec_pk (records s)) /\ NoDup (map day_key (records s)) ->
  NoDup (map rec_pk (records (fst (fst (fst
           (attendance_transition s now e emotion))))))
  /\ NoDup (map day_key (records (fst (fst (fst
              (attendance_transition s now e emotion)))))).
Proof.
  intros H. unfold attendance_transition.
  destruct (first_record s (emp_pk e) (localdate now) IN) as [i|] eqn:Ein.
  2:{ exact (keys_unique_create s now e IN _ emotion Ein H). }
  destruct (first_record s (emp_pk e) (localdate now) OUT) as [o|] eqn:Eout;
    [exact H|].
  destruct (OUT_TIME_MIN <=? localtime_time now).
  { exact (keys_unique_create s now e OUT _ None Eout H). }
  destruct (last_break_of (breaks i)) as [b|];
    [destruct (is_open b)|]; cbn [fst];
    match goal with
    | |- context [save_breaks s i ?bs] =>
        destruct (save_breaks_keys s i bs) as [-> ->]; exact H
    end.
Qed.

Lemma keys_unique_step (geodesic_meters : Q * Q -> Q * Q -> GeoOutcome)
    (s : Store) (now : datetime) (body : option RequestData) :
  NoDup (map rec_pk (records s)) /\ NoDup (map day_key (records s)) ->
  NoDup (map rec_pk (records (snd
           (mark_attendance_with_gesture geodesic_meters s now body))))
  /\ NoDup (map day_key (records (snd
              (mark_attendance_with_gesture geodesic_meters s now body)))).
Proof.
  intros H. unfold mark_attendance_with_gesture.
  destruct body as [data|]; [|exact H].
  destruct (recognized_name data) as [who|]; [|exact H].
  destruct (_ || _); [exact H|].
  destruct (get_employee_by_name s who) as [|employee|]; try exact H.
  unfold after_lookup.
  destruct (geofence_check _ _ _ _); [exact H|].
  pose proof (keys_unique_transition s now employee (req_emotional_state data)
                H) as Ht.
  destruct (attendance_transition s now employee (req_emotional_state data))
    as [[[s1 act] msg] late].
  cbn [fst] in Ht. destruct act; exact Ht.
Qed.

(** In every store the state machine produces, primary keys of attendance
    rows are unique and no employee has two rows of the same type on the
    same date: the view keeps the model's [unique_together] constraint by
    itself. *)
Theorem reachable_keys_unique
    (geodesic_meters : Q * Q -> Q * Q -> GeoOutcome) (s : Store) :
  reachable geodesic_meters s ->
  NoDup (map rec_pk (records s)) /\ NoDup (map day_key (records s)).
Proof.
  induction 1 as [s Hempty|s now body _ IH].
  - rewrite Hempty. split; constructor.
  - apply keys_unique_step. exact IH.
Qed.

Lemma reachable_keys_unique_witness :
  NoDup (map rec_pk (records lunch_open_store))
  /\ NoDup (map day_key (records lunch_open_store)).
Proof.
  exact (reachable_keys_unique flat_geodesic lunch_open_store
           lunch_open_store_reachable).
Defined.

Lemma evaluation_only_stamps_last_seen_witness :
  Forall2 (same_identity (mkdatetime day_2025_06_17 (mk_time 9 50)))
    (employees office_store)
    (employees (snd (mark_attendance_with_gesture flat_geodesic office_store
                       (mkdatetime day_2025_06_17 (mk_time 9 50))
                       (Some (request_from "Asha" CoordNone CoordNone))))).
Proof.
  apply (evaluation_only_stamps_last_seen flat_geodesic office_store
           (mkdatetime day_2025_06_17 (mk_time 9 50))
           (Some (request_from "Asha" CoordNone CoordNone))).
  cbn. constructor; [intros []|constructor].
Defined.

(** *** Check-in, check-out and the break toggle *)

Lemma find_map_preserving {A : Type} (f : A -> bool) (g : A -> A)
    (l : list A) :
  (forall x, f (g x) = f x) -> find f (map g l) = option_map g (find f l).
Proof.
  intros Hg. induction l as [|a l IH]; [reflexivity|].
  cbn [map find]. rewrite Hg. destruct (f a); [reflexivity|exact IH].
Qed.

Lemma filter_map_preserving {A : Type} (f : A -> bool) (g : A -> A)
    (l : list A) :
  (forall x, f (g x) = f x) -> filter f (map g l) = map g (filter f l).
Proof.
  intros Hg. induction l as [|a l IH]; [reflexivity|].
  cbn [map filter]. rewrite Hg. destruct (f a); cbn [map]; congruence.
Qed.

Lemma first_record_save_last_seen (s : Store) (e : Employee) (t : datetime)
    (pk : Z) (d : date) (ty : AttendanceType) :
  first_record (save_last_seen s e t) pk d ty = first_record s pk d ty.
Proof. reflexivity. Qed.

Lemma first_record_save_breaks (s : Store) (i : AttendanceRecord)
    (bs : option (list Break)) (pk : Z) (d : date) (ty : AttendanceType) :
  first_record (save_breaks s i bs) pk d ty
  = option_map
      (fun x =>
         if rec_pk x =? rec_pk i then
           mkAttendanceRecord (rec_pk x) (rec_employee x) (rec_date x)
             (rec_time x) (attendance_type x) (remarks x) (emotional_state x)
             bs
         else x)
      (first_record s pk d ty).
Proof.
  unfold first_record. cbn [save_breaks records].
  apply find_map_preserving. intros x.
  destruct (rec_pk x =? rec_pk i); reflexivity.
Qed.

Lemma get_employee_save_last_seen (s : Store) (e : Employee) (t : datetime)
    (who : string) :
  get_employee_by_name s who = Found e ->
  get_employee_by_name (save_last_seen s e t) who = Found (set_last_seen e t).
Proof.
  unfold get_employee_by_name. cbn [save_last_seen employees].
  rewrite (filter_map_preserving (fun e0 => String.eqb (name e0) who)).
  2:{ intros x. destruct (emp_pk x =? emp_pk e); reflexivity. }
  destruct (filter _ (employees s)) as [|x [|y l]]; try discriminate.
  intros H. injection H as ->. cbn [map]. rewrite Z.eqb_refl. reflexivity.
Qed.

Lemma break_in_step (geodesic_meters : Q * Q -> Q * Q -> GeoOutcome)
    (s : Store) (now : datetime) (data : RequestData) (who : string)
    (employee : Employee) (sfx : Suffix) (i : AttendanceRecord) :
  recognized_name data = Some who ->
  who <> ""%string -> who <> "Unknown"%string ->
  get_employee_by_name s who = Found employee ->
  geofence_check geodesic_meters (location s) (user_latitude data)
    (user_longitude data) = GeoProceed sfx ->
  first_record s (emp_pk employee) (localdate now) IN = Some i ->
  first_record s (emp_pk employee) (localdate now) OUT = None ->
  localtime_time now < mk_time 19 0 ->
  match last_break_of (breaks i) with
  | Some b => is_open b = false
  | None => True
  end ->
  let ty :=
    if (LUNCH_TIME_START <=? localtime_time now)
       && (localtime_time now <=? LUNCH_TIME_END)
    then LUNCH else OTHER in
  mark_attendance_with_gesture geodesic_meters s now (Some data)
  = (mkResponse 200 StSuccess (MsgBreakIn ty) sfx (Some (name employee))
       (Some ActBREAK_IN) (Some false),
     save_last_seen
       (save_breaks s i
          (Some (breaks_or_empty (breaks i)
                 ++ [mkBreak ty (Some (localtime_time now)) None])))
       employee now).
Proof.
  intros Hname Hne Hnu Hres Hgeo Hin Hout Ht Hlast. cbv zeta.
  rewrite (mark_resolved geodesic_meters s now data who employee Hname Hne
             Hnu Hres).
  unfold after_lookup. rewrite Hgeo.
  unfold attendance_transition. rewrite Hin, Hout.
  assert (E : (OUT_TIME_MIN <=? localtime_time now) = false)
    by (apply Z.leb_gt; exact Ht).
  rewrite E.
  destruct (last_break_of (breaks i)) as [b|]; [rewrite Hlast|]; reflexivity.
Qed.

Lemma break_out_step (geodesic_meters : Q * Q -> Q * Q -> GeoOutcome)
    (s : Store) (now : datetime) (data : RequestData) (who : string)
    (employee : Employee) (sfx : Suffix) (i : AttendanceRecord)
    (bs : list Break) (b : Break) (t0 : time) :
  recognized_name data = Some who ->
  who <> ""%string -> who <> "Unknown"%string ->
  get_employee_by_name s who = Found employee ->
  geofence_check geodesic_meters (location s) (user_latitude data)
    (user_longitude data) = GeoProceed sfx ->
  first_record s (emp_pk employee) (localdate now) IN = Some i ->
  first_record s (emp_pk employee) (localdate now) OUT = None ->
  localtime_time now < mk_time 19 0 ->
  breaks i = Some (bs ++ [b]) ->
  break_in b = Some t0 -> break_out b = None ->
  mark_attendance_with_gesture geodesic_meters s now (Some data)
  = (mkResponse 200 StSuccess (MsgBreakOut (break_type b)) sfx
       (Some (name employee)) (Some ActBREAK_OUT) (Some false),
     save_last_seen
       (save_breaks s i
          (Some (bs ++ [mkBreak (break_type b) (Some t0)
                          (Some (localtime_time now))])))
       employee now).
Proof.
  intros Hname Hne Hnu Hres Hgeo Hin Hout Ht Hbs Hbi Hbo.
  rewrite (mark_resolved geodesic_meters s now data who employee Hname Hne
             Hnu Hres).
  unfold after_lookup. rewrite Hgeo.
  unfold attendance_transition. rewrite Hin, Hout.
  assert (E : (OUT_TIME_MIN <=? localtime_time now) = false)
    by (apply Z.leb_gt; exact Ht).
  rewrite E, Hbs.
  destruct (bs ++ [b]) as [|b0 l] eqn:El.
  { destruct bs; discriminate El. }
  assert (Hlast : last l b0 = b)
    by (rewrite <- (last_cons b0 b0 l), <- El; apply last_last).
  unfold last_break_of. rewrite Hlast, Hbi. unfold is_open. rewrite Hbo.
  unfold breaks_or_empty, truthy_list, close_last.
  rewrite Hlast, Hbi, <- El, removelast_last. reflexivity.
Qed.

Section RecognisedEmployeeSteps.

Variable geodesic_meters : Q * Q -> Q * Q -> GeoOutcome.
Variables (s : Store) (now : datetime) (data : RequestData).
Variables (who : string) (employee : Employee) (sfx : Suffix).

Hypothesis name_given : recognized_name data = Some who.
Hypothesis name_not_empty : who <> ""%string.
Hypothesis name_not_unknown : who <> "Unknown"%string.
Hypothesis name_resolves : get_employee_by_name s who = Found employee.
Hypothesis geofence_passed :
  geofence_check geodesic_meters (location s) (user_latitude data)
    (user_longitude data) = GeoProceed sfx.



(** A break opened by one recognition is closed by the next one: when the
    day's IN row has no open last break, a recognition at [t1] before 19:00
    followed by a recognition of the same employee at [t2] before 19:00 on
    the same date (both inside the geofence) leaves the break list with
    exactly one more element, the closed break from [t1] to [t2], and the
    two actions are BREAK_IN and BREAK_OUT. *)
Theorem break_opened_then_closed (i : AttendanceRecord) (now2 : datetime)
    (data2 : RequestData) (sfx2 : Suffix) :
  first_record s (emp_pk employee) (localdate now) IN = Some i ->
  first_record s (emp_pk employee) (localdate now) OUT = None ->
  localtime_time now < mk_time 19 0 ->
  match last_break_of (breaks i) with
  | Some b => is_open b = false
  | None => True
  end ->
  recognized_name data2 = Some who ->
  geofence_check geodesic_meters (location s) (user_latitude data2)
    (user_longitude data2) = GeoProceed sfx2 ->
  localdate now2 = localdate now ->
  localtime_time now2 < mk_time 19 0 ->
  let t1 := localtime_time now in
  let t2 := localtime_time now2 in
  let ty :=
    if (LUNCH_TIME_START <=? t1) && (t1 <=? LUNCH_TIME_END)
    then LUNCH else OTHER in
  let (resp1, s1) :=
    mark_attendance_with_gesture geodesic_meters s now (Some data) in
  let (resp2, s2) :=
    mark_attendance_with_gesture geodesic_meters s1 now2 (Some data2) in
  resp_attendance_type resp1 = Some ActBREAK_IN
  /\ resp_attendance_type resp2 = Some ActBREAK_OUT
  /\ option_map breaks
       (first_record s2 (emp_pk employee) (localdate now) IN)
     = Some (Some (breaks_or_empty (breaks i)
                   ++ [mkBreak ty (Some t1) (Some t2)])).
Proof using name_given name_not_empty name_not_unknown name_resolves
  geofence_passed.
  intros Hin Hout Ht1 Hlast Hname2 Hgeo2 Hdate Ht2. cbv zeta.
  rewrite (break_in_step geodesic_meters s now data who employee sfx i
             name_given name_not_empty name_not_unknown name_resolves
             geofence_passed Hin Hout Ht1 Hlast).
  set (ty := if (LUNCH_TIME_START <=? localtime_time now)
                && (localtime_time now <=? LUNCH_TIME_END)
             then LUNCH else OTHER).
  set (b1 := mkBreak ty (Some (localtime_time now)) None).
  set (s1 := save_last_seen
               (save_breaks s i (Some (breaks_or_empty (breaks i) ++ [b1])))
               employee now).
  set (i1 := mkAttendanceRecord (rec_pk i) (rec_employee i) (rec_date i)
               (rec_time i) (attendance_type i) (remarks i)
               (emotional_state i)
               (Some (breaks_or_empty (breaks i) ++ [b1]))).
  assert (Hin1 : first_record s1 (emp_pk (set_last_seen employee now))
                   (localdate now2) IN = Some i1).
  { unfold s1. rewrite first_record_save_last_seen, first_record_save_breaks.
    cbn [emp_pk set_last_seen]. rewrite Hdate, Hin. cbn [option_map].
    rewrite Z.eqb_refl. reflexivity. }
  assert (Hout1 : first_record s1 (emp_pk (set_last_seen employee now))
                    (localdate now2) OUT = None).
  { unfold s1. rewrite first_record_save_last_seen, first_record_save_breaks.
    cbn [emp_pk set_last_seen]. rewrite Hdate, Hout. reflexivity. }
  assert (Hres1 : get_employee_by_name s1 who
                  = Found (set_last_seen employee now)).
  { unfold s1. apply get_employee_save_last_seen. exact name_resolves. }
  rewrite (break_out_step geodesic_meters s1 now2 data2 who
             (set_last_seen employee now) sfx2 i1
             (breaks_or_empty (breaks i)) b1 (localtime_time now)
             Hname2 name_not_empty name_not_unknown Hres1 Hgeo2 Hin1 Hout1
             Ht2 eq_refl eq_refl eq_refl).
  cbn [resp_attendance_type].
  split; [reflexivity|]. split; [reflexivity|].
  rewrite first_record_save_last_seen, first_record_save_breaks.
  cbn [emp_pk set_last_seen] in Hin1. rewrite Hdate in Hin1.
  rewrite Hin1. cbn [option_map]. rewrite Z.eqb_refl. reflexivity.
Qed.

End RecognisedEmployeeSteps.



Lemma break_opened_then_closed_witness :
  let now1 := mkdatetime day_2025_06_17 (mk_time 13 45) in
  let now2 := mkdatetime day_2025_06_17 (mk_time 14 10) in
  let req := Some (request_from "Asha" CoordNone CoordNone) in
  let s1 := snd (mark_attendance_with_gesture flat_geodesic morning_store
                   now1 req) in
  let s2 := snd (mark_attendance_with_gesture flat_geodesic s1 now2 req) in
  option_map breaks (first_record s2 1 day_2025_06_17 IN)
  = Some (Some [mkBreak LUNCH (Some (mk_time 13 45)) (Some (mk_time 14 10))]).
Proof.
  cbv zeta.
  pose proof
    (break_opened_then_closed flat_geodesic morning_store
       (mkdatetime day_2025_06_17 (mk_time 13 45))
       (request_from "Asha" CoordNone CoordNone) "Asha"%string asha
       SuffixNoOffice eq_refl ltac:(discriminate) ltac:(discriminate)
       eq_refl eq_refl
       (mkAttendanceRecord 1 1 day_2025_06_17 (mk_time 9 50) IN "On time."
          None None)
       (mkdatetime day_2025_06_17 (mk_time 14 10))
       (request_from "Asha" CoordNone CoordNone) SuffixNoOffice
       eq_refl eq_refl eq_refl I eq_refl eq_refl eq_refl eq_refl) as H.
  cbv zeta in H.
  destruct (mark_attendance_with_gesture flat_geodesic morning_store _ _)
    as [resp1 s1].
  cbn [snd].
  destruct (mark_attendance_with_gesture flat_geodesic s1 _ _) as [resp2 s2].
  destruct H as [_ [_ H]]. exact H.
Defined.

(** ** Further properties of the working hours calculator *)

Lemma total_seconds_le (a b : Z) :
  a <= b -> (total_seconds a <= total_seconds b)%Q.
Proof.
  intros H. unfold total_seconds, US_PER_SECOND.
  unfold Qle, Qdiv, Qmult, Qinv, inject_Z. cbn. lia.
Qed.

(** While a session of today is open and has begun, the worked hours do
    not decrease as the evaluation instant advances. *)
Theorem open_session_hours_grow (s : Store) (now1 now2 : datetime) (e : Z)
    (d : date) (i : AttendanceRecord) :
  first_record s e d IN = Some i ->
  first_record s e d OUT = None ->
  date_ltb d (localdate now1) = false ->
  date_ltb d (localdate now2) = false ->
  instant_us (combine d (rec_time i)) < instant_us now1 ->
  instant_us now1 <= instant_us now2 ->
  (total_hours_of (calculate_working_hours s now1 e d)
   <= total_hours_of (calculate_working_hours s now2 e d))%Q.
Proof.
  intros Hin Hout Hd1 Hd2 Hstart Hle. unfold calculate_working_hours.
  rewrite Hin, Hout. cbv zeta.
  destruct (break_seconds i) as [lunch other]. unfold effective_end.
  rewrite Hd1, Hd2. unfold working_seconds, total_hours_of. cbn [fst snd].
  assert (E1 : (instant_us (combine d (rec_time i)) <? instant_us now1)
               = true)
    by (apply Z.ltb_lt; exact Hstart).
  assert (E2 : (instant_us (combine d (rec_time i)) <? instant_us now2)
               = true)
    by (apply Z.ltb_lt; lia).
  rewrite E1, E2.
  pose proof (total_seconds_le
                (instant_us now1 - instant_us (combine d (rec_time i)))
                (instant_us now2 - instant_us (combine d (rec_time i)))
                ltac:(lia)) as Hs.
  unfold SECONDS_PER_HOUR.
  apply Qmult_le_compat_r; [|discriminate].
  apply Qplus_le_compat; [exact Hs|apply Qle_refl].
Qed.

Lemma open_session_hours_grow_witness :
  (total_hours_of
     (calculate_working_hours morning_store
        (mkdatetime day_2025_06_17 (mk_time 12 0)) 1 day_2025_06_17)
   <= total_hours_of
        (calculate_working_hours morning_store
           (mkdatetime day_2025_06_17 (mk_time 15 30)) 1 day_2025_06_17))%Q.
Proof.
  apply (open_session_hours_grow morning_store
           (mkdatetime day_2025_06_17 (mk_time 12 0))
           (mkdatetime day_2025_06_17 (mk_time 15 30)) 1 day_2025_06_17
           (mkAttendanceRecord 1 1 day_2025_06_17 (mk_time 9 50) IN
              "On time." None None));
    first [reflexivity | vm_compute; reflexivity | vm_compute; discriminate].
Defined.

(** *** Worked hours on runs with a clock that never goes back *)







Lemma instant_same_date_le (d : date) (t1 t2 : time) :
  instant_us (combine d t1) <= instant_us (combine d t2) <-> t1 <= t2.
Proof. unfold instant_us, combine. cbn. lia. Qed.

Lemma instant_same_date_lt (d : date) (t1 t2 : time) :
  instant_us (combine d t1) < instant_us (combine d t2) <-> t1 < t2.
Proof. unfold instant_us, combine. cbn. lia. Qed.











(** ** The arrival and emotion trends *)

Lemma insert_sorted_perm {A : Type} (lt : A -> A -> bool) (x : A)
    (l : list A) :
  Permutation (insert_sorted lt x l) (x :: l).
Proof.
  induction l as [|y l IH]; cbn [insert_sorted]; [apply Permutation_refl|].
  destruct (lt y x); [|apply Permutation_refl].
  apply (Permutation_trans (l' := y :: x :: l)).
  - apply perm_skip. exact IH.
  - apply perm_swap.
Qed.

Lemma sorted_perm {A : Type} (lt : A -> A -> bool) (l : list A) :
  Permutation (sorted lt l) l.
Proof.
  unfold sorted. induction l as [|x l IH]; cbn [fold_right];
    [apply Permutation_refl|].
  apply (Permutation_trans (insert_sorted_perm lt x _)).
  apply perm_skip. exact IH.
Qed.

Lemma count_perm {A : Type} (p : A -> bool) (l l' : list A) :
  Permutation l l' -> count p l = count p l'.
Proof.
  unfold count. induction 1 as [|x l l' _ IH|x y l|l l' l'' _ IH1 _ IH2];
    cbn [filter].
  - reflexivity.
  - destruct (p x); cbn [List.length]; lia.
  - destruct (p x), (p y); reflexivity.
  - lia.
Qed.

Lemma count_cons {A : Type} (p : A -> bool) (x : A) (l : list A) :
  count p (x :: l) = (if p x then 1 else 0) + count p l.
Proof.
  unfold count. cbn [filter]. destruct (p x); cbn [List.length]; lia.
Qed.

Lemma count_nonneg {A : Type} (p : A -> bool) (l : list A) : 0 <= count p l.
Proof. unfold count. lia. Qed.

Lemma count_filter {A : Type} (p q : A -> bool) (l : list A) :
  count p (filter q l) = count (fun x => q x && p x) l.
Proof.
  induction l as [|x l IH]; [reflexivity|].
  cbn [filter]. destruct (q x) eqn:Eq.
  - rewrite !count_cons, Eq, IH. reflexivity.
  - rewrite count_cons, Eq, IH. cbn [andb]. lia.
Qed.

Lemma count_ext {A : Type} (p q : A -> bool) (l : list A) :
  (forall x, p x = q x) -> count p l = count q l.
Proof.
  intros H. unfold count. rewrite (filter_ext p q H). reflexivity.
Qed.

Lemma dd_get_update {V : Type} (default : V) (f : V -> V)
    (d : list (string * V)) (key key' : string) :
  dd_get default (dd_update default f d key) key'
  = if String.eqb key key' then f (dd_get default d key)
    else dd_get default d key'.
Proof.
  induction d as [|[k v] d IH]; cbn [dd_update dd_get].
  - destruct (String.eqb key key'); reflexivity.
  - destruct (String.eqb_spec k key) as [->|Hne]; cbn [dd_get].
    + destruct (String.eqb key key'); reflexivity.
    + rewrite IH. destruct (String.eqb_spec key key') as [E|Hne'].
      * rewrite <- E.
        destruct (String.eqb_spec k key); [contradiction|reflexivity].
      * reflexivity.
Qed.

Lemma dd_keys_update {V : Type} (default : V) (f : V -> V)
    (d : list (string * V)) (key : string) :
  (In key (map fst d) ->
   map fst (dd_update default f d key) = map fst d)
  /\ (~ In key (map fst d) ->
      map fst (dd_update default f d key) = map fst d ++ [key]).
Proof.
  induction d as [|[k v] d [IH1 IH2]]; cbn [dd_update map fst].
  - split; [intros []|reflexivity].
  - destruct (String.eqb_spec k key) as [->|Hne]; cbn [map fst].
    + split; [reflexivity|]. intros H. exfalso. apply H. left. reflexivity.
    + split; intros H.
      * rewrite IH1; [reflexivity|]. destruct H as [H|H]; [contradiction|
          exact H].
      * cbn [app]. rewrite IH2; [reflexivity|]. intros Hin. apply H. right.
        exact Hin.
Qed.

Section BucketCounting.

Context {X V : Type}.
Variables (default : V) (kf : X -> string) (upd : X -> V -> V).

Lemma dd_fold_cons (x : X) (xs : list X) (d : list (string * V)) :
  dd_fold default kf upd (x :: xs) d
  = dd_fold default kf upd xs (dd_update default (upd x) d (kf x)).
Proof. reflexivity. Qed.

Lemma dd_fold_keys (xs : list X) (d : list (string * V)) :
  NoDup (map fst d) ->
  NoDup (map fst (dd_fold default kf upd xs d))
  /\ forall key, In key (map fst (dd_fold default kf upd xs d))
                 <-> In key (map fst d) \/ exists x, In x xs /\ kf x = key.
Proof.
  revert d. induction xs as [|x xs IH]; intros d Hnd;
    [cbn [dd_fold fold_left]|rewrite dd_fold_cons].
  - split; [exact Hnd|]. intros key. split; [auto|].
    intros [H|[x [[] _]]]. exact H.
  - destruct (dd_keys_update default (upd x) d (kf x)) as [K1 K2].
    destruct (in_dec string_dec (kf x) (map fst d)) as [Hin|Hout].
    + destruct (IH (dd_update default (upd x) d (kf x))) as [I1 I2].
      { rewrite (K1 Hin). exact Hnd. }
      split; [exact I1|]. intros key.
      rewrite I2, (K1 Hin). split.
      * intros [H|[y [Hy Ey]]]; [auto|]. right. exists y. split;
          [right; exact Hy|exact Ey].
      * intros [H|[y [[<-|Hy] Ey]]]; [auto| |].
        -- left. rewrite <- Ey. exact Hin.
        -- right. exists y. auto.
    + destruct (IH (dd_update default (upd x) d (kf x))) as [I1 I2].
      { rewrite (K2 Hout). apply nodup_snoc; assumption. }
      split; [exact I1|]. intros key.
      rewrite I2, (K2 Hout). split.
      * intros [H|[y [Hy Ey]]].
        -- apply in_app_or in H. destruct H as [H|[<-|[]]]; [auto|].
           right. exists x. split; [left; reflexivity|reflexivity].
        -- right. exists y. split; [right; exact Hy|exact Ey].
      * intros [H|[y [[<-|Hy] Ey]]].
        -- left. apply in_or_app. left. exact H.
        -- left. apply in_or_app. right. left. exact Ey.
        -- right. exists y. auto.
Qed.

Variables (m : V -> Z) (w : X -> bool).
Hypothesis upd_counts :
  forall x v, m (upd x v) = m v + (if w x then 1 else 0).

Lemma dd_fold_get (xs : list X) (d : list (string * V)) (key : string) :
  m (dd_get default (dd_fold default kf upd xs d) key)
  = m (dd_get default d key)
    + count (fun x => String.eqb (kf x) key && w x) xs.
Proof.
  revert d. induction xs as [|x xs IH]; intros d.
  - unfold count. cbn. lia.
  - rewrite dd_fold_cons, IH, dd_get_update, count_cons.
    destruct (String.eqb_spec (kf x) key) as [->|Hne]; cbn [andb].
    + rewrite upd_counts. lia.
    + lia.
Qed.

End BucketCounting.

Lemma count_pos {A : Type} (p : A -> bool) (l : list A) (x : A) :
  In x l -> p x = true -> 0 < count p l.
Proof.
  intros Hin Hp. unfold count.
  assert (H : In x (filter p l)) by (apply filter_In; auto).
  destruct (filter p l); [destruct H|cbn [List.length]; lia].
Qed.

Lemma count_split {A : Type} (p q : A -> bool) (l : list A) :
  count p l
  = count (fun x => p x && q x) l + count (fun x => p x && negb (q x)) l.
Proof.
  induction l as [|x l IH]; [reflexivity|].
  rewrite !count_cons, IH. destruct (p x), (q x); cbn [andb negb]; lia.
Qed.

Lemma sum_list_map_add {A : Type} (f g : A -> Z) (l : list A) :
  sum_list (map (fun x => f x + g x) l)
  = sum_list (map f l) + sum_list (map g l).
Proof.
  unfold sum_list. induction l as [|x l IH]; cbn [map fold_right]; lia.
Qed.

Lemma sum_list_indicator (key : string) (l : list string) :
  NoDup l ->
  sum_list (map (fun k => if String.eqb key k then 1 else 0) l)
  = if in_dec string_dec key l then 1 else 0.
Proof.
  unfold sum_list. induction 1 as [|k l Hk _ IH]; [reflexivity|].
  cbn [map fold_right]. rewrite IH.
  destruct (String.eqb_spec key k) as [->|Hne].
  - destruct (in_dec string_dec k l) as [H|H]; [contradiction|].
    destruct (in_dec string_dec k (k :: l)) as [_|H'];
      [lia|exfalso; apply H'; left; reflexivity].
  - destruct (in_dec string_dec key l) as [H|H];
      destruct (in_dec string_dec key (k :: l)) as [H'|H']; try lia.
    + exfalso. apply H'. right. exact H.
    + exfalso. destruct H' as [H'|H']; [congruence|contradiction].
Qed.

Lemma sum_list_zero {A : Type} (l : list A) :
  sum_list (map (fun _ => 0) l) = 0.
Proof. unfold sum_list. induction l; cbn [map fold_right]; lia. Qed.

Lemma sum_counts_by_key {X : Type} (kf : X -> string) (p : X -> bool)
    (xs : list X) (l : list string) :
  NoDup l -> (forall x, In x xs -> In (kf x) l) ->
  sum_list (map (fun k => count (fun x => String.eqb (kf x) k && p x) xs) l)
  = count p xs.
Proof.
  intros Hnd. induction xs as [|x xs IH]; intros Hall.
  - rewrite (map_ext _ (fun _ => 0)) by reflexivity. apply sum_list_zero.
  - rewrite count_cons, <- IH by (intros y Hy; apply Hall; right; exact Hy).
    rewrite (map_ext
               (fun k => count (fun x0 => String.eqb (kf x0) k && p x0)
                           (x :: xs))
               (fun k => (if String.eqb (kf x) k && p x then 1 else 0)
                         + count (fun x0 => String.eqb (kf x0) k && p x0) xs))
      by (intros k; rewrite count_cons; reflexivity).
    rewrite sum_list_map_add. f_equal.
    destruct (p x).
    + rewrite (map_ext _ (fun k => if String.eqb (kf x) k then 1 else 0))
        by (intros k; rewrite andb_true_r; reflexivity).
      rewrite (sum_list_indicator _ _ Hnd).
      destruct (in_dec string_dec (kf x) l) as [_|H]; [reflexivity|].
      exfalso. apply H. apply Hall. left. reflexivity.
    + rewrite (map_ext _ (fun _ => 0))
        by (intros k; rewrite andb_false_r; reflexivity).
      apply sum_list_zero.
Qed.

Lemma nth_error_map_some {A B : Type} (f : A -> B) (l : list A) (i : nat)
    (a : A) (b : B) :
  nth_error l i = Some a -> nth_error (map f l) i = Some b -> b = f a.
Proof.
  intros Ha Hb. rewrite nth_error_map, Ha in Hb. cbn in Hb. congruence.
Qed.

Section TrendQuery.

Variables (s : Store) (start_date end_date : date) (interval : string).

Let kf (r : AttendanceRecord) : string :=
  key_of (interval_of_string interval) (rec_date r).

Lemma arrival_late_counts (v : Z * Z) (r : AttendanceRecord) :
  fst (arrival_update r v)
  = fst v + (if IN_TIME_END <? rec_time r then 1 else 0).
Proof. unfold arrival_update. destruct (_ <? _); cbn; lia. Qed.

Lemma arrival_on_time_counts (v : Z * Z) (r : AttendanceRecord) :
  snd (arrival_update r v)
  = snd v + (if negb (IN_TIME_END <? rec_time r) then 1 else 0).
Proof. unfold arrival_update. destruct (_ <? _); cbn; lia. Qed.

(** Every bucket of the arrival trend counts the IN rows of the date range
    whose date falls under the bucket's label: [late] those with a time
    after 11:00, [on_time] the others; and every bucket holds at least one
    row. *)
Theorem arrival_trend_counts (i : nat) (label : string) (n m : Z) :
  let t := get_late_on_time_trends s start_date end_date interval in
  nth_error (arrival_labels t) i = Some label ->
  nth_error (arrival_on_time t) i = Some n ->
  nth_error (arrival_late t) i = Some m ->
  let in_bucket r :=
    in_range start_date end_date r
    && AttendanceType_eqb (attendance_type r) IN
    && String.eqb (key_of (interval_of_string interval) (rec_date r)) label in
  m = count (fun r => in_bucket r && (mk_time 11 0 <? rec_time r)) (records s)
  /\ n = count (fun r => in_bucket r && negb (mk_time 11 0 <? rec_time r))
           (records s)
  /\ 0 < n + m.
Proof.
  cbv zeta. unfold get_late_on_time_trends.
  cbn [arrival_labels arrival_on_time arrival_late].
  set (q := filter (fun r => in_range start_date end_date r
                             && AttendanceType_eqb (attendance_type r) IN)
              (records s)).
  set (query := sorted default_order_lt q).
  set (d := dd_fold (0, 0) _ arrival_update query []).
  intros Hl Hn Hm.
  apply (nth_error_map_some _ _ _ _ _ Hl) in Hn, Hm. subst n m.
  assert (Hlate := dd_fold_get (0, 0) kf arrival_update fst
                     (fun r => IN_TIME_END <? rec_time r)
                     (fun x v => arrival_late_counts v x) query [] label).
  assert (Hon := dd_fold_get (0, 0) kf arrival_update snd
                   (fun r => negb (IN_TIME_END <? rec_time r))
                   (fun x v => arrival_on_time_counts v x) query [] label).
  change (dd_fold (0, 0) kf arrival_update query []) with d in Hlate, Hon.
  cbn [dd_get fst snd] in Hlate, Hon.
  rewrite Hlate, Hon. unfold query.
  rewrite !(count_perm _ _ _ (sorted_perm default_order_lt q)).
  unfold q. rewrite !count_filter.
  assert (E1 : count (fun x =>
                 in_range start_date end_date x
                 && AttendanceType_eqb (attendance_type x) IN
                 && (String.eqb (kf x) label && (IN_TIME_END <? rec_time x)))
                 (records s)
               = count (fun r =>
                   in_range start_date end_date r
                   && AttendanceType_eqb (attendance_type r) IN
                   && String.eqb (key_of (interval_of_string interval)
                                    (rec_date r)) label
                   && (mk_time 11 0 <? rec_time r)) (records s)).
  { apply count_ext. intros x. unfold kf, IN_TIME_END.
    rewrite andb_assoc. reflexivity. }
  assert (E2 : count (fun x =>
                 in_range start_date end_date x
                 && AttendanceType_eqb (attendance_type x) IN
                 && (String.eqb (kf x) label
                     && negb (IN_TIME_END <? rec_time x)))
                 (records s)
               = count (fun r =>
                   in_range start_date end_date r
                   && AttendanceType_eqb (attendance_type r) IN
                   && String.eqb (key_of (interval_of_string interval)
                                    (rec_date r)) label
                   && negb (mk_time 11 0 <? rec_time r)) (records s)).
  { apply count_ext. intros x. unfold kf, IN_TIME_END.
    rewrite andb_assoc. reflexivity. }
  rewrite E1, E2. split; [lia|]. split; [lia|].
  rewrite Z.add_0_l, Z.add_0_l, Z.add_comm, <- count_split.
  apply (nth_error_In _ i) in Hl. apply in_sorted in Hl.
  destruct (dd_fold_keys (0, 0) kf arrival_update query [] (NoDup_nil _))
    as [_ Hkeys].
  change (dd_fold (0, 0) kf arrival_update query []) with d in Hkeys.
  apply Hkeys in Hl. destruct Hl as [[]|[x [Hx Ex]]].
  unfold query in Hx. apply in_sorted in Hx. unfold q in Hx.
  apply filter_In in Hx. destruct Hx as [Hx Hp].
  apply (count_pos _ _ x Hx). rewrite Hp. cbn [andb].
  apply String.eqb_eq. exact Ex.
Qed.

(** The arrival trend loses and invents nothing: over all buckets, the
    on-time and late counts add up to the number of IN rows in the date
    range, and no label occurs twice. *)
Theorem arrival_trend_total :
  let t := get_late_on_time_trends s start_date end_date interval in
  sum_list (arrival_on_time t) + sum_list (arrival_late t)
  = count (fun r => in_range start_date end_date r
                    && AttendanceType_eqb (attendance_type r) IN)
      (records s)
  /\ NoDup (arrival_labels t).
Proof.
  cbv zeta. unfold get_late_on_time_trends.
  cbn [arrival_labels arrival_on_time arrival_late].
  set (p := fun r => in_range start_date end_date r
                     && AttendanceType_eqb (attendance_type r) IN).
  set (query := sorted default_order_lt (filter p (records s))).
  set (d := dd_fold (0, 0) _ arrival_update query []).
  set (labels := sorted String.ltb (map fst d)).
  destruct (dd_fold_keys (0, 0) kf arrival_update query [] (NoDup_nil _))
    as [Hnd Hkeys].
  change (dd_fold (0, 0) kf arrival_update query []) with d in Hnd, Hkeys.
  assert (Hndl : NoDup labels).
  { apply (Permutation_NoDup (l := map fst d)); [|exact Hnd].
    apply Permutation_sym. apply sorted_perm. }
  split; [|exact Hndl].
  rewrite (map_ext (fun l => snd (dd_get (0, 0) d l))
             (fun l => count (fun x => String.eqb (kf x) l
                                       && negb (IN_TIME_END <? rec_time x))
                         query)).
  2:{ intros l. etransitivity.
      - exact (dd_fold_get (0, 0) kf arrival_update snd
                 (fun r => negb (IN_TIME_END <? rec_time r))
                 (fun x v => arrival_on_time_counts v x) query [] l).
      - cbn [dd_get snd]. lia. }
  rewrite (map_ext (fun l => fst (dd_get (0, 0) d l))
             (fun l => count (fun x => String.eqb (kf x) l
                                       && (IN_TIME_END <? rec_time x))
                         query)).
  2:{ intros l. etransitivity.
      - exact (dd_fold_get (0, 0) kf arrival_update fst
                 (fun r => IN_TIME_END <? rec_time r)
                 (fun x v => arrival_late_counts v x) query [] l).
      - cbn [dd_get fst]. lia. }
  assert (Hall : forall x, In x query -> In (kf x) labels).
  { intros x Hx. apply in_sorted. apply Hkeys. right. exists x. auto. }
  rewrite !(sum_counts_by_key kf _ query labels Hndl Hall).
  assert (Hsplit := count_split (fun _ : AttendanceRecord => true)
                      (fun r => IN_TIME_END <? rec_time r) query).
  cbn [andb] in Hsplit.
  rewrite Z.add_comm, <- Hsplit. unfold query.
  rewrite (count_perm _ _ _ (sorted_perm default_order_lt _)), count_filter.
  apply count_ext. intros x. apply andb_true_r.
Qed.

End TrendQuery.

Lemma arrival_trend_counts_witness :
  let in_bucket r :=
    in_range (mkdate 2025 6 16) (mkdate 2025 6 17) r
    && AttendanceType_eqb (attendance_type r) IN
    && String.eqb (key_of (interval_of_string "daily") (rec_date r))
         "2025-06-17" in
  1 = count (fun r => in_bucket r && (mk_time 11 0 <? rec_time r))
        (records two_day_store)
  /\ 1 = count (fun r => in_bucket r && negb (mk_time 11 0 <? rec_time r))
           (records two_day_store)
  /\ 0 < 1 + 1.
Proof.
  exact (arrival_trend_counts two_day_store (mkdate 2025 6 16)
           (mkdate 2025 6 17) "daily" 1%nat "2025-06-17" 1 1
           eq_refl eq_refl eq_refl).
Defined.

(** ** The emotion trend *)

Ltac emotion_cases e :=
  let w := fresh "w" in
  generalize e; intros w;
  destruct (String.eqb_spec w "happy") as [->|_]; [cbn; lia|];
  destruct (String.eqb_spec w "sad") as [->|_]; [cbn; lia|];
  destruct (String.eqb_spec w "neutral") as [->|_]; [cbn; lia|];
  destruct (String.eqb w "total"); cbn; lia.

Lemma emotion_happy_counts (r : AttendanceRecord) (v : EmotionCount) :
  happy (emotion_update (state_of r) v)
  = happy v
    + (if String.eqb (str_lower (state_of r)) "happy" then 1 else 0).
Proof.
  unfold emotion_update. cbv zeta. emotion_cases (str_lower (state_of r)).
Qed.

Lemma emotion_sad_counts (r : AttendanceRecord) (v : EmotionCount) :
  sad (emotion_update (state_of r) v)
  = sad v + (if String.eqb (str_lower (state_of r)) "sad" then 1 else 0).
Proof.
  unfold emotion_update. cbv zeta. emotion_cases (str_lower (state_of r)).
Qed.

Lemma emotion_neutral_counts (r : AttendanceRecord) (v : EmotionCount) :
  neutral (emotion_update (state_of r) v)
  = neutral v
    + (if String.eqb (str_lower (state_of r)) "neutral" then 1 else 0).
Proof.
  unfold emotion_update. cbv zeta. emotion_cases (str_lower (state_of r)).
Qed.

Lemma count_le {A : Type} (p q : A -> bool) (l : list A) :
  (forall x, p x = true -> q x = true) -> count p l <= count q l.
Proof.
  intros Hpq. induction l as [|x l IH]; [reflexivity|].
  rewrite !count_cons. specialize (Hpq x).
  destruct (p x), (q x); lia.
Qed.

Lemma count_three {A : Type} (p a b c : A -> bool) (l : list A) :
  (forall x, a x && b x = false) -> (forall x, a x && c x = false) ->
  (forall x, b x && c x = false) ->
  count (fun x => p x && a x) l + count (fun x => p x && b x) l
    + count (fun x => p x && c x) l
  <= count p l.
Proof.
  intros Hab Hac Hbc. induction l as [|x l IH]; [reflexivity|].
  rewrite !count_cons. specialize (Hab x). specialize (Hac x).
  specialize (Hbc x).
  destruct (p x), (a x), (b x), (c x); cbn [andb] in *;
    try discriminate; lia.
Qed.

Section EmotionQuery.

Variables (s : Store) (start_date end_date : date) (interval : string).

Let ekf (r : AttendanceRecord) : string :=
  key_of (interval_of_string interval) (rec_date r).

Let is_emotion (word : string) (r : AttendanceRecord) : bool :=
  String.eqb (str_lower (state_of r)) word.

Lemma emotion_bucket_count (m : EmotionCount -> Z) (word label : string) :
  m no_emotion = 0 ->
  (forall r v, m (emotion_update (state_of r) v)
               = m v + (if is_emotion word r then 1 else 0)) ->
  m (dd_get no_emotion
       (dd_fold no_emotion ekf (fun r => emotion_update (state_of r))
          (sorted default_order_lt
             (filter (fun r => in_range start_date end_date r && has_state r)
                (records s))) []) label)
  = count (fun r => in_range start_date end_date r && has_state r
                    && String.eqb (ekf r) label && is_emotion word r)
      (records s).
Proof.
  intros H0 Hupd.
  rewrite (dd_fold_get no_emotion ekf (fun r => emotion_update (state_of r))
             m (is_emotion word) Hupd).
  cbn [dd_get]. rewrite H0, Z.add_0_l.
  rewrite (count_perm _ _ _ (sorted_perm default_order_lt _)), count_filter.
  apply count_ext. intros x. rewrite !andb_assoc. reflexivity.
Qed.

(** Every bucket of the emotion trend counts the rows of the date range
    that carry an emotional state and whose date falls under the bucket's
    label: [happy], [sad] and [neutral] count those whose state, in lower
    case, is that word.  A row with any other state still opens its bucket
    but is counted nowhere, so the three counts may fall short of the rows
    of the bucket, of which there is at least one. *)
Theorem emotion_trend_counts (i : nat) (label : string) (h sd n : Z) :
  let t := get_emotion_trends s start_date end_date interval in
  nth_error (emotion_labels t) i = Some label ->
  nth_error (emotion_happy t) i = Some h ->
  nth_error (emotion_sad t) i = Some sd ->
  nth_error (emotion_neutral t) i = Some n ->
  let in_bucket r :=
    in_range start_date end_date r && has_state r
    && String.eqb (key_of (interval_of_string interval) (rec_date r)) label in
  let state_is word r := String.eqb (str_lower (state_of r)) word in
  h = count (fun r => in_bucket r && state_is "happy"%string r) (records s)
  /\ sd = count (fun r => in_bucket r && state_is "sad"%string r) (records s)
  /\ n = count (fun r => in_bucket r && state_is "neutral"%string r)
           (records s)
  /\ h + sd + n <= count in_bucket (records s)
  /\ 0 < count in_bucket (records s).
Proof.
  cbv zeta. unfold get_emotion_trends.
  cbn [emotion_labels emotion_happy emotion_sad emotion_neutral].
  set (query := sorted default_order_lt _).
  set (d := dd_fold no_emotion _ _ query []).
  intros Hl Hh Hs Hn.
  apply (nth_error_map_some _ _ _ _ _ Hl) in Hh, Hs, Hn. subst h sd n.
  pose proof (emotion_bucket_count happy "happy" label eq_refl
                emotion_happy_counts) as Eh.
  pose proof (emotion_bucket_count sad "sad" label eq_refl
                emotion_sad_counts) as Es.
  pose proof (emotion_bucket_count neutral "neutral" label eq_refl
                emotion_neutral_counts) as En.
  change (dd_fold no_emotion ekf (fun r => emotion_update (state_of r))
            (sorted default_order_lt
               (filter (fun r => in_range start_date end_date r
                                 && has_state r) (records s))) [])
    with d in Eh, Es, En.
  unfold ekf, is_emotion in Eh, Es, En. rewrite Eh, Es, En.
  split; [reflexivity|]. split; [reflexivity|]. split; [reflexivity|].
  split.
  - apply (count_three
             (fun r => in_range start_date end_date r && has_state r
                       && String.eqb (key_of (interval_of_string interval)
                                        (rec_date r)) label)
             (fun r => String.eqb (str_lower (state_of r)) "happy")
             (fun r => String.eqb (str_lower (state_of r)) "sad")
             (fun r => String.eqb (str_lower (state_of r)) "neutral"));
      intros x;
      destruct (String.eqb_spec (str_lower (state_of x)) "happy") as [->|_];
      try reflexivity;
      destruct (String.eqb_spec (str_lower (state_of x)) "sad") as [->|_];
      reflexivity.
  - apply (nth_error_In _ i) in Hl. apply in_sorted in Hl.
    destruct (dd_fold_keys no_emotion ekf
                (fun r => emotion_update (state_of r)) query []
                (NoDup_nil _)) as [_ Hkeys].
    change (dd_fold no_emotion ekf (fun r => emotion_update (state_of r))
              query []) with d in Hkeys.
    apply Hkeys in Hl. destruct Hl as [[]|[x [Hx Ex]]].
    unfold query in Hx. apply in_sorted in Hx.
    apply filter_In in Hx. destruct Hx as [Hx Hp].
    apply (count_pos _ _ x Hx). rewrite Hp. cbn [andb].
    apply String.eqb_eq. exact Ex.
Qed.

End EmotionQuery.

Lemma emotion_trend_counts_witness :
  let in_bucket r :=
    in_range (mkdate 2025 6 1) (mkdate 2025 6 30) r && has_state r
    && String.eqb (key_of (interval_of_string "monthly") (rec_date r))
         "2025-06" in
  let state_is word r := String.eqb (str_lower (state_of r)) word in
  2 = count (fun r => in_bucket r && state_is "happy"%string r)
        (records mood_store)
  /\ 0 = count (fun r => in_bucket r && state_is "sad"%string r)
           (records mood_store)
  /\ 0 = count (fun r => in_bucket r && state_is "neutral"%string r)
           (records mood_store)
  /\ 2 + 0 + 0 <= count in_bucket (records mood_store)
  /\ 0 < count in_bucket (records mood_store).
Proof.
  exact (emotion_trend_counts mood_store (mkdate 2025 6 1) (mkdate 2025 6 30)
           "monthly" 0%nat "2025-06" 2 0 0
           eq_refl eq_refl eq_refl eq_refl).
Defined.

(** ** The filtered summary *)

Lemma join_employee_in (s : Store) (rs : list AttendanceRecord)
    (r : AttendanceRecord) (e : Employee) :
  In (r, e) (join_employee s rs)
  <-> In r rs /\ find_employee s (rec_employee r) = Some e.
Proof.
  induction rs as [|r0 rs IH]; cbn [join_employee].
  - split; [intros []|intros [[] _]].
  - destruct (find_employee s (rec_employee r0)) as [e0|] eqn:E0.
    + split.
      * intros [H|H].
        -- injection H as <- <-. split; [left; reflexivity|exact E0].
        -- apply IH in H. destruct H as [H1 H2]. split; [right|]; assumption.
      * intros [[<-|H1] H2].
        -- left. congruence.
        -- right. apply IH. split; assumption.
    + rewrite IH. split.
      * intros [H1 H2]. split; [right|]; assumption.
      * intros [[<-|H1] H2]; [congruence|]. split; assumption.
Qed.

Lemma in_summary_loop (s : Store) (now : datetime) (thr : option Q)
    (rs : list (AttendanceRecord * Employee)) (row : SummaryRow) :
  In row (summary_loop s now thr rs)
  <-> exists re, In re rs
                 /\ skip_record thr (record_hours s now re) = false
                 /\ row = summary_entry s now re.
Proof.
  induction rs as [|re0 rs IH]; cbn [summary_loop].
  - split; [intros []|intros [re [[] _]]].
  - destruct (skip_record thr (record_hours s now re0)) eqn:E0.
    + rewrite IH. split.
      * intros [re [H1 H2]]. exists re. split; [right|]; assumption.
      * intros [re [[<-|H1] [H2 H3]]]; [congruence|].
        exists re. auto.
    + split.
      * intros [<-|H].
        -- exists re0. split; [left; reflexivity|]. auto.
        -- apply IH in H. destruct H as [re [H1 H2]].
           exists re. split; [right|]; assumption.
      * intros [re [[<-|H1] [H2 H3]]].
        -- left. symmetry. exact H3.
        -- right. apply IH. exists re. auto.
Qed.

Lemma in_selected_records (s : Store) (start_date end_date : date)
    (ids : list string) (r : AttendanceRecord) (e : Employee) :
  In (r, e) (selected_records s start_date end_date ids)
  <-> In r (records s)
      /\ attendance_type r = IN
      /\ date_leb start_date (rec_date r) = true
      /\ date_leb (rec_date r) end_date = true
      /\ find_employee s (rec_employee r) = Some e
      /\ (ids = [] \/ In (employee_id e) ids).
Proof.
  unfold selected_records. cbv zeta.
  rewrite (in_sorted summary_order_lt).
  assert (J : forall r e,
             In (r, e)
               (join_employee s
                  (filter (fun r => date_leb start_date (rec_date r)
                                    && date_leb (rec_date r) end_date
                                    && AttendanceType_eqb
                                         (attendance_type r) IN)
                     (records s)))
             <-> In r (records s)
                 /\ attendance_type r = IN
                 /\ date_leb start_date (rec_date r) = true
                 /\ date_leb (rec_date r) end_date = true
                 /\ find_employee s (rec_employee r) = Some e).
  { intros r' e'. rewrite join_employee_in, filter_In, !andb_true_iff.
    assert (T : AttendanceType_eqb (attendance_type r') IN = true
                <-> attendance_type r' = IN)
      by (destruct (attendance_type r'); cbn; split; congruence).
    rewrite T. tauto. }
  destruct ids as [|i0 ids]; cbv iota.
  - rewrite J. split; [intros H; repeat split; try apply H; left; reflexivity|].
    intros H. repeat split; apply H.
  - rewrite filter_In, J. cbn [snd].
    rewrite existsb_exists. split.
    + intros [H [x [Hx Ex]]]. apply String.eqb_eq in Ex. subst x.
      repeat split; try apply H. right. exact Hx.
    + intros (H1 & H2 & H3 & H4 & H5 & [H6|H6]); [discriminate|].
      split; [tauto|]. exists (employee_id e). split; [exact H6|].
      apply String.eqb_refl.
Qed.

Lemma skip_record_false (thr : option Q) (h : Q) :
  skip_record thr h = false
  <-> match thr with
      | Some q => (q == 0)%Q \/ (h < q)%Q
      | None => True
      end.
Proof.
  unfold skip_record, truthy_float, float_of_threshold.
  destruct thr as [q|]; [|cbn; tauto].
  rewrite andb_false_iff, negb_false_iff, Qeq_bool_iff.
  assert (L : Qle_bool q h = false <-> (h < q)%Q).
  { split.
    - intros H. apply Qnot_le_lt. intros Hle.
      apply Qle_bool_iff in Hle. congruence.
    - intros H. destruct (Qle_bool q h) eqn:E; [|reflexivity].
      apply Qle_bool_iff in E. exfalso. exact (Qlt_not_le _ _ H E). }
  rewrite L. reflexivity.
Qed.

Lemma record_hours_total (s : Store) (now : datetime)
    (re : AttendanceRecord * Employee) :
  record_hours s now re
  = total_hours_of
      (calculate_working_hours s now (emp_pk (snd re)) (rec_date (fst re))).
Proof.
  unfold record_hours, total_hours_of.
  destruct (calculate_working_hours _ _ _ _) as [[[t l] o] h]. reflexivity.
Qed.

Lemma summary_entry_has_out (s : Store) (now : datetime)
    (r : AttendanceRecord) (e : Employee) :
  sr_has_out (summary_entry s now (r, e))
  = has_out_of (calculate_working_hours s now (emp_pk e) (rec_date r)).
Proof.
  unfold summary_entry, has_out_of.
  destruct (calculate_working_hours _ _ _ _) as [[[t l] o] h]. reflexivity.
Qed.

Lemma summary_entry_out_record (s : Store) (now : datetime)
    (r : AttendanceRecord) (e : Employee) :
  sr_out_record (summary_entry s now (r, e))
  = first_record s (emp_pk e) (rec_date r) OUT.
Proof.
  unfold summary_entry.
  destruct (calculate_working_hours _ _ _ _) as [[[t l] o] h]. reflexivity.
Qed.

Lemma has_out_iff (s : Store) (now : datetime) (e : Z) (d : date) :
  has_out_of (calculate_working_hours s now e d) = true
  <-> first_record s e d IN <> None /\ first_record s e d OUT <> None.
Proof.
  unfold calculate_working_hours, has_out_of. cbv zeta.
  destruct (first_record s e d IN) as [i|].
  - destruct (break_seconds i) as [lunch other].
    unfold effective_end.
    destruct (first_record s e d OUT) as [o|].
    + cbn. split; [intros _; split; discriminate|reflexivity].
    + destruct (date_ltb d (localdate now)); cbn;
        (split; [discriminate|intros [_ H]; contradiction H; reflexivity]).
  - cbn. split; [discriminate|intros [H _]; contradiction H; reflexivity].
Qed.

Lemma find_employee_pk (s : Store) (pk : Z) (e : Employee) :
  find_employee s pk = Some e -> emp_pk e = pk.
Proof.
  unfold find_employee. intros H. apply find_some in H.
  destruct H as [_ H]. apply Z.eqb_eq. exact H.
Qed.

(** The filtered summary holds exactly one entry for every IN row of the
    store that lies in the date range, belongs to a stored employee, passes
    the employee filter (an empty list selects everybody) and passes the
    hours filter: no threshold, a threshold of zero, or fewer hours than the
    threshold. *)
Theorem summary_rows_characterised (s : Store) (now : datetime)
    (start_date end_date : date) (ids : list string) (thr : option Q)
    (row : SummaryRow) :
  In row (get_filtered_attendance_summary s now (Some start_date)
            (Some end_date) ids thr)
  <-> exists r e,
        In r (records s)
        /\ attendance_type r = IN
        /\ date_leb start_date (rec_date r) = true
        /\ date_leb (rec_date r) end_date = true
        /\ find_employee s (rec_employee r) = Some e
        /\ (ids = [] \/ In (employee_id e) ids)
        /\ match thr with
           | Some q =>
               (q == 0)%Q
               \/ (total_hours_of
                     (calculate_working_hours s now (emp_pk e) (rec_date r))
                   < q)%Q
           | None => True
           end
        /\ row = summary_entry s now (r, e).
Proof.
  unfold get_filtered_attendance_summary. rewrite in_summary_loop. split.
  - intros [[r e] [Hsel [Hskip Hrow]]].
    apply in_selected_records in Hsel.
    rewrite skip_record_false, record_hours_total in Hskip.
    exists r, e. cbn [fst snd] in Hskip. tauto.
  - intros (r & e & H1 & H2 & H3 & H4 & H5 & H6 & H7 & H8).
    exists (r, e). split; [apply in_selected_records; tauto|].
    split; [|exact H8].
    rewrite skip_record_false, record_hours_total. exact H7.
Qed.

(** In every entry of the filtered summary the flag [has_out] and the
    field [out_record] agree: the flag is set exactly when the entry carries
    an OUT row. *)
Theorem summary_has_out_consistent (s : Store) (now : datetime)
    (start_date end_date : date) (ids : list string) (thr : option Q)
    (row : SummaryRow) :
  In row (get_filtered_attendance_summary s now (Some start_date)
            (Some end_date) ids thr) ->
  sr_has_out row = true <-> sr_out_record row <> None.
Proof.
  unfold get_filtered_attendance_summary. rewrite in_summary_loop.
  intros [[r e] [Hsel [_ ->]]]. apply in_selected_records in Hsel.
  destruct Hsel as (Hin & Hty & _ & _ & He & _).
  rewrite summary_entry_has_out, summary_entry_out_record, has_out_iff.
  apply find_employee_pk in He.
  assert (Hi : first_record s (emp_pk e) (rec_date r) IN <> None).
  { unfold first_record. intros Hnone.
    apply (find_none_forall _ _ Hnone) in Hin. unfold matches in Hin.
    rewrite He, Z.eqb_refl, Hty in Hin.
    rewrite (proj2 (date_eqb_eq _ _) eq_refl) in Hin. discriminate Hin. }
  tauto.
Qed.

Lemma summary_has_out_consistent_witness :
  let row :=
    summary_entry closed_day_store (mkdatetime day_2025_06_17 (mk_time 20 0))
      (mkAttendanceRecord 1 1 day_2025_06_17 (mk_time 9 50) IN "On time."
         None None, asha) in
  sr_has_out row = true <-> sr_out_record row <> None.
Proof.
  apply (summary_has_out_consistent closed_day_store
           (mkdatetime day_2025_06_17 (mk_time 20 0))
           day_2025_06_17 day_2025_06_17 ["E001"%string] None).
  left. reflexivity.
Defined.

(** ** The sort of the report *)

Section InsertionSort.

Context {A : Type}.
Variable lt : A -> A -> bool.
Hypothesis lt_asym : forall a b, lt a b = true -> lt b a = false.

Lemma insert_sorted_head (x : A) (l : list A) (y : A) (t : list A) :
  insert_sorted lt x l = y :: t ->
  y = x \/ (exists t', l = y :: t' /\ lt y x = true).
Proof.
  destruct l as [|z l]; cbn [insert_sorted].
  - intros H. injection H as <- _. left. reflexivity.
  - destruct (lt z x) eqn:E; intros H; injection H as <- _.
    + right. exists l. split; [reflexivity|exact E].
    + left. reflexivity.
Qed.

Lemma insert_sorted_ordered (x : A) (l : list A) :
  ordered lt l -> ordered lt (insert_sorted lt x l).
Proof.
  induction l as [|y l IH]; intros Ho.
  - cbn. split; exact I.
  - cbn [insert_sorted]. destruct (lt y x) eqn:E.
    + destruct Ho as [Hy Hl]. specialize (IH Hl).
      cbn [ordered]. split; [|exact IH].
      destruct (insert_sorted lt x l) as [|z t] eqn:Ez; [exact I|].
      destruct (insert_sorted_head _ _ _ _ Ez) as [->|[t' [-> Hz]]].
      * apply lt_asym. exact E.
      * exact Hy.
    + cbn [ordered]. split; [exact E|]. exact Ho.
Qed.

Lemma sorted_ordered (l : list A) : ordered lt (sorted lt l).
Proof.
  unfold sorted. induction l as [|x l IH]; cbn [fold_right]; [exact I|].
  apply insert_sorted_ordered. exact IH.
Qed.

Lemma ordered_nth (l : list A) (i : nat) (a b : A) :
  ordered lt l -> nth_error l i = Some a -> nth_error l (S i) = Some b ->
  lt b a = false.
Proof.
  revert i. induction l as [|x l IH]; intros i Ho Ha Hb;
    [destruct i; discriminate|].
  destruct Ho as [Hx Hl]. destruct i as [|i].
  - cbn in Ha. injection Ha as ->. destruct l as [|y l]; [discriminate|].
    cbn in Hb. injection Hb as ->. exact Hx.
  - exact (IH i Hl Ha Hb).
Qed.

End InsertionSort.

Lemma key_lt_asym (a b : SortKey) : key_lt a b = true -> key_lt b a = false.
Proof.
  destruct a as [x|x|x], b as [y|y|y]; cbn [key_lt]; try reflexivity.
  - intros H. apply Z.ltb_lt in H. apply Z.ltb_ge. lia.
  - intros H. apply negb_true_iff in H. apply negb_false_iff.
    apply Qle_bool_iff. destruct (Qlt_le_dec x y) as [Hlt|Hle].
    + apply Qlt_le_weak. exact Hlt.
    + apply Qle_bool_iff in Hle. congruence.
  - unfold String.ltb. rewrite (String.compare_antisym y x).
    destruct (String.compare x y); cbn; congruence.
Qed.

Lemma keyed_rows_ok (sort_by : string) (rows : list ReportRow)
    (keyed : list (SortKey * ReportRow)) :
  keyed_rows sort_by rows = Ok keyed ->
  map snd keyed = rows
  /\ forall p, In p keyed -> dynamic_sort_key sort_by (snd p) = Ok (fst p).
Proof.
  revert keyed. induction rows as [|r rows IH]; intros keyed;
    cbn [keyed_rows].
  - intros H. injection H as <-. split; [reflexivity|intros p []].
  - destruct (dynamic_sort_key sort_by r) as [k|e] eqn:Ek; cbn [bind];
      [|discriminate].
    destruct (keyed_rows sort_by rows) as [kt|e]; cbn [bind]; [|discriminate].
    intros H. injection H as <-. destruct (IH kt eq_refl) as [I1 I2].
    split; [cbn [map snd]; rewrite I1; reflexivity|].
    intros p [<-|Hp]; [exact Ek|exact (I2 p Hp)].
Qed.



(** When the sort of the report returns, its result holds the rows it was
    given, each as often as before, and no row is directly followed by one
    that belongs before it: in ascending order no row is followed by a row
    with a smaller key, in descending order by none with a larger key. *)
Theorem sort_records_permutation_ordered (sort_by sort_order : string)
    (rows out : list ReportRow) :
  sort_records sort_by sort_order rows = Ok out ->
  Permutation rows out
  /\ forall i a b ka kb,
       nth_error out i = Some a -> nth_error out (S i) = Some b ->
       dynamic_sort_key sort_by a = Ok ka ->
       dynamic_sort_key sort_by b = Ok kb ->
       if String.eqb sort_order "desc"
       then key_lt ka kb = false
       else key_lt kb ka = false.
Proof.
  unfold sort_records.
  destruct (keyed_rows sort_by rows) as [keyed|e] eqn:Ek; cbn [bind];
    [|discriminate].
  destruct (keyed_rows_ok _ _ _ Ek) as [Hrows Hkeys].
  set (lt := if String.eqb sort_order "desc"
             then fun a b : SortKey * ReportRow => key_lt (fst b) (fst a)
             else fun a b : SortKey * ReportRow => key_lt (fst a) (fst b)).
  intros H. injection H as <-. split.
  - rewrite <- Hrows. apply Permutation_map. apply Permutation_sym.
    apply sorted_perm.
  - intros i a b ka kb Ha Hb Hka Hkb.
    rewrite nth_error_map in Ha, Hb.
    destruct (nth_error (sorted lt keyed) i) as [p|] eqn:Ep; [|discriminate].
    destruct (nth_error (sorted lt keyed) (S i)) as [q|] eqn:Eq;
      [|discriminate].
    cbn in Ha, Hb. injection Ha as <-. injection Hb as <-.
    assert (Hp : dynamic_sort_key sort_by (snd p) = Ok (fst p)).
    { apply Hkeys. apply (in_sorted lt). exact (nth_error_In _ _ Ep). }
    assert (Hq : dynamic_sort_key sort_by (snd q) = Ok (fst q)).
    { apply Hkeys. apply (in_sorted lt). exact (nth_error_In _ _ Eq). }
    assert (Eka : ka = fst p) by congruence.
    assert (Ekb : kb = fst q) by congruence.
    subst ka kb.
    assert (Hasym : forall x y, lt x y = true -> lt y x = false).
    { unfold lt. destruct (String.eqb sort_order "desc"); intros x y;
        apply key_lt_asym. }
    pose proof (ordered_nth lt _ i p q (sorted_ordered lt Hasym keyed) Ep Eq)
      as Hord.
    unfold lt in Hord. destruct (String.eqb sort_order "desc"); exact Hord.
Qed.


Lemma sort_records_permutation_ordered_witness :
  Permutation [open_session_row; closed_session_row]
    [closed_session_row; open_session_row]
  /\ forall i a b ka kb,
       nth_error [closed_session_row; open_session_row] i = Some a ->
       nth_error [closed_session_row; open_session_row] (S i) = Some b ->
       dynamic_sort_key "date" a = Ok ka ->
       dynamic_sort_key "date" b = Ok kb ->
       if String.eqb "asc" "desc"
       then key_lt ka kb = false
       else key_lt kb ka = false.
Proof.
  apply (sort_records_permutation_ordered "date" "asc"
           [open_session_row; closed_session_row]
           [closed_session_row; open_session_row]).
  reflexivity.
Defined.


(** ** Times of day written and read back *)

Lemma reads_back_all :
  forall_from 24 0 (fun h => forall_from 60 0 (reads_back h)) = true.
Proof. vm_compute. reflexivity. Qed.

Lemma time_hour_minute (t : time) :
  valid_time t = true ->
  0 <= time_hour t < 24 /\ 0 <= time_minute t < 60.
Proof.
  unfold valid_time, time_hour, time_minute, US_PER_DAY, US_PER_SECOND.
  intros H. apply andb_prop in H. destruct H as [H0 H1].
  apply Z.leb_le in H0. apply Z.ltb_lt in H1. split; divlia.
Qed.

Lemma strftime_IMp_hm (t : time) :
  valid_time t = true ->
  strftime_IMp t = strftime_IMp (mk_time (time_hour t) (time_minute t)).
Proof.
  intros H. destruct (time_hour_minute t H) as [Hh Hm].
  unfold strftime_IMp. cbv zeta.
  assert (E1 : time_hour (mk_time (time_hour t) (time_minute t))
               = time_hour t).
  { revert Hh Hm. generalize (time_hour t) (time_minute t). intros h m Hh Hm.
    unfold time_hour, mk_time, US_PER_SECOND. divlia. }
  assert (E2 : time_minute (mk_time (time_hour t) (time_minute t))
               = time_minute t).
  { revert Hh Hm. generalize (time_hour t) (time_minute t). intros h m Hh Hm.
    unfold time_minute, mk_time, US_PER_SECOND. divlia. }
  rewrite E1, E2. reflexivity.
Qed.

(** A time of day written with [strftime('%I:%M %p')], as the summary
    writes [in_time], is read back by [strptime] with the same format, as
    the sort of the report does: the parse succeeds and yields the time cut
    to the minute. *)
Theorem strptime_reads_strftime (t : time) :
  valid_time t = true ->
  strptime_IMp (strftime_IMp t)
  = Ok (mk_time (time_hour t) (time_minute t)).
Proof.
  intros H. rewrite (strftime_IMp_hm t H).
  destruct (time_hour_minute t H) as [Hh Hm].
  pose proof (forall_from_spec _ _ _ reads_back_all (time_hour t)) as A.
  cbv beta in A. specialize (A ltac:(cbn; lia)).
  pose proof (forall_from_spec _ _ _ A (time_minute t) ltac:(cbn; lia)) as B.
  unfold reads_back in B.
  destruct (strptime_IMp _) as [t'|e]; [|discriminate].
  apply Z.eqb_eq in B. rewrite B. reflexivity.
Qed.

Lemma strptime_reads_strftime_witness :
  strptime_IMp (strftime_IMp (mk_time 19 15 + 42 * US_PER_SECOND))
  = Ok (mk_time
          (time_hour (mk_time 19 15 + 42 * US_PER_SECOND))
          (time_minute (mk_time 19 15 + 42 * US_PER_SECOND))).
Proof.
  apply (strptime_reads_strftime (mk_time 19 15 + 42 * US_PER_SECOND)).
  reflexivity.
Defined.

(** ** The lunch columns of the report *)

Lemma in_present_times (f : Break -> option time) (bs : list Break)
    (t : time) :
  In t (present_times f bs) <-> exists b, In b bs /\ f b = Some t.
Proof.
  induction bs as [|b bs IH]; cbn [present_times].
  - split; [intros []|intros [b [[] _]]].
  - destruct (f b) as [x|] eqn:E.
    + split.
      * intros [<-|H]; [exists b; split; [left; reflexivity|exact E]|].
        apply IH in H. destruct H as [b' [H1 H2]].
        exists b'. split; [right|]; assumption.
      * intros [b' [[<-|H1] H2]]; [left; congruence|].
        right. apply IH. exists b'. auto.
    + rewrite IH. split.
      * intros [b' [H1 H2]]. exists b'. split; [right|]; assumption.
      * intros [b' [[<-|H1] H2]]; [congruence|]. exists b'. auto.
Qed.

Lemma fold_min_spec (l : list Z) (x : Z) :
  In (fold_left Z.min l x) (x :: l)
  /\ forall y, In y (x :: l) -> fold_left Z.min l x <= y.
Proof.
  revert x. induction l as [|z l IH]; intros x; cbn [fold_left].
  - split; [left; reflexivity|]. intros y [<-|[]]. lia.
  - destruct (IH (Z.min x z)) as [I1 I2]. split.
    + destruct I1 as [I1|I1]; [|right; right; exact I1].
      rewrite <- I1. destruct (Z.min_spec x z) as [[_ ->]|[_ ->]];
        [left|right; left]; reflexivity.
    + intros y [<-|[<-|Hy]].
      * specialize (I2 (Z.min x z) (or_introl eq_refl)). lia.
      * specialize (I2 (Z.min x z) (or_introl eq_refl)). lia.
      * apply I2. right. exact Hy.
Qed.

Lemma fold_max_spec (l : list Z) (x : Z) :
  In (fold_left Z.max l x) (x :: l)
  /\ forall y, In y (x :: l) -> y <= fold_left Z.max l x.
Proof.
  revert x. induction l as [|z l IH]; intros x; cbn [fold_left].
  - split; [left; reflexivity|]. intros y [<-|[]]. lia.
  - destruct (IH (Z.max x z)) as [I1 I2]. split.
    + destruct I1 as [I1|I1]; [|right; right; exact I1].
      rewrite <- I1. destruct (Z.max_spec x z) as [[_ ->]|[_ ->]];
        [right; left|left]; reflexivity.
    + intros y [<-|[<-|Hy]].
      * specialize (I2 (Z.max x z) (or_introl eq_refl)). lia.
      * specialize (I2 (Z.max x z) (or_introl eq_refl)). lia.
      * apply I2. right. exact Hy.
Qed.

Lemma in_lunch_breaks (bs : list Break) (b : Break) :
  In b (lunch_breaks bs) <-> In b bs /\ break_type b = LUNCH.
Proof.
  unfold lunch_breaks, is_lunch. rewrite filter_In.
  destruct (break_type b); split; intros [H1 H2]; split;
    congruence || assumption || reflexivity.
Qed.

(** The lunch-out column of the report is computed for every list of
    breaks.  The lunch-in column raises [ValueError] exactly when the row
    has a lunch break and no lunch break has a start: the guard looks at the
    list of lunch breaks, [min] at those with a start. *)
Theorem lunch_columns_raise (bs : option (list Break)) :
  (exists r, lunch_out_time bs = Ok r)
  /\ (lunch_in_time bs = Raise ValueError
      <-> (exists b, In b (record_breaks bs) /\ break_type b = LUNCH)
          /\ (forall b, In b (record_breaks bs) -> break_type b = LUNCH ->
                break_in b = None)).
Proof.
  split.
  - unfold lunch_out_time. cbv zeta.
    destruct (existsb _ _) eqn:E; [|eexists; reflexivity].
    apply existsb_exists in E. destruct E as [b [Hb Ho]].
    destruct (break_out b) as [t|] eqn:Et; [|discriminate].
    assert (Ht : In t (present_times break_out
                         (lunch_breaks (record_breaks bs))))
      by (apply in_present_times; exists b; auto).
    destruct (present_times break_out _) as [|x l]; [destruct Ht|].
    cbn. eexists; reflexivity.
  - unfold lunch_in_time. cbv zeta.
    destruct (lunch_breaks (record_breaks bs)) as [|b0 l] eqn:El.
    + split; [discriminate|]. intros [[b [Hb Hty]] _].
      assert (H : In b (lunch_breaks (record_breaks bs)))
        by (apply in_lunch_breaks; auto).
      rewrite El in H. destruct H.
    + rewrite <- El.
      destruct (present_times break_in (lunch_breaks (record_breaks bs)))
        as [|x xs] eqn:Ep.
      * cbn. split; [intros _|reflexivity]. split.
        -- exists b0. apply in_lunch_breaks. rewrite El. left. reflexivity.
        -- intros b Hb Hty. destruct (break_in b) as [t|] eqn:Et;
             [|reflexivity].
           assert (H : In t (present_times break_in
                               (lunch_breaks (record_breaks bs)))).
           { apply in_present_times. exists b. split; [|exact Et].
             apply in_lunch_breaks. auto. }
           rewrite Ep in H. destruct H.
      * cbn. split; [discriminate|]. intros [_ Hnone].
        assert (H : In x (present_times break_in
                            (lunch_breaks (record_breaks bs))))
          by (rewrite Ep; left; reflexivity).
        apply in_present_times in H. destruct H as [b [Hb Et]].
        apply in_lunch_breaks in Hb. destruct Hb as [Hb Hty].
        rewrite (Hnone b Hb Hty) in Et. discriminate Et.
Qed.

(** On every store the state machine produces, the lunch-in column of the
    report is computed for every row: it is empty when the row has no lunch
    break, and otherwise the earliest start of its lunch breaks. *)
Theorem lunch_in_time_on_reachable
    (geodesic_meters : Q * Q -> Q * Q -> GeoOutcome) (s : Store)
    (r : AttendanceRecord) :
  reachable geodesic_meters s -> In r (records s) ->
  exists res,
    lunch_in_time (breaks r) = Ok res
    /\ match res with
       | Some t =>
           (exists b, In b (record_breaks (breaks r))
                      /\ break_type b = LUNCH /\ break_in b = Some t)
           /\ (forall b t', In b (record_breaks (breaks r)) ->
                 break_type b = LUNCH -> break_in b = Some t' -> t <= t')
       | None =>
           forall b, In b (record_breaks (breaks r)) -> break_type b <> LUNCH
       end.
Proof.
  intros Hreach Hr. pose proof (reachable_store_ok _ _ Hreach) as Hok.
  unfold lunch_in_time. cbv zeta.
  destruct (lunch_breaks (record_breaks (breaks r))) as [|b0 l] eqn:El.
  - exists None. split; [reflexivity|]. intros b Hb Hty.
    assert (H : In b (lunch_breaks (record_breaks (breaks r))))
      by (apply in_lunch_breaks; auto).
    rewrite El in H. destruct H.
  - rewrite <- El.
    assert (H0 : In b0 (lunch_breaks (record_breaks (breaks r))))
      by (rewrite El; left; reflexivity).
    apply in_lunch_breaks in H0. destruct H0 as [Hb0 Hty0].
    destruct (breaks r) as [bs|] eqn:Eb; [|destruct Hb0].
    cbn [record_breaks] in *.
    destruct (Hok r bs Hr Eb) as [Hin _].
    destruct (break_in b0) as [t0|] eqn:Et0;
      [|contradiction (Hin b0 Hb0 Et0)].
    assert (Hp : In t0 (present_times break_in (lunch_breaks bs))).
    { apply in_present_times. exists b0. split; [|exact Et0].
      apply in_lunch_breaks. auto. }
    destruct (present_times break_in (lunch_breaks bs)) as [|x xs] eqn:Ep;
      [destruct Hp|].
    cbn [py_min bind]. exists (Some (fold_left Z.min xs x)).
    split; [reflexivity|].
    destruct (fold_min_spec xs x) as [M1 M2].
    assert (M1' : In (fold_left Z.min xs x)
                    (present_times break_in (lunch_breaks bs)))
      by (rewrite Ep; exact M1).
    assert (M2' : forall y, In y (present_times break_in (lunch_breaks bs)) ->
                    fold_left Z.min xs x <= y)
      by (rewrite Ep; exact M2).
    split.
    + apply in_present_times in M1'. destruct M1' as [b [Hb Et]].
      apply in_lunch_breaks in Hb. exists b. tauto.
    + intros b t' Hb Hty Et. apply M2'. apply in_present_times.
      exists b. split; [|exact Et]. apply in_lunch_breaks. auto.
Qed.

Lemma lunch_in_time_on_reachable_witness :
  let bs := Some [mkBreak LUNCH (Some (mk_time 13 45)) None] in
  exists res,
    lunch_in_time bs = Ok res
    /\ match res with
       | Some t =>
           (exists b, In b (record_breaks bs)
                      /\ break_type b = LUNCH /\ break_in b = Some t)
           /\ (forall b t', In b (record_breaks bs) ->
                 break_type b = LUNCH -> break_in b = Some t' -> t <= t')
       | None => forall b, In b (record_breaks bs) -> break_type b <> LUNCH
       end.
Proof.
  apply (lunch_in_time_on_reachable flat_geodesic lunch_open_store
           (mkAttendanceRecord 1 1 day_2025_06_17 (mk_time 9 50) IN
              "On time." None
              (Some [mkBreak LUNCH (Some (mk_time 13 45)) None]))
           lunch_open_store_reachable).
  left. vm_compute. reflexivity.
Defined.
